(** * Diagnostics pipeline of the Compass server

    A shallow embedding of [src/server/src/diagnostics.py] (class
    [DiagnosticsService]) together with the parts of
    [src/server/src/database.py] and of the Python runtime it relies on
    ([str.replace], [str.strip], [json.loads], string formatting of a
    float with [.1f], the stable [sorted]).

    Conventions.
    - A Python [str] is a list of Unicode code points ([pystr]).
    - A call that may raise returns a [result]; the exceptions are the
      ones the code can raise on the modelled paths.
    - The language model behind [ClaudeClient.generate] is a script of
      replies consumed one per call; every request is logged.
    - The store holds what [save_chat_history] and [save_prompt]
      write.  An assignment id is joined to the path of the chat
      directory: an id that is a plain file name leads to its own
      directory, the id [..] leads to the directory of the store
      itself, and what any other id leads to is [Unmodelled].
    - [json.loads] is modelled within the limits of the interpreter
      (depth of nesting, digits of an integer literal); beyond them
      the outcome is [Unmodelled].
    - Decoded numbers are kept as text.  The one place where Python
      would need their value (a number used as a category, hence as a
      dictionary key) is reported as [Unmodelled]. *)

From Stdlib Require Import ZArith NArith List String Ascii Floats Lia DecimalString.
From Stdlib Require Import Permutation Sorted.
From stdpp Require Import gmap list.
Import ListNotations.

Set Default Proof Using "Type".

(* ================================================================== *)
(** ** Python strings *)
(* ================================================================== *)

Module Py.

(** A [str] value: its code points, in order. *)
Abbreviation pystr := (list N).

(** ASCII literal to [str]. *)
Definition py (s : string) : pystr :=
  List.map N_of_ascii (list_ascii_of_string s).

(** [sep.join(parts)] *)
Fixpoint join (sep : pystr) (parts : list pystr) : pystr :=
  match parts with
  | [] => []
  | [p] => p
  | p :: ps => p ++ sep ++ join sep ps
  end.

(** [s.startswith(p)] *)
Fixpoint startswith (p s : pystr) : bool :=
  match p, s with
  | [], _ => true
  | _ :: _, [] => false
  | a :: p', b :: s' => (a =? b)%N && startswith p' s'
  end.

(** [s.replace(old, new)] for a non-empty [old]: the occurrences of
    [old] are found from the left and do not overlap.  [skip] counts
    the characters of the current occurrence still to be dropped. *)
Fixpoint replace_from (old new : pystr) (skip : nat) (s : pystr) : pystr :=
  match s with
  | [] => []
  | c :: s' =>
      match skip with
      | S k => replace_from old new k s'
      | O =>
          if startswith old s
          then new ++ replace_from old new (length old - 1) s'
          else c :: replace_from old new 0 s'
      end
  end.

Definition replace (old new s : pystr) : pystr := replace_from old new 0 s.

(** [c.isspace()]: the code points [str.strip()] removes. *)
Definition isspace (c : N) : bool :=
  ((9 <=? c) && (c <=? 13) || (28 <=? c) && (c <=? 32)
   || (c =? 133) || (c =? 160) || (c =? 5760)
   || (8192 <=? c) && (c <=? 8202)
   || (c =? 8232) || (c =? 8233) || (c =? 8239) || (c =? 8287)
   || (c =? 12288))%N.

Fixpoint lstrip (s : pystr) : pystr :=
  match s with
  | c :: s' => if isspace c then lstrip s' else s
  | [] => []
  end.

Definition rstrip (s : pystr) : pystr := rev (lstrip (rev s)).

(** [s.strip()] *)
Definition strip (s : pystr) : pystr := rstrip (lstrip s).

(** [str(n)] for a non-negative [int]. *)
Definition str_of_nat (n : nat) : pystr :=
  py (NilEmpty.string_of_uint (Nat.to_uint n)).

End Py.
Export Py.

(* ================================================================== *)
(** ** Results of calls that may raise *)
(* ================================================================== *)

(** The exceptions of the modelled paths.  [ProviderError] stands for
    whatever the language-model client raises. *)
Inductive exn :=
| JSONDecodeError
| AttributeError
| TypeError
| KeyError
| ProviderError.

(** [Unmodelled]: the call leaves the modelled fragment of Python (a
    JSON number used as a dictionary key, see [dict_key]; a text
    beyond the limits of the decoder, see [json_loads]; an id that is
    a path, see [load_all_chat_histories]); nothing is said about what
    the program does then. *)
Inductive result (A : Type) :=
| Ok (a : A)
| Raise (e : exn)
| Unmodelled.
Arguments Ok {A} a.
Arguments Raise {A} e.
Arguments Unmodelled {A}.

Definition bind {A B} (r : result A) (k : A -> result B) : result B :=
  match r with
  | Ok a => k a
  | Raise e => Raise e
  | Unmodelled => Unmodelled
  end.

Declare Scope py_scope.
Delimit Scope py_scope with pyr.
Notation "'let*' x ':=' r 'in' k" := (bind r (fun x => k))
  (at level 10, x name, r at level 100, k at level 200) : py_scope.
Open Scope py_scope.

(** A [for] loop whose body may raise, accumulating a state. *)
Fixpoint for_each {A S} (body : S -> A -> result S) (xs : list A) (s : S)
  : result S :=
  match xs with
  | [] => Ok s
  | x :: xs' => let* s' := body s x in for_each body xs' s'
  end.

Definition succeeded {A} (r : result A) : Prop := exists a, r = Ok a.
Definition raised {A} (r : result A) : Prop := exists e, r = Raise e.

(* ================================================================== *)
(** ** JSON values and [json.loads] *)
(* ================================================================== *)

(** What [json.loads] builds.  A [dict] keeps its keys in insertion
    order.  A number is kept as the text of its literal: the pipeline
    never computes with a decoded number. *)
#[local] Unset Elimination Schemes.
Inductive json :=
| JNull
| JBool (b : bool)
| JNum (lexeme : pystr)
| JStr (s : pystr)
| JArr (items : list json)
| JObj (fields : list (pystr * json)).
#[local] Set Elimination Schemes.

(** [d[k] = v] on an insertion-ordered dict. *)
Fixpoint dict_set {V} (d : list (pystr * V)) (k : pystr) (v : V)
  : list (pystr * V) :=
  match d with
  | [] => [(k, v)]
  | (k', v') :: d' =>
      if decide (k' = k) then (k', v) :: d' else (k', v') :: dict_set d' k v
  end.

(** [d.get(k)] *)
Fixpoint dict_lookup {V} (d : list (pystr * V)) (k : pystr) : option V :=
  match d with
  | [] => None
  | (k', v) :: d' => if decide (k' = k) then Some v else dict_lookup d' k
  end.

Module Decoder.

(** Outcome of scanning a prefix of the text. *)
Inductive scan (A : Type) :=
| Scanned (a : A) (rest : pystr)
| Bad
| NoFuel.
Arguments Scanned {A} a rest.
Arguments Bad {A}.
Arguments NoFuel {A}.

(** The decoder's own whitespace: space, tab, line feed, carriage return. *)
Definition is_ws (c : N) : bool :=
  ((c =? 32) || (c =? 9) || (c =? 10) || (c =? 13))%N.

Fixpoint skip_ws (s : pystr) : pystr :=
  match s with
  | c :: s' => if is_ws c then skip_ws s' else s
  | [] => []
  end.

Definition is_digit (c : N) : bool := ((48 <=? c) && (c <=? 57))%N.

Definition hex_digit (c : N) : option N :=
  if ((48 <=? c) && (c <=? 57))%N then Some (c - 48)%N
  else if ((97 <=? c) && (c <=? 102))%N then Some (c - 87)%N
  else if ((65 <=? c) && (c <=? 70))%N then Some (c - 55)%N
  else None.

Definition hex4 (a b c d : N) : option N :=
  match hex_digit a, hex_digit b, hex_digit c, hex_digit d with
  | Some x, Some y, Some z, Some w => Some (((x * 16 + y) * 16 + z) * 16 + w)%N
  | _, _, _, _ => None
  end.

Definition is_high_surrogate (c : N) : bool := ((55296 <=? c) && (c <=? 56319))%N.
Definition is_low_surrogate (c : N) : bool := ((56320 <=? c) && (c <=? 57343))%N.
Definition join_surrogates (hi lo : N) : N :=
  (65536 + (hi - 55296) * 1024 + (lo - 56320))%N.

(** The character a one-letter escape stands for. *)
Definition simple_escape (c : N) : option N :=
  if (c =? 34)%N then Some 34%N          (* quote *)
  else if (c =? 92)%N then Some 92%N     (* backslash *)
  else if (c =? 47)%N then Some 47%N     (* slash *)
  else if (c =? 98)%N then Some 8%N      (* b *)
  else if (c =? 102)%N then Some 12%N    (* f *)
  else if (c =? 110)%N then Some 10%N    (* n *)
  else if (c =? 114)%N then Some 13%N    (* r *)
  else if (c =? 116)%N then Some 9%N     (* t *)
  else None.

Definition cons_scanned (c : N) (r : option (pystr * pystr))
  : option (pystr * pystr) :=
  match r with
  | Some (cs, rest) => Some (c :: cs, rest)
  | None => None
  end.

(** The body of a string literal, after its opening quote (strict
    mode: a raw control character is an error).  [None] is a decode
    error. *)
Fixpoint scanstring (s : pystr) : option (pystr * pystr) :=
  match s with
  | [] => None
  | c :: s1 =>
      if (c =? 34)%N then Some ([], s1)
      else if (c =? 92)%N then
        match s1 with
        | [] => None
        | e :: s2 =>
            if (e =? 117)%N then
              match s2 with
              | h1 :: h2 :: h3 :: h4 :: s3 =>
                  match hex4 h1 h2 h3 h4 with
                  | None => None
                  | Some cu =>
                      if is_high_surrogate cu then
                        match s3 with
                        | b :: u :: l1 :: l2 :: l3 :: l4 :: s4 =>
                            if ((b =? 92) && (u =? 117))%N then
                              match hex4 l1 l2 l3 l4 with
                              | None => None
                              | Some lo =>
                                  if is_low_surrogate lo
                                  then cons_scanned (join_surrogates cu lo)
                                                    (scanstring s4)
                                  else cons_scanned cu (scanstring s3)
                              end
                            else cons_scanned cu (scanstring s3)
                        | _ => cons_scanned cu (scanstring s3)
                        end
                      else cons_scanned cu (scanstring s3)
                  end
              | _ => None
              end
            else
              match simple_escape e with
              | Some ch => cons_scanned ch (scanstring s2)
              | None => None
              end
        end
      else if (c <=? 31)%N then None
      else cons_scanned c (scanstring s1)
  end.

(** The longest run of decimal digits at the front. *)
Fixpoint span_digits (s : pystr) : pystr * pystr :=
  match s with
  | c :: s' =>
      if is_digit c
      then let '(ds, rest) := span_digits s' in (c :: ds, rest)
      else ([], s)
  | [] => ([], [])
  end.

(** Integer part: [0] or a non-zero digit followed by digits. *)
Definition match_int (s : pystr) : option (pystr * pystr) :=
  match s with
  | d :: s' =>
      if (d =? 48)%N then Some ([d], s')
      else if is_digit d
           then let '(ds, rest) := span_digits s' in Some (d :: ds, rest)
           else None
  | [] => None
  end.

(** Optional fraction: a dot followed by at least one digit. *)
Definition match_frac (s : pystr) : pystr * pystr :=
  match s with
  | dot :: d :: s' =>
      if ((dot =? 46) && is_digit d)%N
      then let '(ds, rest) := span_digits s' in (dot :: d :: ds, rest)
      else ([], s)
  | _ => ([], s)
  end.

(** Optional exponent: [e] or [E], an optional sign, at least one digit. *)
Definition match_exp (s : pystr) : pystr * pystr :=
  match s with
  | e :: s1 =>
      if ((e =? 101) || (e =? 69))%N then
        let '(sign, s2) :=
          match s1 with
          | sg :: s2' =>
              if ((sg =? 45) || (sg =? 43))%N then ([sg], s2') else ([], s1)
          | [] => ([], s1)
          end in
        let '(ds, rest) := span_digits s2 in
        match ds with
        | [] => ([], s)
        | _ :: _ => (e :: sign ++ ds, rest)
        end
      else ([], s)
  | [] => ([], s)
  end.

(** A number literal; the decoded value is its text. *)
Definition match_number (s : pystr) : option (pystr * pystr) :=
  let '(sign, s1) :=
    match s with
    | c :: s' => if (c =? 45)%N then ([c], s') else ([], s)
    | [] => ([], s)
    end in
  match match_int s1 with
  | None => None
  | Some (ip, s2) =>
      let '(fp, s3) := match_frac s2 in
      let '(ep, s4) := match_exp s3 in
      Some (sign ++ ip ++ fp ++ ep, s4)
  end.

(** The value that starts at the head of [s] ([scan_once] of the
    decoder), and what follows it. *)
Fixpoint scan_once (fuel : nat) (s : pystr) : scan json :=
  match fuel with
  | O => NoFuel
  | S fuel' =>
      match s with
      | [] => Bad
      | c :: s1 =>
          if (c =? 34)%N then
            match scanstring s1 with
            | Some (str, rest) => Scanned (JStr str) rest
            | None => Bad
            end
          else if (c =? 123)%N then
            match skip_ws s1 with
            | c' :: s2 =>
                if (c' =? 125)%N then Scanned (JObj []) s2
                else scan_members fuel' [] (c' :: s2)
            | [] => Bad
            end
          else if (c =? 91)%N then
            match skip_ws s1 with
            | c' :: s2 =>
                if (c' =? 93)%N then Scanned (JArr []) s2
                else scan_items fuel' [] (c' :: s2)
            | [] => Bad
            end
          else if startswith (py "null") s then Scanned JNull (drop 4 s)
          else if startswith (py "true") s then Scanned (JBool true) (drop 4 s)
          else if startswith (py "false") s then Scanned (JBool false) (drop 5 s)
          else if startswith (py "NaN") s then Scanned (JNum (py "NaN")) (drop 3 s)
          else if startswith (py "Infinity") s
               then Scanned (JNum (py "Infinity")) (drop 8 s)
          else if startswith (py "-Infinity") s
               then Scanned (JNum (py "-Infinity")) (drop 9 s)
          else
            match match_number s with
            | Some (lexeme, rest) => Scanned (JNum lexeme) rest
            | None => Bad
            end
      end
  end

(** The members of an object from the first key on; [acc] holds the
    pairs read so far. *)
with scan_members (fuel : nat) (acc : list (pystr * json)) (s : pystr)
  : scan json :=
  match fuel with
  | O => NoFuel
  | S fuel' =>
      match s with
      | q :: s1 =>
          if (q =? 34)%N then
            match scanstring s1 with
            | None => Bad
            | Some (key, s2) =>
                match skip_ws s2 with
                | colon :: s3 =>
                    if (colon =? 58)%N then
                      match scan_once fuel' (skip_ws s3) with
                      | Scanned v s4 =>
                          let acc' := dict_set acc key v in
                          match skip_ws s4 with
                          | d :: s5 =>
                              if (d =? 125)%N then Scanned (JObj acc') s5
                              else if (d =? 44)%N
                                   then scan_members fuel' acc' (skip_ws s5)
                                   else Bad
                          | [] => Bad
                          end
                      | Bad => Bad
                      | NoFuel => NoFuel
                      end
                    else Bad
                | [] => Bad
                end
            end
          else Bad
      | [] => Bad
      end
  end

(** The items of an array from the first item on; [acc] holds the
    items read so far, last one first. *)
with scan_items (fuel : nat) (acc : list json) (s : pystr) : scan json :=
  match fuel with
  | O => NoFuel
  | S fuel' =>
      match scan_once fuel' s with
      | Scanned v s1 =>
          match skip_ws s1 with
          | d :: s2 =>
              if (d =? 93)%N then Scanned (JArr (rev (v :: acc))) s2
              else if (d =? 44)%N
                   then scan_items fuel' (v :: acc) (skip_ws s2)
                   else Bad
          | [] => Bad
          end
      | Bad => Bad
      | NoFuel => NoFuel
      end
  end.

(** Fuel that is always enough: each level of recursion consumes a
    character, and a step uses at most two units per character. *)
Definition enough_fuel (s : pystr) : nat := 2 * length s + 2.

(** The largest number of arrays and objects open at once while [s]
    is read from left to right, brackets inside strings apart.  As
    long as the decoder has not rejected the text it is inside a
    string exactly when this scan is, and has as many containers open,
    so that it never recurses deeper than this. *)
Fixpoint deepest (in_string : bool) (depth : nat) (s : pystr) : nat :=
  match s with
  | [] => depth
  | c :: r =>
      if in_string then
        if (c =? 92)%N then
          match r with
          | _ :: r' => deepest true depth r'
          | [] => depth
          end
        else deepest (negb (c =? 34)%N) depth r
      else if (c =? 34)%N then deepest true depth r
      else if ((c =? 91) || (c =? 123))%N
           then Nat.max (S depth) (deepest false (S depth) r)
      else if ((c =? 93) || (c =? 125))%N then deepest false (pred depth) r
      else deepest false depth r
  end.

(** The longest run of decimal digits in [s]; [run] digits precede. *)
Fixpoint longest_digits (run : nat) (s : pystr) : nat :=
  match s with
  | [] => run
  | c :: r =>
      if is_digit c then longest_digits (S run) r
      else Nat.max run (longest_digits 0 r)
  end.

(** The decoder recurses once per level of nesting, and the
    interpreter ends a recursion that goes too deep with
    [RecursionError]; where it does so depends on its recursion limit
    (1000 by default) and on the calls around.  Nesting up to this
    depth stays well below. *)
Definition max_nesting : nat := 100.

(** [sys.get_int_max_str_digits()]: an integer literal with more
    digits makes [int] raise [ValueError]. *)
Definition max_str_digits : nat := 4300.

(** Texts the interpreter decodes without meeting its limits. *)
Definition within_limits (s : pystr) : bool :=
  (deepest false 0 s <=? max_nesting)%nat
  && (longest_digits 0 s <=? max_str_digits)%nat.

End Decoder.

(** [json.loads(s)]: one value, surrounded by optional whitespace.
    On a text nested deeper than [max_nesting], or with a run of more
    than [max_str_digits] digits, the interpreter may raise
    [RecursionError] or [ValueError] instead of decoding: such texts
    are left out. *)
Definition json_loads (s : pystr) : result json :=
  if Decoder.within_limits s then
    let s0 := Decoder.skip_ws s in
    match Decoder.scan_once (Decoder.enough_fuel s0) s0 with
    | Decoder.Scanned v rest =>
        match Decoder.skip_ws rest with
        | [] => Ok v
        | _ :: _ => Raise JSONDecodeError
        end
    | Decoder.Bad => Raise JSONDecodeError
    | Decoder.NoFuel => Unmodelled
    end
  else Unmodelled.

(* ================================================================== *)
(** ** Dynamic operations on decoded values *)
(* ================================================================== *)

(** [v.get(k, default)]: only a [dict] has [get]. *)
Definition py_get (v : json) (k : pystr) (default : json) : result json :=
  match v with
  | JObj d => Ok (match dict_lookup d k with Some x => x | None => default end)
  | _ => Raise AttributeError
  end.

(** [v[k]] for a [str] key [k]. *)
Definition py_getitem (v : json) (k : pystr) : result json :=
  match v with
  | JObj d =>
      match dict_lookup d k with
      | Some x => Ok x
      | None => Raise KeyError
      end
  | _ => Raise TypeError
  end.

(** The items a [for] loop over [v] visits: the elements of a list,
    the keys of a dict, the characters of a string. *)
Definition py_iter (v : json) : result (list json) :=
  match v with
  | JArr l => Ok l
  | JObj d => Ok (List.map (fun kv => JStr (fst kv)) d)
  | JStr s => Ok (List.map (fun c => JStr [c]) s)
  | JNull | JBool _ | JNum _ => Raise TypeError
  end.

(** Use of [v] as a dictionary key.  Lists and dicts are unhashable.
    A number as a key is outside the model: numbers are kept as text
    and Python compares numeric keys by value. *)
Definition dict_key (v : json) : result json :=
  match v with
  | JStr _ | JBool _ | JNull => Ok v
  | JNum _ => Unmodelled
  | JArr _ | JObj _ => Raise TypeError
  end.

(** Equality of two hashable keys (a string, a boolean or [None]). *)
Definition key_eqb (a b : json) : bool :=
  match a, b with
  | JStr s, JStr t => if decide (s = t) then true else false
  | JBool x, JBool y => Bool.eqb x y
  | JNull, JNull => true
  | _, _ => false
  end.

(** [str(v)] for a key. *)
Definition key_str (v : json) : pystr :=
  match v with
  | JStr s => s
  | JBool true => py "True"
  | JBool false => py "False"
  | _ => py "None"
  end.

(* ================================================================== *)
(** ** Conversation store ([database.py]) *)
(* ================================================================== *)

Record message := { role : pystr; content : pystr }.

(** One saved chat file. *)
Record chat_history := {
  h_student_id : pystr;
  conversation : list message
}.

(** The store: per assignment directory its chat files (no entry when
    the directory does not exist), and the metadata file. *)
Record DatabaseService := {
  chat_histories : gmap pystr (list chat_history);
  metadata : gmap pystr (gmap pystr pystr)
}.

(** A code point that a file name can hold: not a surrogate. *)
Definition scalar (c : N) : bool :=
  ((c <? 55296) || (57343 <? c) && (c <? 1114112))%N.

(** An id that, joined to a directory, names an entry of that
    directory: not empty, not too long, no slash, no NUL, not a dot
    name. *)
Definition plain_name (id : pystr) : bool :=
  match id with
  | [] => false
  | _ :: _ =>
      (length id <=? 60)%nat
      && forallb (fun c => scalar c && negb (c =? 0)%N && negb (c =? 47)%N) id
      && negb (if decide (id = py ".") then true else false)
      && negb (if decide (id = py "..") then true else false)
  end.

(** What [json.load] returns for a file the glob finds: a chat file,
    or the metadata file when the id leads to the directory of the
    store. *)
Inductive history :=
| ChatFile (h : chat_history)
| MetadataFile (m : gmap pystr (gmap pystr pystr)).

(** [load_all_chat_histories]: the [*.json] files of the directory
    [chat_histories_path / assignment_id].  For a plain name that is
    the directory of the assignment, if there is one; for [..] it is
    the directory of the store, whose one such file is
    [metadata.json]. *)
Definition load_all_chat_histories (db : DatabaseService)
    (assignment_id : pystr) : result (list history) :=
  if plain_name assignment_id then
    match chat_histories db !! assignment_id with
    | None => Ok []
    | Some files => Ok (List.map ChatFile files)
    end
  else if decide (assignment_id = py "..") then Ok [MetadataFile (metadata db)]
  else Unmodelled.

(** [[msg['content'] for msg in history['conversation']]].  In the
    metadata file the key is looked up among the assignment ids, and
    the messages of an entry found there are its field names, which
    are strings and cannot be indexed by a string. *)
Definition messages_of (h : history) : result (list pystr) :=
  match h with
  | ChatFile h => Ok (List.map content (conversation h))
  | MetadataFile m =>
      match m !! py "conversation" with
      | None => Raise KeyError
      | Some entry => if decide (entry = ∅) then Ok [] else Raise TypeError
      end
  end.

(** The loop over the histories. *)
Fixpoint conversations_of (histories : list history)
  : result (list (list pystr)) :=
  match histories with
  | [] => Ok []
  | h :: rest =>
      let* messages := messages_of h in
      let* others := conversations_of rest in
      Ok (messages :: others)
  end.

Definition get_conversations_for_diagnostics (db : DatabaseService)
    (assignment_id : pystr) : result (list (list pystr) * pystr) :=
  let* histories := load_all_chat_histories db assignment_id in
  let* conversations := conversations_of histories in
  let meta := default ∅ (metadata db !! assignment_id) in
  let exam_content := default [] (meta !! py "exam_content") in
  Ok (conversations, exam_content).

(* ================================================================== *)
(** ** Reports *)
(* ================================================================== *)

Inductive category_type := understood | struggled.

(** An entry of the canonical category list. *)
Record canonical := { category : json; type : category_type }.

(** What [analysis_cache] holds for an assignment. *)
Record cache_entry := {
  ce_assignment_id : pystr;
  ce_student_analyses : list json;
  ce_statistics : pystr;
  ce_canonical_categories : list canonical;
  ce_exam_content : pystr
}.

(** What [analyze_assignment] returns. *)
Inductive payload :=
| NoHistories (assignment_id error : pystr)
| Report (assignment_id : pystr) (total_students : nat)
         (overview statistics : pystr) (student_analyses : list json).



(* ================================================================== *)
(** ** Language model client ([llm_client.py]) *)
(* ================================================================== *)

(** What a call of [generate] comes back with. *)
Inductive reply :=
| Text (t : pystr)
| Failure.

(** What a call hands to the model: the data its prompt is built
    from.  The fixed wording of the prompts is left out. *)
Inductive request :=
| FirstStudentRequest (exam_content conv_text : pystr)
| StudentRequest (canonical_names : list json)
                 (exam_content conv_text : pystr) (student_num : nat)
| OverviewRequest (analyses : list json) (stats : pystr)
| QueryRequest (analysis_data : cache_entry) (question : pystr).

(** The client: the replies still to come, and the requests made so
    far.  A script that has run out stands for a model that no longer
    answers. *)
Record ClaudeClient := {
  script : list reply;
  calls : list request
}.

Definition generate (req : request) (llm : ClaudeClient)
  : result pystr * ClaudeClient :=
  let llm' := {| script := tail (script llm); calls := calls llm ++ [req] |} in
  match script llm with
  | Text t :: _ => (Ok t, llm')
  | Failure :: _ | [] => (Raise ProviderError, llm')
  end.

(** Computations that call the model and may raise. *)
Definition M (A : Type) : Type := ClaudeClient -> result A * ClaudeClient.

Definition ret {A} (a : A) : M A := fun llm => (Ok a, llm).

Definition lift {A} (r : result A) : M A := fun llm => (r, llm).

Definition mbind {A B} (m : M A) (k : A -> M B) : M B :=
  fun llm =>
    match m llm with
    | (Ok a, llm') => k a llm'
    | (Raise e, llm') => (Raise e, llm')
    | (Unmodelled, llm') => (Unmodelled, llm')
    end.

Declare Scope llm_scope.
Delimit Scope llm_scope with llm.
Notation "'let!' x ':=' m 'in' k" := (mbind m (fun x => k))
  (at level 10, x name, m at level 100, k at level 200) : llm_scope.

(* ================================================================== *)
(** ** [DiagnosticsService] *)
(* ================================================================== *)

Record DiagnosticsService := {
  db : DatabaseService;
  llm : ClaudeClient;
  analysis_cache : gmap pystr cache_entry
}.

(** [_format_conversation]: even positions are the student's turns. *)
Fixpoint format_from (i : nat) (messages : list pystr) : pystr :=
  match messages with
  | [] => []
  | msg :: rest =>
      (if Nat.even i then py "Student" else py "Assistant")
        ++ py ": " ++ msg ++ [10%N] ++ format_from (S i) rest
  end.

Definition _format_conversation (messages : list pystr) : pystr :=
  format_from 0 messages.

(** The cleaning both extraction passes apply to a reply:
    [response.replace('```json', '').replace('```', '').strip()]. *)
Definition clean_response (response : pystr) : pystr :=
  strip (replace (py "```") [] (replace (py "```json") [] response)).

Definition _analyze_first_student (conversation : list pystr)
    (exam_content : pystr) : M json :=
  (let conv_text := _format_conversation conversation in
   let! response := generate (FirstStudentRequest exam_content conv_text) in
   let response := clean_response response in
   lift (json_loads response))%llm.

Definition _analyze_student (conversation : list pystr)
    (exam_content : pystr) (canonical_categories : list canonical)
    (student_num : nat) : M json :=
  (let names := List.map category canonical_categories in
   let conv_text := _format_conversation conversation in
   let! response := generate (StudentRequest names exam_content conv_text
                                             student_num) in
   let response := clean_response response in
   lift (json_loads response))%llm.

(** One of the two loops of [_extract_categories]. *)
Definition collect_categories (first_analysis : json) (field : pystr)
    (tag : category_type) (categories : list canonical)
  : result (list canonical) :=
  let* value := py_get first_analysis field (JArr []) in
  let* items := py_iter value in
  for_each
    (fun categories item =>
       let* c := py_getitem item (py "category") in
       Ok (categories ++ [{| category := c; type := tag |}]))
    items categories.

Definition _extract_categories (first_analysis : json)
  : result (list canonical) :=
  let categories := [] in
  let* categories :=
    collect_categories first_analysis (py "understood_well") understood
                       categories in
  let* categories :=
    collect_categories first_analysis (py "struggled_with") struggled
                       categories in
  Ok categories.

(* ------------------------------------------------------------------ *)
(** *** Statistics *)
(* ------------------------------------------------------------------ *)

(** A counting dict: keys in the order they were first seen. *)
Abbreviation counts := (list (json * nat)).

(** [counts[k] = counts.get(k, 0) + 1] *)
Fixpoint counts_incr (c : counts) (k : json) : counts :=
  match c with
  | [] => [(k, 1)]
  | (k', n) :: c' =>
      if key_eqb k' k then (k', S n) :: c' else (k', n) :: counts_incr c' k
  end.

(** One of the two counting loops of [_generate_statistics]. *)
Definition count_categories (field : pystr) (analyses : list json)
  : result counts :=
  for_each
    (fun c analysis =>
       let* value := py_get analysis field (JArr []) in
       let* items := py_iter value in
       for_each
         (fun c item =>
            let* category := py_getitem item (py "category") in
            let* key := dict_key category in
            Ok (counts_incr c key))
         items c)
    analyses [].

(** [sorted(items, key=lambda x: x[1], reverse=True)]: by count,
    largest first; items with the same count keep their order. *)
Fixpoint insert_desc (x : json * nat) (l : counts) : counts :=
  match l with
  | [] => [x]
  | y :: l' => if snd y <=? snd x then x :: l else y :: insert_desc x l'
  end.

Fixpoint sorted_desc (l : counts) : counts :=
  match l with
  | [] => []
  | x :: l' => insert_desc x (sorted_desc l')
  end.

(** [sorted(...)[:5]] *)
Definition top5 (c : counts) : counts := take 5 (sorted_desc c).

(** An [int] as a [float], exact below [2^53]. *)
Definition float_of_nat (n : nat) : float :=
  PrimFloat.of_uint63 (Uint63.of_Z (Z.of_nat n)).

(** [(count / total_students) * 100] *)
Definition percentage (count total_students : nat) : float :=
  PrimFloat.mul (PrimFloat.div (float_of_nat count) (float_of_nat total_students))
                (float_of_nat 100).

Definition str_of_N (n : N) : pystr :=
  py (NilEmpty.string_of_uint (N.to_uint n)).

(** The value of [m * 2^e] in tenths, rounded to the nearest integer,
    a tie going to the even one. *)
Definition round_tenths (m : positive) (e : Z) : Z :=
  let n := (Z.pos m * 10)%Z in
  if (0 <=? e)%Z then (n * 2 ^ e)%Z
  else
    let d := (2 ^ (- e))%Z in
    let q := (n / d)%Z in
    let r := (n mod d)%Z in
    if (2 * r <? d)%Z then q
    else if (d <? 2 * r)%Z then (q + 1)%Z
    else if Z.even q then q else (q + 1)%Z.

(** [f"{x:.1f}"] *)
Definition format_1f (x : float) : pystr :=
  match Prim2SF x with
  | S754_zero s => if s then py "-0.0" else py "0.0"
  | S754_infinity s => if s then py "-inf" else py "inf"
  | S754_nan => py "nan"
  | S754_finite s m e =>
      let t := Z.to_N (round_tenths m e) in
      (if s then py "-" else [])
        ++ str_of_N (t / 10) ++ py "." ++ str_of_N (t mod 10)
  end.

(** One bullet of a section. *)
Definition bullet (total_students : nat) (entry : json * nat) : pystr :=
  let '(topic, count) := entry in
  let pct := percentage count total_students in
  py "- **" ++ key_str topic ++ py "**: " ++ str_of_nat count
    ++ py " students (" ++ format_1f pct ++ py "%)".

Definition header_line (total_students : nat) : pystr :=
  py "### " ++ [240; 376; 8220; 352]%N ++ py " Class Statistics (N="
    ++ str_of_nat total_students ++ py ")".

Definition struggles_title : pystr :=
  py "#### " ++ [226; 353; 160; 239; 184]%N ++ py " Top Struggles".

Definition understood_title : pystr :=
  py "#### " ++ [226; 339; 8230]%N ++ py " Well Understood".

Definition no_struggles : pystr := py "_No significant struggles detected._".

Definition no_understanding : pystr :=
  py "_No clear patterns of understanding detected._".

(** The lines under a section title. *)
Definition section_lines (placeholder : pystr) (total_students : nat)
    (sorted : counts) : list pystr :=
  match sorted with
  | [] => [placeholder]
  | _ :: _ => List.map (bullet total_students) sorted
  end.

Definition _generate_statistics (analyses : list json) : result pystr :=
  let total_students := length analyses in
  if (total_students =? 0)%nat
  then Ok (py "No student data available for statistics.")
  else
    let* struggle_counts := count_categories (py "struggled_with") analyses in
    let* understood_counts := count_categories (py "understood_well") analyses in
    let lines := [header_line total_students; []; struggles_title] in
    let sorted_struggles := top5 struggle_counts in
    let lines := lines ++ section_lines no_struggles total_students
                                        sorted_struggles in
    let lines := lines ++ [[]] in
    let lines := lines ++ [understood_title] in
    let sorted_understood := top5 understood_counts in
    let lines := lines ++ section_lines no_understanding total_students
                                        sorted_understood in
    Ok (join [10%N] lines).

(* ------------------------------------------------------------------ *)
(** *** The analysis run *)
(* ------------------------------------------------------------------ *)

Definition _create_overview (analyses : list json) (stats : pystr) : M pystr :=
  generate (OverviewRequest analyses stats).

(** The loop over [enumerate(conversations[1:], start=2)]. *)
Fixpoint analyze_remaining (i : nat) (conversations : list (list pystr))
    (exam_content : pystr) (canonical_categories : list canonical)
    (student_analyses : list json) : M (list json) :=
  match conversations with
  | [] => ret student_analyses
  | conv :: rest =>
      (let! analysis :=
         _analyze_student conv exam_content canonical_categories i in
       analyze_remaining (S i) rest exam_content canonical_categories
                         (student_analyses ++ [analysis]))%llm
  end.

(** [analyze_assignment] from the first student on, up to the point
    where the cache is written: the entry to store and the overview. *)
Definition run_analysis (assignment_id : pystr)
    (first : list pystr) (others : list (list pystr)) (exam_content : pystr)
  : M (cache_entry * pystr) :=
  (let! first_analysis := _analyze_first_student first exam_content in
   let! canonical_categories := lift (_extract_categories first_analysis) in
   let student_analyses := [first_analysis] in
   let! student_analyses :=
     analyze_remaining 2 others exam_content canonical_categories
                       student_analyses in
   let! statistics := lift (_generate_statistics student_analyses) in
   let! overview := _create_overview student_analyses statistics in
   ret ({| ce_assignment_id := assignment_id;
           ce_student_analyses := student_analyses;
           ce_statistics := statistics;
           ce_canonical_categories := canonical_categories;
           ce_exam_content := exam_content |}, overview))%llm.

(** [analyze_assignment].  The cache is written once, after every
    step has succeeded.  The list of analyses returned is the list
    stored in the cache entry; nothing mutates it afterwards. *)
Definition analyze_assignment (self : DiagnosticsService)
    (assignment_id : pystr) : result payload * DiagnosticsService :=
  match get_conversations_for_diagnostics (db self) assignment_id with
  | Ok ([], _) =>
      (Ok (NoHistories assignment_id (py "No chat histories found")), self)
  | Ok (first :: others, exam_content) =>
      match run_analysis assignment_id first others exam_content (llm self) with
      | (Ok (entry, overview), llm') =>
          (Ok (Report assignment_id (length (first :: others)) overview
                      (ce_statistics entry) (ce_student_analyses entry)),
           {| db := db self; llm := llm';
              analysis_cache := <[assignment_id := entry]> (analysis_cache self) |})
      | (Raise e, llm') =>
          (Raise e, {| db := db self; llm := llm';
                       analysis_cache := analysis_cache self |})
      | (Unmodelled, llm') =>
          (Unmodelled, {| db := db self; llm := llm';
                          analysis_cache := analysis_cache self |})
      end
  | Raise e => (Raise e, self)
  | Unmodelled => (Unmodelled, self)
  end.

(** The message [query] returns when nothing is cached. *)
Definition run_analysis_first : pystr :=
  py "Please run analysis first before querying.".

Definition query (self : DiagnosticsService) (assignment_id question : pystr)
  : result pystr * DiagnosticsService :=
  match analysis_cache self !! assignment_id with
  | None => (Ok run_analysis_first, self)
  | Some analysis_data =>
      let '(answer, llm') :=
        generate (QueryRequest analysis_data question) (llm self) in
      (answer, {| db := db self; llm := llm';
                  analysis_cache := analysis_cache self |})
  end.

(* ================================================================== *)
(** ** The record the prompts ask for *)
(* ================================================================== *)

(** The structured record of one student, as the prompt of
    [_analyze_first_student] lays it out, and the JSON value a reply
    that follows the layout decodes to. *)
Module Schema.

Inductive level := low | medium | high.
Inductive resolution := resolved | unresolved.

Record understood_item := { u_category : pystr; u_evidence : pystr }.

Record struggled_item := {
  s_category : pystr;
  s_evidence : pystr;
  s_severity : level
}.

Record asked_item := { a_category : pystr; a_resolution : resolution }.

Record StudentAssessment := {
  student_id : pystr;
  understood_well : list understood_item;
  struggled_with : list struggled_item;
  asked_about : list asked_item;
  total_questions : N;
  engagement_level : level
}.

Definition level_json (l : level) : json :=
  JStr (match l with
        | low => py "low"
        | medium => py "medium"
        | high => py "high"
        end).

Definition resolution_json (r : resolution) : json :=
  JStr (match r with
        | resolved => py "resolved"
        | unresolved => py "unresolved"
        end).

Definition understood_json (i : understood_item) : json :=
  JObj [(py "category", JStr (u_category i));
        (py "evidence", JStr (u_evidence i))].

Definition struggled_json (i : struggled_item) : json :=
  JObj [(py "category", JStr (s_category i));
        (py "evidence", JStr (s_evidence i));
        (py "severity", level_json (s_severity i))].

Definition asked_json (i : asked_item) : json :=
  JObj [(py "category", JStr (a_category i));
        (py "resolution", resolution_json (a_resolution i))].

Definition assessment_json (a : StudentAssessment) : json :=
  JObj [(py "student_id", JStr (student_id a));
        (py "understood_well", JArr (List.map understood_json (understood_well a)));
        (py "struggled_with", JArr (List.map struggled_json (struggled_with a)));
        (py "asked_about", JArr (List.map asked_json (asked_about a)));
        (py "total_questions", JNum (str_of_N (total_questions a)));
        (py "engagement_level", level_json (engagement_level a))].

(** The category names of a list of assessments, in source order and
    with repetitions: one per entry. *)
Definition struggle_categories (l : list StudentAssessment) : list pystr :=
  flat_map (fun a => List.map s_category (struggled_with a)) l.

Definition understood_categories (l : list StudentAssessment) : list pystr :=
  flat_map (fun a => List.map u_category (understood_well a)) l.

End Schema.
Export Schema.

(** The counting dict after seeing the names [cats] in order. *)
Definition tally (cats : list pystr) : counts :=
  fold_left counts_incr (List.map JStr cats) [].



(** The entries [sorted(...)[:5]] leaves out. *)
Definition omitted (c : counts) : counts := drop 5 (sorted_desc c).







(** The canonical entry for a category name. *)
Definition canonical_of (tag : category_type) (name : pystr) : canonical :=
  {| category := JStr name; type := tag |}.



(** [text.split("\n")] *)
Fixpoint split_lines_from (cur : pystr) (s : pystr) : list pystr :=
  match s with
  | [] => [rev cur]
  | c :: s' =>
      if (c =? 10)%N then rev cur :: split_lines_from [] s'
      else split_lines_from (c :: cur) s'
  end.

Definition split_lines (s : pystr) : list pystr := split_lines_from [] s.

(** [old in s] *)
Fixpoint occurs (old s : pystr) : bool :=
  startswith old s ||
  match s with
  | [] => false
  | _ :: s' => occurs old s'
  end.



(** A service that has analysed nothing yet. *)
Definition fresh (self : DiagnosticsService) : DiagnosticsService :=
  {| db := db self; llm := llm self; analysis_cache := ∅ |}.

Definition payload_statistics (p : payload) : option pystr :=
  match p with
  | NoHistories _ _ => None
  | Report _ _ _ s _ => Some s
  end.

Definition payload_analyses (p : payload) : option (list json) :=
  match p with
  | NoHistories _ _ => None
  | Report _ _ _ _ a => Some a
  end.

(* ================================================================== *)
(** ** Sample stores, scripts and records *)
(* ================================================================== *)

Module Examples.

Definition empty_db : DatabaseService :=
  {| chat_histories := ∅; metadata := ∅ |}.

Definition silent : ClaudeClient := {| script := []; calls := [] |}.

(** A service right after start-up, with nothing stored. *)
Definition fresh_service : DiagnosticsService :=
  {| db := empty_db; llm := silent; analysis_cache := ∅ |}.

Definition hw1 : pystr := py "hw1".

Definition chat (student : string) : chat_history :=
  {| h_student_id := py student;
     conversation :=
       [ {| role := py "user"; content := py "What is a loop?" |};
         {| role := py "assistant"; content := py "A loop repeats a block." |} ] |}.

(** One saved conversation for [hw1]. *)
Definition hw1_db : DatabaseService :=
  {| chat_histories := {[ hw1 := [chat "alice"] ]};
     metadata := {[ hw1 := {[ py "exam_content" := py "Loops and recursion" ]} ]} |}.

(** Two saved conversations for [hw1]. *)
Definition hw1_db2 : DatabaseService :=
  {| chat_histories := {[ hw1 := [chat "alice"; chat "bob"] ]};
     metadata := {[ hw1 := {[ py "exam_content" := py "Loops and recursion" ]} ]} |}.

Definition service (d : DatabaseService) (replies : list reply)
  : DiagnosticsService :=
  {| db := d; llm := {| script := replies; calls := [] |};
     analysis_cache := ∅ |}.



Definition student (name : string) (u : list understood_item)
    (s : list struggled_item) : StudentAssessment :=
  {| student_id := py name; understood_well := u; struggled_with := s;
     asked_about := []; total_questions := 2; engagement_level := medium |}.



(** JSON text, written with a single quote for each double quote. *)
Definition json_text (s : string) : pystr :=
  List.map (fun c => if (c =? 39)%N then 34%N else c) (py s).

(** A reply for the first student, inside a code fence. *)
Definition record1 : pystr :=
  py "```json" ++ [10%N]
  ++ json_text "{'student_id': 'student_1', 'understood_well': [{'category': 'variables', 'evidence': 'used them'}], 'struggled_with': [{'category': 'loops', 'evidence': 'off by one', 'severity': 'high'}], 'asked_about': [{'category': 'loops', 'resolution': 'resolved'}], 'total_questions': 1, 'engagement_level': 'medium'}"
  ++ [10%N] ++ py "```".

(** A reply for the second student, without a fence. *)
Definition record2 : pystr :=
  json_text "{'student_id': 'student_2', 'understood_well': [], 'struggled_with': [{'category': 'loops', 'evidence': 'infinite loop', 'severity': 'medium'}, {'category': 'recursion', 'evidence': 'no base case', 'severity': 'high'}], 'asked_about': [], 'total_questions': 1, 'engagement_level': 'low'}".

(** Two runs over two students: the same records, another overview. *)
Definition rerun_service : DiagnosticsService :=
  service hw1_db2
    [ Text record1; Text record2; Text (py "Loops are the main difficulty.");
      Text record1; Text record2; Text (py "Most students struggle with loops.") ].

Definition payload_of (r : result payload) : payload :=
  match r with
  | Ok p => p
  | _ => NoHistories [] []
  end.

Definition first_run : result payload * DiagnosticsService :=
  analyze_assignment rerun_service hw1.

Definition second_run : result payload * DiagnosticsService :=
  analyze_assignment (snd first_run) hw1.

(** One student, and a reply that is not JSON. *)
Definition refusing_service : DiagnosticsService :=
  service hw1_db [ Text (py "I cannot analyse this conversation.") ].

(** One student, and a reply that is JSON but not the record. *)
Definition empty_object_service : DiagnosticsService :=
  service hw1_db [ Text (py "{}"); Text (py "Nothing to report.") ].




Definition topic (name : string) : struggled_item :=
  {| s_category := py name; s_evidence := py "misread"; s_severity := low |}.



End Examples.

(* ================================================================== *)
(** ** The protocol of a run *)
(* ================================================================== *)

(** The label [_format_conversation] gives the turn at position [i]. *)
Definition turn_label (i : nat) : pystr :=
  if Nat.even i then py "Student" else py "Assistant".

(** The lines of a transcript whose first turn is at position [i]. *)
Fixpoint turn_lines (i : nat) (messages : list pystr) : list pystr :=
  match messages with
  | [] => []
  | msg :: rest => (turn_label i ++ py ": " ++ msg) :: turn_lines (S i) rest
  end.

(** The requests of the aligned passes for the students from number
    [i] on. *)
Fixpoint student_requests (i : nat) (conversations : list (list pystr))
    (exam_content : pystr) (names : list json) : list request :=
  match conversations with
  | [] => []
  | conv :: rest =>
      StudentRequest names exam_content (_format_conversation conv) i
        :: student_requests (S i) rest exam_content names
  end.

(** What a reply decodes to in an extraction pass. *)
Definition decode_reply (r : reply) : result json :=
  match r with
  | Text t => json_loads (clean_response t)
  | Failure => Raise ProviderError
  end.

(** The sum of the counts of a counting dict. *)
Definition total_count (c : counts) : nat := list_sum (List.map snd c).

(** The entries of [c] with count [k], in order. *)
Definition with_count (k : nat) (c : counts) : counts :=
  List.filter (fun e => Nat.eqb (snd e) k) c.

(** The extraction passes over the next [n] replies of a script: the
    outcome and the number of replies read.  A missing reply is a
    failure of the model. *)
Fixpoint decode_replies (n : nat) (replies : list reply) (acc : list json)
  : result (list json) * nat :=
  match n with
  | O => (Ok acc, 0)
  | S n' =>
      match (match replies with
             | r :: _ => decode_reply r
             | [] => Raise ProviderError
             end) with
      | Ok v =>
          let '(r, k) := decode_replies n' (tail replies) (acc ++ [v]) in
          (r, S k)
      | Raise e => (Raise e, 1)
      | Unmodelled => (Unmodelled, 1)
      end
  end.

(** The service with another model client. *)
Definition with_client (self : DiagnosticsService) (client : ClaudeClient)
  : DiagnosticsService :=
  {| db := db self; llm := client; analysis_cache := analysis_cache self |}.

(* ================================================================== *)
(** ** The diagnostics endpoints ([api_server.py]) *)
(* ================================================================== *)

(** The two handlers, from the decoded request body on ([None] is
    [JNull]); what [request.get_json] itself does with a body that is
    not JSON is not modelled.  A handler never raises: every exception
    becomes a 500 response. *)

(** [k in v] for a [str] [k]: a key of a dict, an element of a list,
    a substring of a string. *)
Definition py_contains (v : json) (k : pystr) : result bool :=
  match v with
  | JObj d => Ok (match dict_lookup d k with Some _ => true | None => false end)
  | JArr l => Ok (existsb (fun x => key_eqb x (JStr k)) l)
  | JStr s => Ok (occurs k s)
  | JNull | JBool _ | JNum _ => Raise TypeError
  end.

(** [all(field in data for field in fields)] *)
Fixpoint all_in (data : json) (fields : list pystr) : result bool :=
  match fields with
  | [] => Ok true
  | field :: rest =>
      let* present := py_contains data field in
      if present then all_in data rest else Ok false
  end.

(** The JSON object a handler answers with. *)
Inductive body :=
| ErrorBody (error : pystr)
| RequiredBody (error : pystr) (required : list pystr)
| ExceptionBody (e : exn)
| ResultsBody (results : payload)
| AnswerBody (question : json) (answer : pystr).

(** Status code and body; [None] when the request leaves the modelled
    fragment. *)
Abbreviation response := (option (nat * body)).

(** [analyze_assignment] called with whatever the body holds as id:
    joining the store's path with anything but a string raises. *)
Definition analyze_with_id (self : DiagnosticsService) (assignment_id : json)
  : result payload * DiagnosticsService :=
  match assignment_id with
  | JStr s => analyze_assignment self s
  | _ => (Raise TypeError, self)
  end.

(** [query] called with whatever the body holds: a list or a dict
    cannot be looked up in the cache (unhashable); [None], a boolean
    or a number equals none of its keys.  A question that is not a
    string is only modelled where it is not used. *)
Definition query_with (self : DiagnosticsService) (assignment_id question : json)
  : result pystr * DiagnosticsService :=
  match assignment_id with
  | JArr _ | JObj _ => (Raise TypeError, self)
  | JNull | JBool _ | JNum _ => (Ok run_analysis_first, self)
  | JStr s =>
      match question with
      | JStr q => query self s q
      | _ =>
          match analysis_cache self !! s with
          | None => (Ok run_analysis_first, self)
          | Some _ => (Unmodelled, self)
          end
      end
  end.

Definition missing_assignment_id : pystr :=
  py "Missing required field: assignment_id".

Definition missing_fields : pystr := py "Missing required fields".

(** [POST /api/diagnostics/analyze] *)
Definition analyze_endpoint (self : DiagnosticsService) (data : json)
  : response * DiagnosticsService :=
  match py_contains data (py "assignment_id") with
  | Ok false => (Some (400, ErrorBody missing_assignment_id), self)
  | Ok true =>
      match py_getitem data (py "assignment_id") with
      | Ok assignment_id =>
          match analyze_with_id self assignment_id with
          | (Ok results, self') => (Some (200, ResultsBody results), self')
          | (Raise e, self') => (Some (500, ExceptionBody e), self')
          | (Unmodelled, self') => (None, self')
          end
      | Raise e => (Some (500, ExceptionBody e), self)
      | Unmodelled => (None, self)
      end
  | Raise e => (Some (500, ExceptionBody e), self)
  | Unmodelled => (None, self)
  end.

(** [POST /api/diagnostics/query] *)
Definition query_endpoint (self : DiagnosticsService) (data : json)
  : response * DiagnosticsService :=
  let required_fields := [py "assignment_id"; py "question"] in
  match all_in data required_fields with
  | Ok false => (Some (400, RequiredBody missing_fields required_fields), self)
  | Ok true =>
      match py_getitem data (py "assignment_id") with
      | Ok assignment_id =>
          match py_getitem data (py "question") with
          | Ok question =>
              match query_with self assignment_id question with
              | (Ok answer, self') =>
                  (Some (200, AnswerBody question answer), self')
              | (Raise e, self') => (Some (500, ExceptionBody e), self')
              | (Unmodelled, self') => (None, self')
              end
          | Raise e => (Some (500, ExceptionBody e), self)
          | Unmodelled => (None, self)
          end
      | Raise e => (Some (500, ExceptionBody e), self)
      | Unmodelled => (None, self)
      end
  | Raise e => (Some (500, ExceptionBody e), self)
  | Unmodelled => (None, self)
  end.

(** The status code of a response. *)
Definition status (r : response) : option nat :=
  match r with
  | Some (code, _) => Some code
  | None => None
  end.

(* ================================================================== *)
(** ** The store on disk ([database.py]) *)
(* ================================================================== *)

(** The files of [DatabaseService], one level below the view the
    pipeline reads.  Assumptions: a case-sensitive POSIX file system
    with UTF-8 file names and contents, holding only what the service
    itself has written.  A JSON file is taken for the value it was
    written from. *)
(** The files of [DatabaseService], as a POSIX file system with a
    UTF-8 locale keeps them: the chat directories with their files,
    the prompt files and the metadata file. *)
Module Store.

(** What the modelled callers can raise. *)
Inductive exception :=
| FileNotFoundError
| Pipeline (e : exn).

(** Outcome of an operation: [Beyond] when the arguments leave the
    modelled fragment (a name that is not a plain file name, text that
    cannot be stored as it is). *)
Inductive outcome (A : Type) :=
| Returns (a : A)
| Raises (e : exception)
| Beyond.
Arguments Returns {A} a.
Arguments Raises {A} e.
Arguments Beyond {A}.

(** Text without surrogate code points. *)
Definition storable (s : pystr) : bool := forallb scalar s.

(** One turn as the chat services store it. *)
Record stored_message := {
  m_role : pystr;
  m_content : pystr;
  m_timestamp : pystr
}.

Definition storable_message (m : stored_message) : bool :=
  storable (m_role m) && storable (m_content m) && storable (m_timestamp m).

(** The content of [<assignment>/<student>.json]. *)
Record chat_file := {
  cf_student_id : pystr;
  cf_assignment_id : pystr;
  cf_conversation : list stored_message;
  cf_saved_at : pystr;
  cf_total_messages : nat
}.

(** An entry of [metadata.json]. *)
Record metadata_entry := {
  created_at : pystr;
  course : pystr;
  professor : pystr;
  description : pystr;
  exam_content : pystr
}.

(** The three places the service writes to: the chat directories (no
    entry: no directory), the prompt files, and the metadata file, a
    dict in insertion order. *)
Record Disk := {
  chat_dirs : gmap pystr (gmap pystr chat_file);
  prompt_files : gmap pystr pystr;
  metadata_file : list (pystr * metadata_entry)
}.

(** A store right after [DatabaseService()] on an empty directory. *)
Definition empty_disk : Disk :=
  {| chat_dirs := ∅; prompt_files := ∅; metadata_file := [] |}.

(** [f.read()] in text mode: every line end reads as a line feed. *)
Fixpoint universal_newlines (s : pystr) : pystr :=
  match s with
  | [] => []
  | c :: r =>
      if (c =? 13)%N then
        10%N :: match r with
                | d :: r' => if (d =? 10)%N then universal_newlines r'
                             else universal_newlines r
                | [] => []
                end
      else c :: universal_newlines r
  end.

(** [metadata.get(field, "") if metadata else ""], for a value that
    is a string; [None] when it is of another type. *)
Definition metadata_field (metadata : option (list (pystr * json)))
    (field : pystr) : option pystr :=
  match metadata with
  | None | Some [] => Some []
  | Some m =>
      match dict_lookup m field with
      | None => Some []
      | Some (JStr s) => if storable s then Some s else None
      | Some _ => None
      end
  end.

(** [save_prompt]; [now] is [datetime.now().isoformat()]. *)
Definition save_prompt (now : pystr) (disk : Disk)
    (assignment_id system_prompt : pystr)
    (metadata : option (list (pystr * json))) : outcome Disk :=
  if plain_name assignment_id && storable system_prompt && storable now then
    match metadata_field metadata (py "course"),
          metadata_field metadata (py "professor"),
          metadata_field metadata (py "description"),
          metadata_field metadata (py "exam_content") with
    | Some c, Some p, Some d, Some x =>
        Returns
          {| chat_dirs := chat_dirs disk;
             prompt_files := <[assignment_id := system_prompt]> (prompt_files disk);
             metadata_file :=
               dict_set (metadata_file disk) assignment_id
                 {| created_at := now; course := c; professor := p;
                    description := d; exam_content := x |} |}
    | _, _, _, _ => Beyond
    end
  else Beyond.

(** What [load_prompt] returns. *)
Record prompt_data := {
  pd_assignment_id : pystr;
  pd_system_prompt : pystr;
  pd_metadata : option metadata_entry
}.

(** [load_prompt]; no metadata entry reads as the empty dict. *)
Definition load_prompt (disk : Disk) (assignment_id : pystr)
  : outcome prompt_data :=
  if plain_name assignment_id then
    match prompt_files disk !! assignment_id with
    | None => Raises FileNotFoundError
    | Some text =>
        Returns {| pd_assignment_id := assignment_id;
                   pd_system_prompt := universal_newlines text;
                   pd_metadata := dict_lookup (metadata_file disk) assignment_id |}
    end
  else Beyond.

(** [list_assignments]: the entries of the metadata file, in its order. *)
Definition list_assignments (disk : Disk) : list (pystr * metadata_entry) :=
  metadata_file disk.

(** [save_chat_history] *)
Definition save_chat_history (now : pystr) (disk : Disk)
    (student_id assignment_id : pystr) (conversation : list stored_message)
  : outcome Disk :=
  if plain_name student_id && plain_name assignment_id
     && forallb storable_message conversation && storable now then
    let assignment_dir := default ∅ (chat_dirs disk !! assignment_id) in
    let chat_data :=
      {| cf_student_id := student_id;
         cf_assignment_id := assignment_id;
         cf_conversation := conversation;
         cf_saved_at := now;
         cf_total_messages := length conversation |} in
    Returns
      {| chat_dirs :=
           <[assignment_id := <[student_id := chat_data]> assignment_dir]>
             (chat_dirs disk);
         prompt_files := prompt_files disk;
         metadata_file := metadata_file disk |}
  else Beyond.

(** [load_chat_history] *)
Definition load_chat_history (disk : Disk) (student_id assignment_id : pystr)
  : outcome chat_file :=
  if plain_name student_id && plain_name assignment_id then
    match chat_dirs disk !! assignment_id with
    | None => Raises FileNotFoundError
    | Some dir =>
        match dir !! student_id with
        | None => Raises FileNotFoundError
        | Some file => Returns file
        end
    end
  else Beyond.

(** The files [glob("*.json")] finds in a directory, with the names
    of the students they belong to, in the order the system lists
    them (here: the order of the map). *)
Definition listing (disk : Disk) (assignment_id : pystr)
  : list (pystr * chat_file) :=
  match chat_dirs disk !! assignment_id with
  | None => []
  | Some dir => map_to_list dir
  end.

(** [load_all_chat_histories] *)
Definition load_all_chat_histories (disk : Disk) (assignment_id : pystr)
  : outcome (list chat_file) :=
  if plain_name assignment_id
  then Returns (List.map snd (listing disk assignment_id))
  else Beyond.

(** [a <= b] on [str]: by code points, a prefix first. *)
Fixpoint str_leb (a b : pystr) : bool :=
  match a, b with
  | [], _ => true
  | _ :: _, [] => false
  | x :: a', y :: b' =>
      if (x <? y)%N then true
      else if (y <? x)%N then false
      else str_leb a' b'
  end.

(** [sorted(names)] *)
Fixpoint insert_name (x : pystr) (l : list pystr) : list pystr :=
  match l with
  | [] => [x]
  | y :: l' => if str_leb x y then x :: l else y :: insert_name x l'
  end.

Fixpoint sorted_names (l : list pystr) : list pystr :=
  match l with
  | [] => []
  | x :: l' => insert_name x (sorted_names l')
  end.

(** [list_students_for_assignment] *)
Definition list_students_for_assignment (disk : Disk) (assignment_id : pystr)
  : outcome (list pystr) :=
  if plain_name assignment_id
  then Returns (sorted_names (List.map fst (listing disk assignment_id)))
  else Beyond.

(** The chat file as the pipeline's store shows it. *)
Definition history_of (file : chat_file) : chat_history :=
  {| h_student_id := cf_student_id file;
     conversation :=
       List.map (fun m => {| role := m_role m; content := m_content m |})
                (cf_conversation file) |}.

Definition entry_fields (e : metadata_entry) : gmap pystr pystr :=
  {[ py "created_at" := created_at e; py "course" := course e;
     py "professor" := professor e; py "description" := description e;
     py "exam_content" := exam_content e ]}.

(** The store the diagnostics pipeline reads, for the files on disk. *)
Definition database_of (disk : Disk) : DatabaseService :=
  {| chat_histories :=
       (fun dir => List.map (fun kv => history_of (snd kv)) (map_to_list dir))
         <$> chat_dirs disk;
     metadata :=
       list_to_map (List.map (fun kv => (fst kv, entry_fields (snd kv)))
                             (metadata_file disk)) |}.

End Store.

Module MoreExamples.

(** The two students' records, then no reply for the overview. *)
Definition silent_overview_service : DiagnosticsService :=
  Examples.service Examples.hw1_db2
    [ Text Examples.record1; Text Examples.record2 ].

(** The second student's reply is not JSON. *)
Definition second_reply_refused : DiagnosticsService :=
  Examples.service Examples.hw1_db2
    [ Text Examples.record1; Text (py "Sorry, I cannot do that.");
      Text (py "unused") ].

(** A request body with an id and a question. *)
Definition ask (assignment_id question : json) : json :=
  JObj [(py "assignment_id", assignment_id); (py "question", question)].

End MoreExamples.

Module StoreExamples.
Import Store.

Definition turn (r c : string) : stored_message :=
  {| m_role := py r; m_content := py c; m_timestamp := py "2024-11-15T14:30:22" |}.

Definition exchange : list stored_message :=
  [ turn "student" "What is a loop?"; turn "assistant" "A loop repeats a block." ].

Definition noon : pystr := py "2024-11-15T12:00:00".

Definition saved (r : outcome Disk) : Disk :=
  match r with
  | Returns d => d
  | _ => empty_disk
  end.

(** A store with one assignment and the chat of one student. *)
Definition one_student : Disk :=
  saved (save_chat_history noon empty_disk (py "bob") (py "hw1") exchange).

(** The same after a second student opened a chat and said nothing. *)
Definition two_students : Disk :=
  saved (save_chat_history noon one_student (py "alice") (py "hw1") []).

(** Metadata as the prompt endpoint receives it. *)
Definition course_metadata : list (pystr * json) :=
  [ (py "course", JStr (py "CS 101"));
    (py "exam_content", JStr (py "1. Write a loop.")) ].

(** A prompt typed with Windows line ends. *)
Definition windows_prompt : pystr :=
  py "Be brief." ++ [13%N; 10%N] ++ py "Give hints only.".

End StoreExamples.

(* ================================================================== *)
(** ** The student chat service *)
(* ================================================================== *)

Module Chat.
Import Store.

(** A call of [ClaudeClient.generate] by the chat service: the user
    prompt and the system prompt. *)
Record call := { c_prompt : pystr; c_system : pystr }.

(** The chat service's client: the replies still to come and the
    calls made so far. *)
Record Client := {
  replies : list reply;
  sent : list call
}.

Definition generate (llm : Client) (prompt system_prompt : pystr)
  : option pystr * Client :=
  let llm' := {| replies := tail (replies llm);
                 sent := sent llm ++ [{| c_prompt := prompt;
                                         c_system := system_prompt |}] |} in
  match replies llm with
  | Text t :: _ => (Some t, llm')
  | Failure :: _ | [] => (None, llm')
  end.

Record StudentChatService := {
  db : Disk;
  llm : Client;
  active_sessions : gmap (pystr * pystr) (list stored_message)
}.

Definition ascii_upper (c : N) : N :=
  if ((97 <=? c) && (c <=? 122))%N then (c - 32)%N else c.

Definition ascii_lower (c : N) : N :=
  if ((65 <=? c) && (c <=? 90))%N then (c + 32)%N else c.

(** [str.capitalize] on ASCII text; [None] for other text. *)
Definition capitalize (s : pystr) : option pystr :=
  if forallb (fun c => (c <? 128)%N) s then
    Some match s with
         | [] => []
         | c :: r => ascii_upper c :: List.map ascii_lower r
         end
  else None.

(** The lines [_build_context] writes for the earlier messages. *)
Fixpoint previous (conversation : list stored_message) : option pystr :=
  match conversation with
  | [] => Some []
  | msg :: rest =>
      match capitalize (m_role msg), previous rest with
      | Some role, Some lines =>
          Some (role ++ py ": " ++ m_content msg ++ [10%N] ++ lines)
      | _, _ => None
      end
  end.

Definition _build_context (conversation : list stored_message)
    (current_message : pystr) : option pystr :=
  match conversation with
  | [] => Some current_message
  | _ :: _ =>
      match previous conversation with
      | Some lines =>
          Some ([10%N; 10%N] ++ py "Previous conversation:" ++ [10%N]
                ++ lines ++ [10%N] ++ py "Student: " ++ current_message)
      | None => None
      end
  end.

(** The two messages [send_message] appends. *)
Definition exchange (timestamp message response : pystr)
  : list stored_message :=
  [ {| m_role := py "student"; m_content := message;
       m_timestamp := timestamp |};
    {| m_role := py "assistant"; m_content := response;
       m_timestamp := timestamp |} ].

(** The conversation of a session: the one in memory, else the one on
    disk, else a new one. *)
Definition session (self : StudentChatService)
    (student_id assignment_id : pystr) : outcome (list stored_message) :=
  match active_sessions self !! (student_id, assignment_id) with
  | Some conversation => Returns conversation
  | None =>
      match load_chat_history (db self) student_id assignment_id with
      | Returns history_data => Returns (cf_conversation history_data)
      | Raises FileNotFoundError => Returns []
      | Raises e => Raises e
      | Beyond => Beyond
      end
  end.

(** [StudentChatService.send_message]; [timestamp] is the time read
    for the two messages and [saved_at] the time read when the file is
    written. *)
Definition send_message (timestamp saved_at : pystr)
    (self : StudentChatService) (student_id assignment_id message : pystr)
  : outcome (pystr * pystr) * StudentChatService :=
  let session_key := (student_id, assignment_id) in
  match session self student_id assignment_id with
  | Returns conversation =>
      let sessions := <[session_key := conversation]> (active_sessions self) in
      let opened := {| db := db self; llm := llm self;
                       active_sessions := sessions |} in
      match load_prompt (db self) assignment_id with
      | Returns prompt_data =>
          match _build_context conversation message with
          | Some context =>
              match generate (llm self) context
                      (pd_system_prompt prompt_data) with
              | (Some response, llm') =>
                  let conversation :=
                    conversation ++ exchange timestamp message response in
                  match save_chat_history saved_at (db self) student_id
                          assignment_id conversation with
                  | Returns disk =>
                      (Returns (response,
                                assignment_id ++ py "_" ++ student_id),
                       {| db := disk; llm := llm';
                          active_sessions :=
                            <[session_key := conversation]> sessions |})
                  | Raises e => (Raises e, opened)
                  | Beyond => (Beyond, opened)
                  end
              | (None, llm') =>
                  (Raises (Pipeline ProviderError),
                   {| db := db self; llm := llm';
                      active_sessions := sessions |})
              end
          | None => (Beyond, opened)
          end
      | Raises e => (Raises e, opened)
      | Beyond => (Beyond, opened)
      end
  | Raises e => (Raises e, self)
  | Beyond => (Beyond, self)
  end.

(** [StudentChatService.get_history] *)
Definition get_history (self : StudentChatService)
    (student_id assignment_id : pystr) : outcome chat_file :=
  load_chat_history (db self) student_id assignment_id.

(** A conversation made of exchanges: a student's message, then the
    assistant's, and so on. *)
Fixpoint exchanges (conversation : list stored_message) : bool :=
  match conversation with
  | [] => true
  | a :: b :: rest =>
      (if decide (m_role a = py "student") then true else false)
      && (if decide (m_role b = py "assistant") then true else false)
      && exchanges rest
  | [_] => false
  end.

(** Every chat on disk and every session in memory is made of
    exchanges. *)
Definition alternating (self : StudentChatService) : Prop :=
  (forall a dir s file,
      chat_dirs (db self) !! a = Some dir -> dir !! s = Some file ->
      exchanges (cf_conversation file) = true)
  /\ (forall key conversation,
         active_sessions self !! key = Some conversation ->
         exchanges conversation = true).

(** One request to the chat endpoint. *)
Record post := {
  p_timestamp : pystr;
  p_saved_at : pystr;
  p_student_id : pystr;
  p_assignment_id : pystr;
  p_message : pystr
}.

(** The service after a sequence of requests, whatever their
    outcomes. *)
Fixpoint serve (self : StudentChatService) (posts : list post)
  : StudentChatService :=
  match posts with
  | [] => self
  | p :: rest =>
      serve (snd (send_message (p_timestamp p) (p_saved_at p) self
                    (p_student_id p) (p_assignment_id p) (p_message p)))
            rest
  end.

End Chat.

(* ================================================================== *)
(** ** The prompt builder *)
(* ================================================================== *)

Module Prompts.
Import Store.

Definition BASE_SYSTEM_PROMPT : pystr := py
"You are an educational AI assistant designed to help students learn while maintaining academic integrity. Your role is to guide students toward understanding without directly providing answers that would compromise their learning or violate academic honesty policies.

## Core Principles:

1. **Socratic Method**: Guide students with questions rather than direct answers. Help them think through problems step-by-step.

2. **Conceptual Understanding**: Explain underlying concepts, theories, and methodologies rather than solving specific assignment questions.

3. **Process Over Product**: Focus on teaching problem-solving approaches, critical thinking skills, and learning strategies rather than delivering final answers.

4. **Academic Integrity**: Never provide complete solutions, answers, or work that a student could submit as their own. This includes:
   - Direct answers to test/assignment questions
   - Complete essay paragraphs or sections
   - Fully worked solutions to problems
   - Paraphrased versions of answers that could be submitted verbatim

5. **Appropriate Help**: You may:
   - Explain relevant concepts and theories
   - Clarify confusing terminology or instructions
   - Provide general examples (NOT from the specific assignment)
   - Suggest study strategies and approaches
   - Help students identify what concepts they need to review
   - Point students toward relevant resources
   - Help debug conceptual misunderstandings

6. **Transparency**: If a student asks for something inappropriate, politely explain why you cannot provide it and offer appropriate alternatives.

7. **Encourage Independent Thinking**: Regularly prompt students to apply their own reasoning and knowledge.

## Response Framework:

When a student asks a question:
- First, assess whether answering would compromise academic integrity
- If borderline, err on the side of guidance over direct answers
- Break complex topics into digestible pieces
- Ask clarifying questions to understand what the student already knows
- Encourage the student to attempt solutions and bring their thinking to you

---

## Course-Specific Restrictions and Guidelines:

".

(** The two requests of [build_prompt], by what they carry. *)
Inductive request :=
| TranslateRequest (instructions : pystr)
| ValidateRequest (restrictions : pystr).

Record Client := {
  replies : list reply;
  requests : list request
}.

Definition generate (llm : Client) (req : request) : option pystr * Client :=
  let llm' := {| replies := tail (replies llm);
                 requests := requests llm ++ [req] |} in
  match replies llm with
  | Text t :: _ => (Some t, llm')
  | Failure :: _ | [] => (None, llm')
  end.

Record PromptBuilderService := {
  db : Disk;
  llm : Client
}.

(** What [build_prompt] returns. *)
Record built := {
  final_prompt : pystr;
  restrictions : pystr;
  validation : pystr
}.

(** [build_prompt]; [assignment_text] is [None] when the argument is
    left out. *)
Definition build_prompt (now : pystr) (self : PromptBuilderService)
    (assignment_id professor_instructions : pystr)
    (metadata : option (list (pystr * json)))
    (assignment_text : option pystr)
  : outcome built * PromptBuilderService :=
  match assignment_text with
  | None => (Raises (Pipeline TypeError), self)
  | Some assignment_text =>
      match generate (llm self)
              (TranslateRequest
                 (professor_instructions ++ [10%N; 10%N] ++ py "ASSIGNMENNT:"
                  ++ [10%N] ++ assignment_text)) with
      | (None, llm1) =>
          (Raises (Pipeline ProviderError), {| db := db self; llm := llm1 |})
      | (Some restrictions, llm1) =>
          match generate llm1 (ValidateRequest restrictions) with
          | (None, llm2) =>
              (Raises (Pipeline ProviderError),
               {| db := db self; llm := llm2 |})
          | (Some validation, llm2) =>
              let final_prompt :=
                BASE_SYSTEM_PROMPT ++ restrictions ++ [10%N; 10%N]
                ++ py "ASSIGNMENT:" ++ [10%N] ++ assignment_text in
              match save_prompt now (db self) assignment_id final_prompt
                      metadata with
              | Returns disk =>
                  (Returns {| final_prompt := final_prompt;
                              restrictions := restrictions;
                              validation := validation |},
                   {| db := disk; llm := llm2 |})
              | Raises e => (Raises e, {| db := db self; llm := llm2 |})
              | Beyond => (Beyond, {| db := db self; llm := llm2 |})
              end
          end
      end
  end.

End Prompts.

Module ChatExamples.
Import Store.

(** A store with the prompt of one assignment and no chats. *)
Definition with_prompt : Disk :=
  StoreExamples.saved
    (save_prompt StoreExamples.noon empty_disk (py "hw1")
       (py "Give hints only.") None).

Definition answering (texts : list pystr) : Chat.Client :=
  {| Chat.replies := List.map Text texts; Chat.sent := [] |}.

(** A new chat service over that store, whose model answers twice. *)
Definition fresh_chat : Chat.StudentChatService :=
  {| Chat.db := with_prompt;
     Chat.llm := answering [py "A loop repeats a block."; py "Try a counter."];
     Chat.active_sessions := ∅ |}.

(** A chat service over the same store whose model does not answer. *)
Definition silent_chat : Chat.StudentChatService :=
  {| Chat.db := with_prompt;
     Chat.llm := {| Chat.replies := [Failure]; Chat.sent := [] |};
     Chat.active_sessions := ∅ |}.

Definition first_post : Chat.post :=
  {| Chat.p_timestamp := py "2024-11-15T14:30:22";
     Chat.p_saved_at := py "2024-11-15T14:30:23";
     Chat.p_student_id := py "bob";
     Chat.p_assignment_id := py "hw1";
     Chat.p_message := py "What is a loop?" |}.

Definition second_post : Chat.post :=
  {| Chat.p_timestamp := py "2024-11-15T14:31:00";
     Chat.p_saved_at := py "2024-11-15T14:31:01";
     Chat.p_student_id := py "bob";
     Chat.p_assignment_id := py "hw1";
     Chat.p_message := py "How do I stop it?" |}.

(** The service after the first request, and after both. *)
Definition after_first : Chat.StudentChatService :=
  Chat.serve fresh_chat [first_post].

Definition after_second : Chat.StudentChatService :=
  Chat.serve fresh_chat [first_post; second_post].

(** The chat file the two requests leave. *)
Definition bob_file : chat_file :=
  {| cf_student_id := py "bob";
     cf_assignment_id := py "hw1";
     cf_conversation :=
       Chat.exchange (py "2024-11-15T14:30:22") (py "What is a loop?")
         (py "A loop repeats a block.")
       ++ Chat.exchange (py "2024-11-15T14:31:00") (py "How do I stop it?")
            (py "Try a counter.");
     cf_saved_at := py "2024-11-15T14:31:01";
     cf_total_messages := 4 |}.

(** A prompt builder over an empty store whose model answers twice. *)
Definition builder (validation : string) : Prompts.PromptBuilderService :=
  {| Prompts.db := empty_disk;
     Prompts.llm :=
       {| Prompts.replies := [Text (py "- no full solutions");
                              Text (py validation)];
          Prompts.requests := [] |} |}.

(** The store after a build for [hw1], and a new chat service over
    it. *)
Definition built : Prompts.PromptBuilderService :=
  snd (Prompts.build_prompt StoreExamples.noon (builder "VALIDATED") (py "hw1")
         (py "Hints only.") None (Some (py "1. Write a loop."))).

Definition built_chat : Chat.StudentChatService :=
  {| Chat.db := Prompts.db built;
     Chat.llm := answering [py "A loop repeats a block."; py "Try a counter."];
     Chat.active_sessions := ∅ |}.

End ChatExamples.
(* ================================================================== *)
(** * Properties *)
(* ================================================================== *)

(** ** The query responder *)

(** C10. [query] never writes the report cache: whatever the
    assignment id and the question, and whether or not the id is
    cached, the cache after the call is the cache before it (and the
    store is untouched as well). *)
Theorem query_preserves_cache (self : DiagnosticsService)
    (assignment_id question : pystr) :
  analysis_cache (snd (query self assignment_id question)) = analysis_cache self
  /\ db (snd (query self assignment_id question)) = db self.
Proof.
  unfold query.
  destruct (analysis_cache self !! assignment_id) as [data|]; [|done].
  destruct (generate (QueryRequest data question) (llm self)); done.
Qed.

(** C1, as the code has it.  When the id has no cache entry, [query]
    returns normally: its value is the instructional message, no
    exception is raised, and the model is not called. *)
Theorem query_before_analyze (self : DiagnosticsService)
    (assignment_id question : pystr) :
  analysis_cache self !! assignment_id = None ->
  query self assignment_id question = (Ok run_analysis_first, self).
Proof. intros H. unfold query. by rewrite H. Qed.

(** C1, the claim as worded fails: on a service that has analysed
    nothing, [query] does not raise. *)
Lemma uncached_query_does_not_raise :
  ~ raised (fst (query Examples.fresh_service (py "fresh_assignment")
                       (py "any question"))).
Proof. intros [e H]. vm_compute in H. discriminate H. Qed.

Lemma query_before_analyze_witness :
  analysis_cache Examples.fresh_service !! py "fresh_assignment" = None
  /\ query Examples.fresh_service (py "fresh_assignment") (py "any question")
     = (Ok run_analysis_first, Examples.fresh_service).
Proof.
  split; [reflexivity|].
  apply (query_before_analyze Examples.fresh_service); reflexivity.
Defined.

(** ** The analysis run *)

(** Loading gives the empty list exactly for a plain name whose
    directory is missing or holds no chat file. *)
Lemma no_histories_iff (d : DatabaseService) (assignment_id : pystr) :
  load_all_chat_histories d assignment_id = Ok []
  <-> plain_name assignment_id = true
      /\ default [] (chat_histories d !! assignment_id) = [].
Proof.
  unfold load_all_chat_histories.
  destruct (plain_name assignment_id).
  - destruct (chat_histories d !! assignment_id) as [[|f files]|]; cbn;
      split; try done; by intros [_ ?].
  - case_decide; split; try done; by intros [? _].
Qed.




(** ** The canonicalizer *)

Section Canonicalizer.

Lemma getitem_understood (i : understood_item) :
  py_getitem (understood_json i) (py "category") = Ok (JStr (u_category i)).
Proof. reflexivity. Qed.

Lemma getitem_struggled (i : struggled_item) :
  py_getitem (struggled_json i) (py "category") = Ok (JStr (s_category i)).
Proof. reflexivity. Qed.

Lemma collect_understood (items : list understood_item) (acc : list canonical) :
  for_each
    (fun categories item =>
       let* c := py_getitem item (py "category") in
       Ok (categories ++ [{| category := c; type := understood |}]))
    (List.map understood_json items) acc
  = Ok (acc ++ List.map (fun i => canonical_of understood (u_category i)) items).
Proof.
  revert acc. induction items as [|i items IH]; intros acc;
    cbn [List.map for_each].
  - by rewrite app_nil_r.
  - rewrite getitem_understood. cbn [bind]. rewrite IH.
    by rewrite <- app_assoc.
Qed.

Lemma collect_struggled (items : list struggled_item) (acc : list canonical) :
  for_each
    (fun categories item =>
       let* c := py_getitem item (py "category") in
       Ok (categories ++ [{| category := c; type := struggled |}]))
    (List.map struggled_json items) acc
  = Ok (acc ++ List.map (fun i => canonical_of struggled (s_category i)) items).
Proof.
  revert acc. induction items as [|i items IH]; intros acc;
    cbn [List.map for_each].
  - by rewrite app_nil_r.
  - rewrite getitem_struggled. cbn [bind]. rewrite IH.
    by rewrite <- app_assoc.
Qed.

Lemma get_understood_well (a : StudentAssessment) :
  py_get (assessment_json a) (py "understood_well") (JArr [])
  = Ok (JArr (List.map understood_json (understood_well a))).
Proof. reflexivity. Qed.

Lemma get_struggled_with (a : StudentAssessment) :
  py_get (assessment_json a) (py "struggled_with") (JArr [])
  = Ok (JArr (List.map struggled_json (struggled_with a))).
Proof. reflexivity. Qed.

(** C5. For every first assessment the canonical list is every
    category of [understood_well], tagged [understood], followed by
    every category of [struggled_with], tagged [struggled]: in source
    order and without deduplication (the list has one entry per item).
    The function is pure: run inside the analysis it leaves the model
    client as it found it. *)
Theorem extract_categories_spec (a : StudentAssessment) :
  _extract_categories (assessment_json a)
  = Ok (List.map (fun i => canonical_of understood (u_category i)) (understood_well a)
        ++ List.map (fun i => canonical_of struggled (s_category i)) (struggled_with a))
  /\ (exists cs, _extract_categories (assessment_json a) = Ok cs
                 /\ length cs
                    = length (understood_well a) + length (struggled_with a))
  /\ (forall client,
        snd (lift (_extract_categories (assessment_json a)) client) = client).
Proof.
  assert (E : _extract_categories (assessment_json a)
    = Ok (List.map (fun i => canonical_of understood (u_category i)) (understood_well a)
        ++ List.map (fun i => canonical_of struggled (s_category i)) (struggled_with a))).
  { unfold _extract_categories, collect_categories.
    rewrite get_understood_well, get_struggled_with. cbn [bind py_iter].
    rewrite collect_understood. cbn [bind app].
    by rewrite collect_struggled. }
  split; [exact E|]. split; [|done].
  eexists. split; [exact E|].
  by rewrite length_app, !length_map.
Qed.

End Canonicalizer.

(** ** The aggregator *)

Section Aggregator.

Lemma key_eqb_str (k : json) (a : pystr) :
  key_eqb k (JStr a) = true <-> k = JStr a.
Proof.
  destruct k; cbn; try (split; [discriminate | intros [=]]).
  case_decide; split; intros; simplify_eq; done.
Qed.




Lemma count_struggled_items (items : list struggled_item) (acc : counts) :
  for_each
    (fun c item =>
       let* category := py_getitem item (py "category") in
       let* key := dict_key category in
       Ok (counts_incr c key))
    (List.map struggled_json items) acc
  = Ok (fold_left counts_incr (List.map JStr (List.map s_category items)) acc).
Proof.
  revert acc. induction items as [|i items IH]; intros acc;
    cbn [List.map for_each fold_left]; [done|].
  rewrite getitem_struggled. cbn [bind dict_key]. apply IH.
Qed.

Lemma count_understood_items (items : list understood_item) (acc : counts) :
  for_each
    (fun c item =>
       let* category := py_getitem item (py "category") in
       let* key := dict_key category in
       Ok (counts_incr c key))
    (List.map understood_json items) acc
  = Ok (fold_left counts_incr (List.map JStr (List.map u_category items)) acc).
Proof.
  revert acc. induction items as [|i items IH]; intros acc;
    cbn [List.map for_each fold_left]; [done|].
  rewrite getitem_understood. cbn [bind dict_key]. apply IH.
Qed.




(** On records that follow the layout the two counting loops succeed
    and count the category names in order. *)
Lemma count_struggles (l : list StudentAssessment) :
  count_categories (py "struggled_with") (List.map assessment_json l)
  = Ok (tally (struggle_categories l)).
Proof.
  unfold count_categories, tally. generalize (@nil (json * nat)) as acc.
  induction l as [|a l IH]; intros acc; cbn [List.map for_each]; [done|].
  rewrite get_struggled_with. cbn [bind py_iter].
  rewrite count_struggled_items. cbn [bind]. rewrite IH.
  unfold struggle_categories. cbn [flat_map].
  by rewrite List.map_app, fold_left_app.
Qed.

Lemma count_understood (l : list StudentAssessment) :
  count_categories (py "understood_well") (List.map assessment_json l)
  = Ok (tally (understood_categories l)).
Proof.
  unfold count_categories, tally. generalize (@nil (json * nat)) as acc.
  induction l as [|a l IH]; intros acc; cbn [List.map for_each]; [done|].
  rewrite get_understood_well. cbn [bind py_iter].
  rewrite count_understood_items. cbn [bind]. rewrite IH.
  unfold understood_categories. cbn [flat_map].
  by rewrite List.map_app, fold_left_app.
Qed.



End Aggregator.

Section AggregationExample.






End AggregationExample.

(** ** Sorting and truncation *)

Section Top5.















End Top5.

(** ** Placeholders *)

Section Placeholders.




End Placeholders.

(** ** Runs of the analysis and the report cache *)

Section Runs.

Lemma conversations_of_length (histories : list history)
    (conversations : list (list pystr)) :
  conversations_of histories = Ok conversations ->
  length conversations = length histories.
Proof.
  revert conversations.
  induction histories as [|h histories IH]; intros conversations; cbn.
  - by intros [= <-].
  - destruct (messages_of h) as [m| |]; cbn; [|done|done].
    destruct (conversations_of histories) as [cs| |]; cbn; [|done|done].
    intros [= <-]. cbn. f_equal. by apply IH.
Qed.

Lemma conversations_length (d : DatabaseService) (assignment_id : pystr)
    (conversations : list (list pystr)) (exam : pystr) :
  get_conversations_for_diagnostics d assignment_id = Ok (conversations, exam) ->
  exists histories,
    load_all_chat_histories d assignment_id = Ok histories
    /\ length conversations = length histories.
Proof.
  unfold get_conversations_for_diagnostics.
  destruct (load_all_chat_histories d assignment_id) as [hs| |]; cbn;
    [|done|done].
  destruct (conversations_of hs) as [cs| |] eqn:E; cbn; [|done|done].
  intros [= <- <-]. exists hs. split; [done|]. by apply conversations_of_length.
Qed.

(** What a successful run went through. *)
Lemma run_analysis_ok (assignment_id : pystr) (first : list pystr)
    (others : list (list pystr)) (exam : pystr) (A A' : ClaudeClient)
    (e : cache_entry) (o : pystr) :
  run_analysis assignment_id first others exam A = (Ok (e, o), A') ->
  exists t restA v canon sa A2 stats,
    script A = Text t :: restA
    /\ json_loads (clean_response t) = Ok v
    /\ _extract_categories v = Ok canon
    /\ analyze_remaining 2 others exam canon [v]
         {| script := restA;
            calls := calls A ++ [FirstStudentRequest exam
                                   (_format_conversation first)] |}
       = (Ok sa, A2)
    /\ _generate_statistics sa = Ok stats
    /\ e = {| ce_assignment_id := assignment_id;
              ce_student_analyses := sa;
              ce_statistics := stats;
              ce_canonical_categories := canon;
              ce_exam_content := exam |}.
Proof.
  unfold run_analysis, _analyze_first_student, mbind, generate, lift, ret,
    _create_overview.
  destruct (script A) as [|[t|] restA]; cbn [tail]; try discriminate.
  destruct (json_loads (clean_response t)) as [v| |] eqn:Hv; try discriminate.
  destruct (_extract_categories v) as [canon| |] eqn:Hc; try discriminate.
  destruct (analyze_remaining 2 others exam canon [v] _) as [[sa| |] A2] eqn:R;
    try discriminate.
  destruct (_generate_statistics sa) as [stats| |] eqn:Hst; try discriminate.
  unfold generate.
  destruct (script A2) as [|[ov|] rest2]; try discriminate.
  intros [= <- <- <-].
  exists t, restA, v, canon, sa, A2, stats. repeat split; try done.
Qed.

(** One aligned pass: its outcome is read off the next reply. *)
Lemma analyze_student_step (conv : list pystr) (exam : pystr)
    (canon : list canonical) (i : nat) (A : ClaudeClient) :
  _analyze_student conv exam canon i A
  = (match script A with
     | Text t :: _ => json_loads (clean_response t)
     | _ => Raise ProviderError
     end,
     {| script := tail (script A);
        calls := calls A ++ [StudentRequest (List.map category canon) exam
                               (_format_conversation conv) i] |}).
Proof.
  unfold _analyze_student, mbind, generate, lift.
  by destruct (script A) as [|[t|] r].
Qed.

(** The analyses of the remaining students depend on the model only
    through its next replies, one per student. *)
Lemma analyze_remaining_prefix (convs : list (list pystr)) :
  forall (i : nat) (exam : pystr) (canon : list canonical) (acc : list json)
         (A B : ClaudeClient),
    take (length convs) (script A) = take (length convs) (script B) ->
    fst (analyze_remaining i convs exam canon acc A)
    = fst (analyze_remaining i convs exam canon acc B).
Proof.
  induction convs as [|conv convs IH]; intros i exam canon acc A B Hpre;
    [done|].
  cbn [analyze_remaining]. unfold mbind. rewrite !analyze_student_step.
  cbn [length] in Hpre.
  destruct (script A) as [|a sA], (script B) as [|b sB];
    cbn [take] in Hpre; try discriminate; [done|].
  injection Hpre as -> Hpre.
  destruct b as [t|]; [|done]. cbn [tail].
  destruct (json_loads (clean_response t)) as [v| |]; [|done|done].
  apply IH. exact Hpre.
Qed.

(** Two successful runs that read the same replies during extraction
    build the same cache entry, whatever the overview replies are. *)
Lemma run_analysis_reproducible (assignment_id : pystr) (first : list pystr)
    (others : list (list pystr)) (exam : pystr) (A A' B B' : ClaudeClient)
    (eA eB : cache_entry) (oA oB : pystr) :
  take (S (length others)) (script A) = take (S (length others)) (script B) ->
  run_analysis assignment_id first others exam A = (Ok (eA, oA), A') ->
  run_analysis assignment_id first others exam B = (Ok (eB, oB), B') ->
  eA = eB.
Proof.
  intros Hpre HA HB.
  apply run_analysis_ok in HA
    as (tA & rA & vA & cA & saA & A2 & stA & HsA & HvA & HcA & HrA & HstA & ->).
  apply run_analysis_ok in HB
    as (tB & rB & vB & cB & saB & B2 & stB & HsB & HvB & HcB & HrB & HstB & ->).
  rewrite HsA, HsB in Hpre. cbn [take] in Hpre. injection Hpre as -> Hpre.
  rewrite HvA in HvB. injection HvB as ->.
  rewrite HcA in HcB. injection HcB as ->.
  pose proof (analyze_remaining_prefix others 2 exam cB [vB]
                {| script := rA;
                   calls := calls A ++ [FirstStudentRequest exam
                                          (_format_conversation first)] |}
                {| script := rB;
                   calls := calls B ++ [FirstStudentRequest exam
                                          (_format_conversation first)] |}
                Hpre) as Heq.
  rewrite HrA, HrB in Heq. cbn in Heq. injection Heq as ->.
  rewrite HstA in HstB. by injection HstB as ->.
Qed.

Lemma analyze_unfold (self : DiagnosticsService) (assignment_id : pystr)
    (first : list pystr) (others : list (list pystr)) (exam : pystr) :
  get_conversations_for_diagnostics (db self) assignment_id
  = Ok (first :: others, exam) ->
  analyze_assignment self assignment_id
  = match run_analysis assignment_id first others exam (llm self) with
    | (Ok (entry, overview), llm') =>
        (Ok (Report assignment_id (S (length others)) overview
                    (ce_statistics entry) (ce_student_analyses entry)),
         {| db := db self; llm := llm';
            analysis_cache := <[assignment_id := entry]> (analysis_cache self) |})
    | (Raise e, llm') =>
        (Raise e, {| db := db self; llm := llm';
                     analysis_cache := analysis_cache self |})
    | (Unmodelled, llm') =>
        (Unmodelled, {| db := db self; llm := llm';
                        analysis_cache := analysis_cache self |})
    end.
Proof. intros H. unfold analyze_assignment. by rewrite H. Qed.

(** A run that does not succeed leaves the cache as it was; no run
    touches the store. *)
Lemma analyze_failure_keeps_cache (self : DiagnosticsService)
    (assignment_id : pystr) :
  ~ succeeded (fst (analyze_assignment self assignment_id)) ->
  analysis_cache (snd (analyze_assignment self assignment_id))
  = analysis_cache self.
Proof.
  intros Hfail.
  destruct (get_conversations_for_diagnostics (db self) assignment_id)
    as [[[|first others] exam]| |] eqn:Eg.
  - unfold analyze_assignment. by rewrite Eg.
  - rewrite (analyze_unfold _ _ _ _ _ Eg) in *.
    destruct (run_analysis _ _ _ _ _) as [[[e o]| |] l']; [|done|done].
    exfalso. apply Hfail. by eexists.
  - unfold analyze_assignment. by rewrite Eg.
  - unfold analyze_assignment. by rewrite Eg.
Qed.

(** A run that returns has loaded the conversations. *)
Lemma analyze_ok_loaded (self self' : DiagnosticsService)
    (assignment_id : pystr) (p : payload) :
  analyze_assignment self assignment_id = (Ok p, self') ->
  exists conversations exam,
    get_conversations_for_diagnostics (db self) assignment_id
    = Ok (conversations, exam).
Proof.
  unfold analyze_assignment.
  destruct (get_conversations_for_diagnostics (db self) assignment_id)
    as [[convs exam]| |]; [|done|done].
  intros _. by exists convs, exam.
Qed.

(** C7. Two calls of [analyze_assignment] for an id with stored
    conversations, both successful.  After the second call the cache
    holds for the id exactly the entry the second run built (the very
    entry the same run leaves in a cache that was empty; nothing of
    the first entry is merged in), and every other id is as before.
    When the replies read for the students are the same in both runs
    (the overview replies may differ), the second statistics text and
    the second list of analyses equal the first, and so does the
    cached entry. *)
Theorem rerun_overwrites (self self1 self2 : DiagnosticsService)
    (assignment_id : pystr) (p1 p2 : payload) :
  analyze_assignment self assignment_id = (Ok p1, self1) ->
  analyze_assignment self1 assignment_id = (Ok p2, self2) ->
  load_all_chat_histories (db self) assignment_id <> Ok [] ->
  (exists e2,
      analysis_cache self2 = <[assignment_id := e2]> (analysis_cache self1)
      /\ analysis_cache (snd (analyze_assignment (fresh self1) assignment_id))
         = {[ assignment_id := e2 ]}
      /\ ce_assignment_id e2 = assignment_id
      /\ payload_statistics p2 = Some (ce_statistics e2)
      /\ payload_analyses p2 = Some (ce_student_analyses e2))
  /\ (forall histories,
        load_all_chat_histories (db self) assignment_id = Ok histories ->
        let n := length histories in
        take n (script (llm self1)) = take n (script (llm self)) ->
        payload_statistics p2 = payload_statistics p1
      /\ payload_analyses p2 = payload_analyses p1
      /\ analysis_cache self2 !! assignment_id
         = analysis_cache self1 !! assignment_id).
Proof.
  intros H1 H2 Hne.
  destruct (analyze_ok_loaded _ _ _ _ H1) as (convs & exam & Eg).
  destruct (conversations_length _ _ _ _ Eg) as (hs & Hhs & Hlen).
  destruct convs as [|first others].
  { destruct hs; [done | discriminate Hlen]. }
  cbn [length] in Hlen.
  rewrite (analyze_unfold _ _ _ _ _ Eg) in H1.
  destruct (run_analysis _ _ _ _ (llm self)) as [[[e1 o1]| |] l1] eqn:R1;
    try discriminate.
  injection H1 as <- <-. cbn [db llm analysis_cache] in *.
  assert (Eg1 : get_conversations_for_diagnostics
                  (db {| db := db self; llm := l1;
                         analysis_cache := <[assignment_id := e1]>
                                             (analysis_cache self) |})
                  assignment_id = Ok (first :: others, exam)) by exact Eg.
  rewrite (analyze_unfold _ _ _ _ _ Eg1) in H2. cbn [llm] in H2.
  destruct (run_analysis _ _ _ _ l1) as [[[e2 o2]| |] l2] eqn:R2;
    try discriminate.
  injection H2 as <- <-. cbn [analysis_cache payload_statistics payload_analyses].
  split.
  - exists e2. split; [done|]. split.
    + unfold fresh. cbn [db llm analysis_cache].
      erewrite analyze_unfold by exact Eg. cbn [llm]. rewrite R2.
      cbn [snd analysis_cache]. by rewrite insert_empty.
    + apply run_analysis_ok in R2 as (? & ? & ? & ? & ? & ? & ? & _ & _ & _ & _ & _ & ->).
      done.
  - intros histories Hh. rewrite Hhs in Hh. injection Hh as <-.
    cbv zeta. rewrite <- Hlen. intros Hpre.
    assert (e2 = e1) as ->.
    { eapply run_analysis_reproducible; [exact Hpre | exact R2 | exact R1]. }
    split; [done|]. split; [done|].
    by rewrite !lookup_insert_eq.
Qed.

Lemma rerun_overwrites_witness :
  let p1 := Examples.payload_of (fst Examples.first_run) in
  let self1 := snd Examples.first_run in
  let p2 := Examples.payload_of (fst Examples.second_run) in
  let self2 := snd Examples.second_run in
  analyze_assignment Examples.rerun_service Examples.hw1 = (Ok p1, self1)
  /\ analyze_assignment self1 Examples.hw1 = (Ok p2, self2)
  /\ load_all_chat_histories (db Examples.rerun_service) Examples.hw1 <> Ok []
  /\ take 2 (script (llm self1)) = take 2 (script (llm Examples.rerun_service))
  /\ payload_statistics p2 = payload_statistics p1
  /\ analysis_cache self2 !! Examples.hw1 = analysis_cache self1 !! Examples.hw1.
Proof.
  cbv zeta.
  assert (H1 : analyze_assignment Examples.rerun_service Examples.hw1
               = (Ok (Examples.payload_of (fst Examples.first_run)),
                  snd Examples.first_run))
    by (vm_compute; reflexivity).
  assert (H2 : analyze_assignment (snd Examples.first_run) Examples.hw1
               = (Ok (Examples.payload_of (fst Examples.second_run)),
                  snd Examples.second_run))
    by (vm_compute; reflexivity).
  assert (Hne : load_all_chat_histories (db Examples.rerun_service) Examples.hw1
                <> Ok [])
    by (vm_compute; discriminate).
  assert (Hpre : take 2 (script (llm (snd Examples.first_run)))
                 = take 2 (script (llm Examples.rerun_service)))
    by (vm_compute; reflexivity).
  destruct (rerun_overwrites _ _ _ _ _ _ H1 H2 Hne) as [_ Hsame].
  destruct (Hsame _ eq_refl Hpre) as (Hs & _ & Hc).
  repeat split; assumption.
Defined.

(** A first reply that does not decode ends the run at once. *)
Lemma run_analysis_malformed (assignment_id : pystr) (first : list pystr)
    (others : list (list pystr)) (exam t : pystr) (rest : list reply)
    (A : ClaudeClient) :
  script A = Text t :: rest ->
  json_loads (clean_response t) = Raise JSONDecodeError ->
  run_analysis assignment_id first others exam A
  = (Raise JSONDecodeError,
     {| script := rest;
        calls := calls A ++ [FirstStudentRequest exam
                               (_format_conversation first)] |}).
Proof.
  intros Hscript Hbad.
  unfold run_analysis, _analyze_first_student, mbind, generate, lift.
  cbv beta. rewrite Hscript. cbv beta iota. by rewrite Hbad.
Qed.

(** C2, as the code has it.  When the first student's reply, once
    cleaned, is within the limits of the decoder and is not valid
    JSON, [analyze_assignment] fails with the decoder's error after
    that single call of the model, and the cache is what it was before
    the call.  More generally, whenever a run does not succeed the
    cache is unchanged: no partial report is ever stored. *)
Theorem malformed_first_reply_aborts (self : DiagnosticsService)
    (assignment_id t : pystr) (rest : list reply) (first : list pystr)
    (others : list (list pystr)) (exam : pystr) :
  get_conversations_for_diagnostics (db self) assignment_id
  = Ok (first :: others, exam) ->
  script (llm self) = Text t :: rest ->
  Decoder.within_limits (clean_response t) = true ->
  json_loads (clean_response t) = Raise JSONDecodeError ->
  fst (analyze_assignment self assignment_id) = Raise JSONDecodeError
  /\ analysis_cache (snd (analyze_assignment self assignment_id))
     = analysis_cache self
  /\ script (llm (snd (analyze_assignment self assignment_id))) = rest
  /\ (forall (self' : DiagnosticsService) (id' : pystr),
        ~ succeeded (fst (analyze_assignment self' id')) ->
        analysis_cache (snd (analyze_assignment self' id'))
        = analysis_cache self').
Proof.
  intros Eg Hscript _ Hbad.
  split; [|split; [|split]]; [| | |apply analyze_failure_keeps_cache];
    rewrite (analyze_unfold _ _ _ _ _ Eg),
      (run_analysis_malformed _ _ _ _ _ _ _ Hscript Hbad); reflexivity.
Qed.

Lemma malformed_first_reply_aborts_witness :
  get_conversations_for_diagnostics (db Examples.refusing_service) Examples.hw1
  = Ok ([[py "What is a loop?"; py "A loop repeats a block."]],
        py "Loops and recursion")
  /\ json_loads (clean_response (py "I cannot analyse this conversation."))
     = Raise JSONDecodeError
  /\ fst (analyze_assignment Examples.refusing_service Examples.hw1)
     = Raise JSONDecodeError
  /\ analysis_cache (snd (analyze_assignment Examples.refusing_service
                                              Examples.hw1))
     = analysis_cache Examples.refusing_service.
Proof.
  assert (Hne : get_conversations_for_diagnostics
                  (db Examples.refusing_service) Examples.hw1
                = Ok ([[py "What is a loop?"; py "A loop repeats a block."]],
                      py "Loops and recursion"))
    by (vm_compute; reflexivity).
  assert (Hbad : json_loads
                   (clean_response (py "I cannot analyse this conversation."))
                 = Raise JSONDecodeError)
    by (vm_compute; reflexivity).
  destruct (malformed_first_reply_aborts Examples.refusing_service Examples.hw1
              (py "I cannot analyse this conversation.") [] _ _ _ Hne eq_refl
              eq_refl Hbad)
    as (Hr & Hc & _).
  repeat split; assumption.
Defined.

(** C2, the claim as worded fails: the reply [{}] is JSON but not the
    record the prompt asks for (no record decodes to it), and the run
    succeeds and stores an entry where there was none. *)
Lemma nonconforming_reply_is_cached :
  (forall a : StudentAssessment,
      json_loads (clean_response (py "{}")) <> Ok (assessment_json a))
  /\ script (llm Examples.empty_object_service)
     = [Text (py "{}"); Text (py "Nothing to report.")]
  /\ succeeded (fst (analyze_assignment Examples.empty_object_service
                                        Examples.hw1))
  /\ analysis_cache Examples.empty_object_service !! Examples.hw1 = None
  /\ is_Some (analysis_cache
                (snd (analyze_assignment Examples.empty_object_service
                                         Examples.hw1)) !! Examples.hw1).
Proof.
  split; [intros a H; vm_compute in H; discriminate H|].
  split; [reflexivity|]. split; [|split; [reflexivity|]].
  - eexists. vm_compute. reflexivity.
  - vm_compute. by eexists.
Qed.

End Runs.

(** ** Cleaning a reply *)

Section Cleaning.



























Lemma analyze_first_student_step (conv : list pystr) (exam : pystr)
    (A : ClaudeClient) :
  _analyze_first_student conv exam A
  = (match script A with
     | Text t :: _ => json_loads (clean_response t)
     | _ => Raise ProviderError
     end,
     {| script := tail (script A);
        calls := calls A ++ [FirstStudentRequest exam
                               (_format_conversation conv)] |}).
Proof.
  unfold _analyze_first_student, mbind, generate, lift.
  by destruct (script A) as [|[t|] r].
Qed.




End Cleaning.

(** ** The decoder always answers *)

Section DecoderTotal.
Import Decoder.

Lemma skip_ws_length (s : pystr) : length (skip_ws s) <= length s.
Proof.
  induction s as [|c s IH]; cbn; [done|]. destruct (is_ws c); cbn; lia.
Qed.

Lemma cons_scanned_inv (c : N) (r : option (pystr * pystr)) (x rest : pystr) :
  cons_scanned c r = Some (x, rest) -> exists x', r = Some (x', rest).
Proof. destruct r as [[x' r']|]; cbn; [|done]. intros [= <- <-]. by eexists. Qed.

Lemma scanstring_length (n : nat) :
  forall s x r, length s <= n -> scanstring s = Some (x, r) ->
                length r < length s.
Proof.
  induction n as [|n IH]; intros s x r Hn H.
  - destruct s; [done|]. cbn in Hn. lia.
  - destruct s as [|c s1]; [done|]. cbn [scanstring] in H. cbn [length] in *.
    repeat (case_match; simplify_eq; try done; cbn [length] in * );
      try (cbn; lia);
      match goal with
      | H : cons_scanned _ (scanstring ?s') = Some _ |- _ =>
          apply cons_scanned_inv in H as [x' H];
          apply IH in H; cbn [length] in *; lia
      end.
Qed.

Lemma span_digits_length (s ds r : pystr) :
  span_digits s = (ds, r) -> length r <= length s.
Proof.
  revert ds r. induction s as [|c s IH]; cbn; intros ds r H.
  - by injection H as <- <-.
  - destruct (is_digit c).
    + destruct (span_digits s) as [ds' r'] eqn:E. injection H as <- <-.
      specialize (IH _ _ eq_refl). lia.
    + injection H as <- <-. cbn. lia.
Qed.

Lemma match_frac_length (s x r : pystr) :
  match_frac s = (x, r) -> length r <= length s.
Proof.
  unfold match_frac. intros H.
  repeat (case_match; simplify_eq; try done; cbn [length] in * ); try lia.
  match goal with H : span_digits _ = _ |- _ => apply span_digits_length in H end.
  lia.
Qed.

Lemma match_exp_length (s x r : pystr) :
  match_exp s = (x, r) -> length r <= length s.
Proof.
  unfold match_exp. intros H.
  repeat (case_match; simplify_eq; try done; cbn [length] in * ); try lia;
    match goal with H : span_digits _ = _ |- _ => apply span_digits_length in H end;
    cbn [length] in *; lia.
Qed.

Lemma match_number_length (s x r : pystr) :
  match_number s = Some (x, r) -> length r < length s.
Proof.
  unfold match_number, match_int. intros H.
  repeat (case_match; simplify_eq; try done; cbn [length] in * );
    repeat match goal with
      | H : span_digits _ = _ |- _ => apply span_digits_length in H
      | H : match_frac _ = _ |- _ => apply match_frac_length in H
      | H : match_exp _ = _ |- _ => apply match_exp_length in H
      end;
    cbn [length] in *; lia.
Qed.

Lemma startswith_length (p s : pystr) :
  startswith p s = true -> length p <= length s.
Proof.
  revert s. induction p as [|a p IH]; intros s H; cbn; [lia|].
  destruct s as [|b s]; [done|]. cbn in H. apply andb_prop in H as [_ H].
  apply IH in H. cbn. lia.
Qed.

Ltac shorter :=
  repeat match goal with
    | H : scanstring _ = Some _ |- _ =>
        apply (scanstring_length _ _ _ _ (Nat.le_refl _)) in H
    | H : match_number _ = Some _ |- _ => apply match_number_length in H
    | H : startswith _ _ = true |- _ => apply startswith_length in H
    | H : skip_ws ?s = _ :: _ |- _ =>
        let L := fresh in
        pose proof (skip_ws_length s) as L; rewrite H in L; clear H
    end;
  repeat match goal with
    | |- context [skip_ws ?s] =>
        let L := fresh in
        pose proof (skip_ws_length s) as L; generalize dependent (skip_ws s);
        intros
    | H : context [skip_ws ?s] |- _ =>
        let L := fresh in
        pose proof (skip_ws_length s) as L; generalize dependent (skip_ws s);
        intros
    end.

(** What is left after a value is shorter than the text scanned. *)
Lemma scan_shrinks (fuel : nat) :
  (forall s v r, scan_once fuel s = Scanned v r -> length r < length s)
  /\ (forall acc s v r,
        scan_members fuel acc s = Scanned v r -> length r < length s)
  /\ (forall acc s v r,
        scan_items fuel acc s = Scanned v r -> length r < length s).
Proof.
  induction fuel as [|fuel (IHo & IHm & IHi)];
    [repeat split; intros; discriminate|].
  split; [|split].
  - intros s v r H. cbn [scan_once] in H.
    destruct s as [|c s1]; [done|].
    repeat (case_match; simplify_eq; try done);
      repeat match goal with
        | H : scan_members _ _ _ = Scanned _ _ |- _ => apply IHm in H
        | H : scan_items _ _ _ = Scanned _ _ |- _ => apply IHi in H
        end;
      shorter; rewrite ?length_drop; cbn [length] in *; cbn in *; lia.
  - intros acc s v r H. cbn [scan_members] in H.
    destruct s as [|c s1]; [done|].
    repeat (case_match; simplify_eq; try done);
      repeat match goal with
        | H : scan_members _ _ _ = Scanned _ _ |- _ => apply IHm in H
        | H : scan_once _ _ = Scanned _ _ |- _ => apply IHo in H
        end;
      shorter; cbn [length] in *; lia.
  - intros acc s v r H. cbn [scan_items] in H.
    repeat (case_match; simplify_eq; try done);
      repeat match goal with
        | H : scan_items _ _ _ = Scanned _ _ |- _ => apply IHi in H
        | H : scan_once _ _ = Scanned _ _ |- _ => apply IHo in H
        end;
      shorter; cbn [length] in *; lia.
Qed.

(** With two units of fuel per character the scanner never runs out. *)
Lemma scan_fuel (fuel : nat) :
  (forall s, 2 * length s + 1 <= fuel -> scan_once fuel s <> NoFuel)
  /\ (forall acc s,
        2 * length s + 2 <= fuel -> scan_members fuel acc s <> NoFuel)
  /\ (forall acc s,
        2 * length s + 2 <= fuel -> scan_items fuel acc s <> NoFuel).
Proof.
  induction fuel as [|fuel (IHo & IHm & IHi)];
    [repeat split; intros; lia|].
  destruct (scan_shrinks fuel) as (So & Sm & Si).
  split; [|split].
  - intros s Hf H. cbn [scan_once] in H.
    destruct s as [|c s1]; [done|]. cbn [length] in Hf.
    repeat (case_match; simplify_eq; try done);
      match goal with
      | H : scan_members _ _ _ = NoFuel |- _ => apply IHm in H; [done|]
      | H : scan_items _ _ _ = NoFuel |- _ => apply IHi in H; [done|]
      end;
      shorter; cbn [length] in *; lia.
  - intros acc s Hf H. cbn [scan_members] in H.
    destruct s as [|c s1]; [done|]. cbn [length] in Hf.
    repeat (case_match; simplify_eq; try done);
      repeat match goal with
        | H : scan_once _ _ = Scanned _ _ |- _ => apply So in H
        end;
      match goal with
      | H : scan_members _ _ _ = NoFuel |- _ => apply IHm in H; [done|]
      | H : scan_once _ _ = NoFuel |- _ => apply IHo in H; [done|]
      end;
      shorter; cbn [length] in *; lia.
  - intros acc s Hf H. cbn [scan_items] in H.
    repeat (case_match; simplify_eq; try done);
      repeat match goal with
        | H : scan_once _ _ = Scanned _ _ |- _ => apply So in H
        end;
      match goal with
      | H : scan_items _ _ _ = NoFuel |- _ => apply IHi in H; [done|]
      | H : scan_once _ _ = NoFuel |- _ => apply IHo in H; [done|]
      end;
      shorter; cbn [length] in *; lia.
Qed.

(** [json_loads] is total within the limits of the decoder: it
    returns a value or raises the decoder's error, and it is beyond
    the model exactly when the text is beyond the limits. *)
Lemma json_loads_total (s : pystr) :
  within_limits s = true ->
  (exists v, json_loads s = Ok v) \/ json_loads s = Raise JSONDecodeError.
Proof.
  intros Hlim. unfold json_loads. rewrite Hlim.
  destruct (scan_once _ _) as [v rest| |] eqn:E.
  - destruct (skip_ws rest); eauto.
  - by right.
  - exfalso. revert E. apply scan_fuel. unfold enough_fuel. lia.
Qed.

Lemma json_loads_unmodelled (s : pystr) :
  json_loads s = Unmodelled <-> within_limits s = false.
Proof.
  split.
  - intros H. destruct (within_limits s) eqn:Hlim; [|done].
    destruct (json_loads_total s Hlim) as [[v Hv]|Hr]; congruence.
  - intros Hlim. unfold json_loads. by rewrite Hlim.
Qed.

End DecoderTotal.

(* ================================================================== *)
(** * Further properties of the pipeline *)
(* ================================================================== *)

(** ** Transcripts *)

Section Transcripts.

Lemma split_lines_from_app (cur line rest : pystr) :
  10%N ∉ line ->
  split_lines_from cur (line ++ 10%N :: rest)
  = (rev cur ++ line) :: split_lines_from [] rest.
Proof.
  revert cur. induction line as [|c line IH]; intros cur Hnl; cbn.
  - by rewrite app_nil_r.
  - destruct (N.eqb_spec c 10) as [->|_].
    + exfalso. apply Hnl. apply list_elem_of_here.
    + rewrite IH; [|intros H; apply Hnl; by apply list_elem_of_further].
      cbn. by rewrite <- app_assoc.
Qed.

Lemma turn_label_no_newline (i : nat) : 10%N ∉ turn_label i ++ py ": ".
Proof.
  unfold turn_label. destruct (Nat.even i); intros H;
    repeat (apply elem_of_cons in H as [H|H]; [discriminate H|]);
    by apply elem_of_nil in H.
Qed.

Lemma format_from_lines (messages : list pystr) (i : nat) :
  Forall (fun m => 10%N ∉ m) messages ->
  split_lines_from [] (format_from i messages)
  = turn_lines i messages ++ [[]].
Proof.
  intros H. revert i. induction H as [|m messages Hm _ IH]; intros i; [done|].
  cbn [format_from turn_lines].
  assert (E : (if Nat.even i then py "Student" else py "Assistant")
                ++ py ": " ++ m ++ [10%N] ++ format_from (S i) messages
              = (turn_label i ++ py ": " ++ m)
                  ++ 10%N :: format_from (S i) messages).
  { unfold turn_label. by rewrite <- !app_assoc. }
  rewrite E, split_lines_from_app.
  - cbn [rev app]. by rewrite IH.
  - intros Hin. rewrite app_assoc in Hin.
    apply elem_of_app in Hin as [Hin|Hin]; [|done].
    by apply turn_label_no_newline in Hin.
Qed.

Lemma turn_lines_length (messages : list pystr) (i : nat) :
  length (turn_lines i messages) = length messages.
Proof.
  revert i. induction messages as [|m ms IH]; intros i; cbn; [done|].
  by rewrite IH.
Qed.

(** X1. When no message contains a line break, the transcript is one
    line per message, in order, each labelled by the parity of its
    position ("Student" at even positions, "Assistant" at odd ones),
    followed by one empty line: the stored roles play no part. *)
Theorem transcript_lines (messages : list pystr) :
  Forall (fun m => 10%N ∉ m) messages ->
  split_lines (_format_conversation messages) = turn_lines 0 messages ++ [[]]
  /\ length (split_lines (_format_conversation messages))
     = S (length messages).
Proof.
  intros H. unfold split_lines, _format_conversation.
  rewrite (format_from_lines _ 0 H). split; [done|].
  rewrite length_app, turn_lines_length. cbn. lia.
Qed.

Lemma transcript_lines_witness :
  Forall (fun m => 10%N ∉ m) [py "What is a loop?"; py "A loop repeats."]
  /\ split_lines (_format_conversation
                    [py "What is a loop?"; py "A loop repeats."])
     = [py "Student: What is a loop?"; py "Assistant: A loop repeats."; []].
Proof.
  assert (H : Forall (fun m => 10%N ∉ m)
                [py "What is a loop?"; py "A loop repeats."]).
  { repeat constructor; apply (bool_decide_unpack _); vm_compute; exact I. }
  split; [exact H|].
  destruct (transcript_lines _ H) as [E _]. exact E.
Defined.

Lemma format_from_app (a b : list pystr) (i : nat) :
  format_from i (a ++ b) = format_from i a ++ format_from (i + length a) b.
Proof.
  revert i. induction a as [|m a IH]; intros i; cbn [app format_from length].
  - by rewrite Nat.add_0_r.
  - rewrite IH, <- !app_assoc.
    by rewrite Nat.add_succ_comm.
Qed.

Lemma format_from_parity (b : list pystr) (i j : nat) :
  Nat.even i = Nat.even j -> format_from i b = format_from j b.
Proof.
  revert i j. induction b as [|m b IH]; intros i j Hij; [done|].
  cbn [format_from]. rewrite Hij. do 4 f_equal. apply IH.
  by rewrite !Nat.even_succ, <- !Nat.negb_even, Hij.
Qed.

(** X2. The transcript of a conversation continued after an even
    number of messages is the transcript of the first part followed by
    the transcript of the continuation: whole exchanges can be
    appended without relabelling. *)
Theorem transcript_append (a b : list pystr) :
  Nat.even (length a) = true ->
  _format_conversation (a ++ b)
  = _format_conversation a ++ _format_conversation b.
Proof.
  intros Ha. unfold _format_conversation.
  rewrite format_from_app. f_equal. by apply format_from_parity.
Qed.

Lemma transcript_append_witness :
  Nat.even (length [py "q1"; py "a1"]) = true
  /\ _format_conversation ([py "q1"; py "a1"] ++ [py "q2"; py "a2"])
     = _format_conversation [py "q1"; py "a1"]
         ++ _format_conversation [py "q2"; py "a2"].
Proof.
  split; [reflexivity|].
  apply (transcript_append [py "q1"; py "a1"]). reflexivity.
Defined.

End Transcripts.

(** ** The calls of a run *)

Section Protocol.

(** The loop over the remaining students, in closed form: what it
    returns, how many replies it reads, and what it logs. *)
Lemma analyze_remaining_trace (convs : list (list pystr)) :
  forall (i : nat) (exam : pystr) (canon : list canonical) (acc : list json)
         (A : ClaudeClient),
    let '(r, k) := decode_replies (length convs) (script A) acc in
    analyze_remaining i convs exam canon acc A
    = (r, {| script := drop k (script A);
             calls := calls A
                      ++ take k (student_requests i convs exam
                                   (List.map category canon)) |}).
Proof.
  induction convs as [|conv convs IH]; intros i exam canon acc A.
  - cbn. rewrite app_nil_r. by destruct A.
  - cbn [length decode_replies analyze_remaining student_requests].
    unfold mbind. rewrite analyze_student_step.
    destruct (script A) as [|[t|] rest] eqn:Es; cbn [decode_reply tail];
      try (cbn; by rewrite ?drop_0).
    destruct (json_loads (clean_response t)) as [v| |];
      try (cbn; by rewrite ?drop_0).
    specialize (IH (S i) exam canon (acc ++ [v])
                  {| script := rest;
                     calls := calls A
                              ++ [StudentRequest (List.map category canon) exam
                                    (_format_conversation conv) i] |}).
    cbn [script calls] in IH.
    destruct (decode_replies (length convs) rest (acc ++ [v])) as [r k].
    rewrite IH. cbn [drop take]. by rewrite <- app_assoc.
Qed.

Lemma decode_replies_ok (n : nat) :
  forall (replies : list reply) (acc sa : list json) (k : nat),
    decode_replies n replies acc = (Ok sa, k) ->
    k = n /\ n <= length replies
    /\ exists new, sa = acc ++ new /\ length new = n
                   /\ Forall2 (fun r v => decode_reply r = Ok v)
                              (take n replies) new.
Proof.
  induction n as [|n IH]; intros replies acc sa k H; cbn in H.
  - injection H as <- <-. split; [done|]. split; [lia|].
    exists []. by rewrite app_nil_r.
  - destruct replies as [|r replies]; [discriminate|].
    destruct (decode_reply r) as [v| |] eqn:Er; try discriminate.
    cbn [tail] in H.
    destruct (decode_replies n replies (acc ++ [v])) as [r' k'] eqn:E.
    injection H as -> <-.
    apply IH in E as (-> & Hn & new & -> & Hlen & Hall).
    split; [done|]. split; [cbn; lia|].
    exists (v :: new). rewrite <- app_assoc. split; [done|].
    split; [cbn; lia|]. cbn. by constructor.
Qed.

(** A successful run, step by step. *)
Lemma run_analysis_trace (assignment_id : pystr) (first : list pystr)
    (others : list (list pystr)) (exam : pystr) (A A' : ClaudeClient)
    (e : cache_entry) (o : pystr) :
  run_analysis assignment_id first others exam A = (Ok (e, o), A') ->
  exists t v rest,
    script A = Text t :: rest
    /\ json_loads (clean_response t) = Ok v
    /\ _extract_categories v = Ok (ce_canonical_categories e)
    /\ decode_replies (length others) rest [v]
       = (Ok (ce_student_analyses e), length others)
    /\ _generate_statistics (ce_student_analyses e) = Ok (ce_statistics e)
    /\ ce_assignment_id e = assignment_id /\ ce_exam_content e = exam
    /\ drop (length others) rest = Text o :: script A'
    /\ calls A'
       = calls A
         ++ [FirstStudentRequest exam (_format_conversation first)]
         ++ student_requests 2 others exam
              (List.map category (ce_canonical_categories e))
         ++ [OverviewRequest (ce_student_analyses e) (ce_statistics e)].
Proof.
  unfold run_analysis, mbind. rewrite analyze_first_student_step.
  destruct (script A) as [|[t|] rest]; cbn [tail]; try discriminate.
  destruct (json_loads (clean_response t)) as [v| |] eqn:Hv; try discriminate.
  unfold lift at 1.
  destruct (_extract_categories v) as [canon| |] eqn:Hc; try discriminate.
  pose proof (analyze_remaining_trace others 2 exam canon [v]
                {| script := rest;
                   calls := calls A ++ [FirstStudentRequest exam
                                          (_format_conversation first)] |})
    as Htr.
  cbn [script calls] in Htr.
  destruct (decode_replies (length others) rest [v]) as [r k] eqn:Ed.
  rewrite Htr. destruct r as [sa| |]; try discriminate.
  apply decode_replies_ok in Ed as Hk. destruct Hk as (-> & Hlen & _).
  unfold lift.
  destruct (_generate_statistics sa) as [stats| |] eqn:Hst; try discriminate.
  unfold _create_overview, generate, ret. cbn [script calls].
  destruct (drop (length others) rest) as [|[ov|] rest2] eqn:Edrop;
    try discriminate.
  intros [= <- <- <-]. cbn [ce_canonical_categories ce_student_analyses
    ce_statistics ce_assignment_id ce_exam_content script calls tail].
  exists t, v, rest. repeat split; try done.
  rewrite <- !app_assoc. do 2 f_equal.
  rewrite firstn_all2; [done|].
  clear. generalize 2. induction others as [|c cs IH]; intros i; cbn; [lia|].
  specialize (IH (S i)). lia.
Qed.

(** X3. A successful run calls the model once per student and once
    for the overview, in this order: the first pass on the first
    conversation, one aligned pass per further conversation, numbered
    from 2 and each given the category names extracted from the first
    student's record, then the overview on all analyses and the
    statistics.  Exactly that many replies are read, and the entry
    cached has one analysis per conversation. *)
Theorem analysis_protocol (self self' : DiagnosticsService)
    (assignment_id : pystr) (p : payload) (first : list pystr)
    (others : list (list pystr)) (exam : pystr) :
  get_conversations_for_diagnostics (db self) assignment_id
  = Ok (first :: others, exam) ->
  analyze_assignment self assignment_id = (Ok p, self') ->
  exists e v,
    analysis_cache self' !! assignment_id = Some e
    /\ calls (llm self')
       = calls (llm self)
         ++ [FirstStudentRequest exam (_format_conversation first)]
         ++ student_requests 2 others exam
              (List.map category (ce_canonical_categories e))
         ++ [OverviewRequest (ce_student_analyses e) (ce_statistics e)]
    /\ length (script (llm self))
       = length (script (llm self')) + length others + 2
    /\ length (ce_student_analyses e) = S (length others)
    /\ head (ce_student_analyses e) = Some v
    /\ _extract_categories v = Ok (ce_canonical_categories e).
Proof.
  intros Eg H. rewrite (analyze_unfold _ _ _ _ _ Eg) in H.
  destruct (run_analysis _ _ _ _ _) as [[[e o]| |] A'] eqn:R; try discriminate.
  injection H as <- <-. cbn [llm analysis_cache].
  apply run_analysis_trace in R
    as (t & v & rest & Hs & Hv & Hc & Hd & Hst & Hid & Hex & Hdrop & Hcalls).
  apply decode_replies_ok in Hd as (_ & Hlen & new & Hsa & Hnew & _).
  exists e, v. split; [by rewrite lookup_insert_eq|]. split; [exact Hcalls|].
  split; [|split; [|split; [|exact Hc]]].
  - rewrite Hs. cbn [length].
    assert (length (drop (length others) rest)
            = S (length (script A'))) as Hl by (by rewrite Hdrop).
    rewrite length_drop in Hl. lia.
  - rewrite Hsa, length_app. cbn. lia.
  - by rewrite Hsa.
Qed.

Lemma analysis_protocol_witness :
  exists e,
    analysis_cache (snd Examples.first_run) !! Examples.hw1 = Some e
    /\ length (calls (llm (snd Examples.first_run))) = 3
    /\ length (script (llm (snd Examples.first_run))) = 3
    /\ length (ce_student_analyses e) = 2.
Proof.
  assert (Eg : get_conversations_for_diagnostics
                 (db Examples.rerun_service) Examples.hw1
               = Ok ([py "What is a loop?"; py "A loop repeats a block."]
                  :: [[py "What is a loop?"; py "A loop repeats a block."]],
                  py "Loops and recursion"))
    by (vm_compute; reflexivity).
  assert (H1 : analyze_assignment Examples.rerun_service Examples.hw1
               = (Ok (Examples.payload_of (fst Examples.first_run)),
                  snd Examples.first_run))
    by (vm_compute; reflexivity).
  destruct (analysis_protocol _ _ _ _ _ _ _ Eg H1)
    as (e & v & He & Hcalls & Hscript & Hlen & _).
  exists e. split; [exact He|]. split; [|split; [|exact Hlen]].
  - rewrite Hcalls. reflexivity.
  - cbn [length] in Hscript.
    change (length (script (llm Examples.rerun_service))) with 6 in Hscript.
    lia.
Defined.

(** A run from the point where the first student's record has been
    decoded and canonicalised. *)
Lemma run_analysis_after_first (assignment_id : pystr) (first : list pystr)
    (others : list (list pystr)) (exam t : pystr) (rest : list reply)
    (A : ClaudeClient) (v : json) (canon : list canonical)
    (r : result (list json)) (k : nat) :
  script A = Text t :: rest ->
  json_loads (clean_response t) = Ok v ->
  _extract_categories v = Ok canon ->
  decode_replies (length others) rest [v] = (r, k) ->
  let A2 := {| script := drop k rest;
               calls := (calls A ++ [FirstStudentRequest exam
                                       (_format_conversation first)])
                        ++ take k (student_requests 2 others exam
                                     (List.map category canon)) |} in
  run_analysis assignment_id first others exam A
  = match r with
    | Ok sa =>
        match _generate_statistics sa with
        | Ok stats =>
            match script A2 with
            | Text o :: _ =>
                (Ok ({| ce_assignment_id := assignment_id;
                        ce_student_analyses := sa;
                        ce_statistics := stats;
                        ce_canonical_categories := canon;
                        ce_exam_content := exam |}, o),
                 {| script := tail (script A2);
                    calls := calls A2 ++ [OverviewRequest sa stats] |})
            | _ =>
                (Raise ProviderError,
                 {| script := tail (script A2);
                    calls := calls A2 ++ [OverviewRequest sa stats] |})
            end
        | Raise e => (Raise e, A2)
        | Unmodelled => (Unmodelled, A2)
        end
    | Raise e => (Raise e, A2)
    | Unmodelled => (Unmodelled, A2)
    end.
Proof.
  intros Hs Hv Hc Hd A2.
  unfold run_analysis, mbind. rewrite analyze_first_student_step, Hs, Hv.
  unfold lift at 1. rewrite Hc. cbn [tail].
  pose proof (analyze_remaining_trace others 2 exam canon [v]
                {| script := rest;
                   calls := calls A ++ [FirstStudentRequest exam
                                          (_format_conversation first)] |})
    as Htr.
  cbn [script calls] in Htr. rewrite Hd in Htr. rewrite Htr. fold A2.
  destruct r as [sa| |]; [|done|done].
  unfold lift. destruct (_generate_statistics sa) as [stats| |]; [|done|done].
  unfold _create_overview, generate, ret.
  by destruct (script A2) as [|[o|] rest2].
Qed.

(** The passes read replies until one fails. *)
Lemma decode_replies_stop (goods : list reply) :
  forall (n : nat) (bad : list reply) (acc : list json) (e : exn),
    length goods < n ->
    Forall (fun r => succeeded (decode_reply r)) goods ->
    (match bad with
     | r :: _ => decode_reply r
     | [] => Raise ProviderError
     end) = Raise e ->
    decode_replies n (goods ++ bad) acc = (Raise e, S (length goods)).
Proof.
  induction goods as [|g goods IH]; intros n bad acc e Hn Hg Hbad.
  - destruct n as [|n]; [cbn in Hn; lia|]. cbn [app decode_replies].
    by rewrite Hbad.
  - destruct n as [|n]; [cbn in Hn; lia|].
    apply Forall_cons in Hg as [[v Hv] Hg].
    cbn [app decode_replies tail length]. rewrite Hv.
    rewrite (IH n bad (acc ++ [v]) e); [done| cbn in Hn; lia | done | done].
Qed.

(** X4. A run is abandoned at the first reply that fails, whichever
    student it belongs to: when the first student's record and those
    of some further students decode, and the next student's reply is
    missing, a failure of the model or not valid JSON, the run raises
    that error, has read no reply beyond the failing one, and leaves
    the cache as it was.  The analyses already obtained are lost. *)
Theorem failing_student_aborts (self : DiagnosticsService)
    (assignment_id t : pystr) (first : list pystr)
    (others : list (list pystr)) (exam : pystr) (v : json)
    (canon : list canonical) (goods bad : list reply) (e : exn) :
  get_conversations_for_diagnostics (db self) assignment_id
  = Ok (first :: others, exam) ->
  script (llm self) = Text t :: goods ++ bad ->
  json_loads (clean_response t) = Ok v ->
  _extract_categories v = Ok canon ->
  Forall (fun r => succeeded (decode_reply r)) goods ->
  length goods < length others ->
  (match bad with
   | r :: _ => decode_reply r
   | [] => Raise ProviderError
   end) = Raise e ->
  fst (analyze_assignment self assignment_id) = Raise e
  /\ analysis_cache (snd (analyze_assignment self assignment_id))
     = analysis_cache self
  /\ script (llm (snd (analyze_assignment self assignment_id)))
     = tail bad
  /\ length (calls (llm (snd (analyze_assignment self assignment_id))))
     = length (calls (llm self)) + length goods + 2.
Proof.
  intros Eg Hs Hv Hc Hg Hlen Hbad.
  pose proof (decode_replies_stop goods (length others) bad [v] e Hlen Hg Hbad)
    as Hd.
  rewrite (analyze_unfold _ _ _ _ _ Eg).
  rewrite (run_analysis_after_first _ _ _ _ _ _ _ _ _ _ _ Hs Hv Hc Hd).
  cbn [fst snd analysis_cache llm script calls].
  split; [done|]. split; [done|]. split.
  - clear. induction goods as [|g goods IH]; [by destruct bad | exact IH].
  - rewrite !length_app, length_take. cbn [length].
    assert (forall i cs, length (student_requests i cs exam
                                   (List.map category canon)) = length cs)
      as Hreq.
    { intros i cs. revert i. induction cs as [|c cs IH]; intros i; cbn; [done|].
      by rewrite IH. }
    rewrite Hreq. lia.
Qed.

Lemma failing_student_aborts_witness :
  fst (analyze_assignment MoreExamples.second_reply_refused Examples.hw1)
  = Raise JSONDecodeError
  /\ analysis_cache
       (snd (analyze_assignment MoreExamples.second_reply_refused Examples.hw1))
     = analysis_cache MoreExamples.second_reply_refused
  /\ script (llm (snd (analyze_assignment MoreExamples.second_reply_refused
                                          Examples.hw1)))
     = [Text (py "unused")].
Proof.
  assert (Eg : get_conversations_for_diagnostics
                 (db MoreExamples.second_reply_refused) Examples.hw1
               = Ok ([py "What is a loop?"; py "A loop repeats a block."]
                  :: [[py "What is a loop?"; py "A loop repeats a block."]],
                  py "Loops and recursion"))
    by (vm_compute; reflexivity).
  destruct (json_loads (clean_response Examples.record1)) as [v| |] eqn:Hv;
    [|vm_compute in Hv; discriminate Hv|vm_compute in Hv; discriminate Hv].
  destruct (_extract_categories v) as [canon| |] eqn:Hc;
    [|revert Hc; vm_compute in Hv; injection Hv as <-; vm_compute;
      discriminate
     |revert Hc; vm_compute in Hv; injection Hv as <-; vm_compute;
      discriminate].
  destruct (failing_student_aborts MoreExamples.second_reply_refused
              Examples.hw1 Examples.record1 _ _ _ v canon []
              [Text (py "Sorry, I cannot do that."); Text (py "unused")]
              JSONDecodeError Eg eq_refl Hv Hc)
    as (Hr & Hcache & Hscript & _).
  - constructor.
  - cbn. lia.
  - vm_compute. reflexivity.
  - by repeat split.
Defined.

Lemma decode_replies_prefix (n : nat) :
  forall (r1 r2 : list reply) (acc : list json),
    take n r1 = take n r2 ->
    decode_replies n r1 acc = decode_replies n r2 acc.
Proof.
  induction n as [|n IH]; intros r1 r2 acc H; [done|].
  destruct r1 as [|a r1], r2 as [|b r2]; cbn [take] in H; try discriminate;
    [done|].
  injection H as -> H. cbn [decode_replies tail].
  destruct (decode_reply b); [|done|done]. by rewrite (IH r1 r2).
Qed.

(** X5. The overview is part of the run: take a run that succeeds, and
    let the model instead fail (or have no reply left) when asked for
    the overview, after the same replies for the students.  Then the
    run raises the provider error and caches nothing, although every
    student was analysed and the statistics were computed. *)
Theorem overview_failure_discards_run (self self1 : DiagnosticsService)
    (assignment_id o : pystr) (p : payload) (s s' bad : list reply)
    (histories : list history) :
  analyze_assignment self assignment_id = (Ok p, self1) ->
  script (llm self) = s ++ Text o :: s' ->
  load_all_chat_histories (db self) assignment_id = Ok histories ->
  length s = length histories ->
  s <> [] ->
  (forall t, head bad <> Some (Text t)) ->
  let failing :=
    with_client self {| script := s ++ bad; calls := calls (llm self) |} in
  fst (analyze_assignment failing assignment_id) = Raise ProviderError
  /\ analysis_cache (snd (analyze_assignment failing assignment_id))
     = analysis_cache self
  /\ length (calls (llm (snd (analyze_assignment failing assignment_id))))
     = length (calls (llm self1)).
Proof.
  intros H Hs Hh Hlen Hne Hbad failing.
  destruct (analyze_ok_loaded _ _ _ _ H) as (convs & exam & Eg).
  destruct (conversations_length _ _ _ _ Eg) as (hs & Hhs & Hconv).
  rewrite Hh in Hhs. injection Hhs as <-.
  destruct convs as [|first others]; cbn [length] in Hconv.
  { destruct s; [done|]. cbn in Hlen. lia. }
  rewrite (analyze_unfold _ _ _ _ _ Eg) in H.
  destruct (run_analysis _ _ _ _ _) as [[[e o']| |] A'] eqn:R; try discriminate.
  injection H as <- <-.
  apply run_analysis_trace in R
    as (t & v & rest & Hs' & Hv & Hc & Hd & Hst & _ & _ & _ & Hcalls).
  destruct s as [|s0 s]; [done|]. rewrite Hs in Hs'.
  cbn [app] in Hs'. injection Hs' as -> <-.
  cbn [length] in Hlen.
  assert (Hd' : decode_replies (length others) (s ++ bad) [v]
                = (Ok (ce_student_analyses e), length others)).
  { rewrite <- Hd. apply decode_replies_prefix.
    rewrite !take_app_length' by lia. done. }
  assert (Eg' : get_conversations_for_diagnostics (db failing) assignment_id
                = Ok (first :: others, exam)) by exact Eg.
  rewrite (analyze_unfold _ _ _ _ _ Eg').
  assert (Hsf : script (llm failing) = Text t :: s ++ bad) by done.
  rewrite (run_analysis_after_first _ _ _ _ _ _ _ _ _ _ _ Hsf Hv Hc Hd').
  rewrite Hst. cbn [script].
  rewrite drop_app_length' by lia.
  assert (Hreq : forall i cs, length (student_requests i cs exam
                   (List.map category (ce_canonical_categories e)))
                 = length cs).
  { intros i cs. revert i. induction cs as [|c cs IH]; intros i; cbn; [done|].
    by rewrite IH. }
  destruct bad as [|[tb|] bad']; [|exfalso; by eapply Hbad|];
    cbn [fst snd analysis_cache llm calls];
    (split; [done|]; split; [done|]);
    rewrite Hcalls; repeat rewrite length_app; rewrite length_take, !Hreq;
    change (calls (llm failing)) with (calls (llm self)); cbn [length]; lia.
Qed.

Lemma overview_failure_discards_run_witness :
  fst (analyze_assignment MoreExamples.silent_overview_service Examples.hw1)
  = Raise ProviderError
  /\ analysis_cache
       (snd (analyze_assignment MoreExamples.silent_overview_service
                                Examples.hw1))
     = analysis_cache Examples.rerun_service.
Proof.
  assert (H1 : analyze_assignment Examples.rerun_service Examples.hw1
               = (Ok (Examples.payload_of (fst Examples.first_run)),
                  snd Examples.first_run))
    by (vm_compute; reflexivity).
  destruct (overview_failure_discards_run Examples.rerun_service _
              Examples.hw1 (py "Loops are the main difficulty.") _
              [Text Examples.record1; Text Examples.record2]
              [Text Examples.record1; Text Examples.record2;
               Text (py "Most students struggle with loops.")]
              [] _ H1 eq_refl eq_refl)
    as (Hr & Hc & _).
  - vm_compute. reflexivity.
  - discriminate.
  - intros t. discriminate.
  - split; [exact Hr | exact Hc].
Defined.

(** X6. After a successful analysis of an id with stored
    conversations, a query for that id never returns the
    run-analysis-first message: it asks the model once, handing it
    the cached report of that run (the analyses and statistics that
    were returned) together with the question, and returns the reply
    unchanged, or raises the provider error when the model fails. *)
Theorem query_after_analyze (self self1 : DiagnosticsService)
    (assignment_id question : pystr) (p : payload) :
  analyze_assignment self assignment_id = (Ok p, self1) ->
  load_all_chat_histories (db self) assignment_id <> Ok [] ->
  exists e,
    analysis_cache self1 !! assignment_id = Some e
    /\ payload_statistics p = Some (ce_statistics e)
    /\ payload_analyses p = Some (ce_student_analyses e)
    /\ query self1 assignment_id question
       = (match script (llm self1) with
          | Text answer :: _ => Ok answer
          | _ => Raise ProviderError
          end,
          with_client self1
            {| script := tail (script (llm self1));
               calls := calls (llm self1) ++ [QueryRequest e question] |}).
Proof.
  intros H Hne.
  destruct (analyze_ok_loaded _ _ _ _ H) as (convs & exam & Eg).
  destruct (conversations_length _ _ _ _ Eg) as (hs & Hhs & Hconv).
  destruct convs as [|first others].
  { destruct hs; [done | discriminate Hconv]. }
  rewrite (analyze_unfold _ _ _ _ _ Eg) in H.
  destruct (run_analysis _ _ _ _ _) as [[[e o]| |] A'] eqn:R; try discriminate.
  injection H as <- <-. exists e.
  cbn [analysis_cache payload_statistics payload_analyses].
  split; [by rewrite lookup_insert_eq|]. split; [done|]. split; [done|].
  unfold query, generate, with_client. cbn [analysis_cache llm db].
  rewrite lookup_insert_eq. by destruct (script A') as [|[a|] r].
Qed.

Lemma query_after_analyze_witness :
  exists e,
    analysis_cache (snd Examples.first_run) !! Examples.hw1 = Some e
    /\ fst (query (snd Examples.first_run) Examples.hw1
                  (py "Which topic was hardest?"))
       = Ok Examples.record1.
Proof.
  assert (H1 : analyze_assignment Examples.rerun_service Examples.hw1
               = (Ok (Examples.payload_of (fst Examples.first_run)),
                  snd Examples.first_run))
    by (vm_compute; reflexivity).
  assert (Hne : load_all_chat_histories (db Examples.rerun_service)
                  Examples.hw1 <> Ok [])
    by (vm_compute; discriminate).
  destruct (query_after_analyze _ _ Examples.hw1
              (py "Which topic was hardest?") _ H1 Hne)
    as (e & He & _ & _ & Hq).
  exists e. split; [exact He|]. rewrite Hq. reflexivity.
Defined.

(** X7. A run for one id never touches what is cached for another id,
    and never touches the store, whether it succeeds or not. *)
Theorem analyze_frame (self : DiagnosticsService) (assignment_id other : pystr) :
  other <> assignment_id ->
  analysis_cache (snd (analyze_assignment self assignment_id)) !! other
  = analysis_cache self !! other
  /\ db (snd (analyze_assignment self assignment_id)) = db self.
Proof.
  intros Hne.
  destruct (get_conversations_for_diagnostics (db self) assignment_id)
    as [[[|first others] exam]| |] eqn:Eg.
  - unfold analyze_assignment. by rewrite Eg.
  - rewrite (analyze_unfold _ _ _ _ _ Eg).
    destruct (run_analysis _ _ _ _ _) as [[[e o]| |] A']; cbn; try done.
    by rewrite lookup_insert_ne.
  - unfold analyze_assignment. by rewrite Eg.
  - unfold analyze_assignment. by rewrite Eg.
Qed.

Lemma analyze_frame_witness :
  py "hw2" <> Examples.hw1
  /\ analysis_cache (snd (analyze_assignment (snd Examples.first_run)
                                             (py "hw2"))) !! Examples.hw1
     = analysis_cache (snd Examples.first_run) !! Examples.hw1.
Proof.
  assert (Hne : Examples.hw1 <> py "hw2") by discriminate.
  split; [discriminate|].
  by destruct (analyze_frame (snd Examples.first_run) (py "hw2") Examples.hw1
                 Hne).
Defined.

End Protocol.

(** ** Edge cases of the canonicalizer and the aggregator *)

Section Edges.

Lemma collect_good_items (tag : category_type) (good : list json) :
  forall acc : list canonical,
    Forall (fun i => succeeded (py_getitem i (py "category"))) good ->
    exists cs,
      length cs = length good
      /\ forall rest,
          for_each
            (fun categories item =>
               let* c := py_getitem item (py "category") in
               Ok (categories ++ [{| category := c; type := tag |}]))
            (good ++ rest) acc
          = for_each
              (fun categories item =>
                 let* c := py_getitem item (py "category") in
                 Ok (categories ++ [{| category := c; type := tag |}]))
              rest (acc ++ cs).
Proof.
  induction good as [|g good IH]; intros acc Hg.
  - exists []. split; [done|]. intros rest. by rewrite app_nil_r.
  - apply Forall_cons in Hg as [[c Hc] Hg].
    destruct (IH (acc ++ [{| category := c; type := tag |}]) Hg)
      as (cs & Hlen & Hcs).
    exists ({| category := c; type := tag |} :: cs). split; [cbn; lia|].
    intros rest. cbn [app for_each]. rewrite Hc. cbn [bind].
    rewrite Hcs. by rewrite <- app_assoc.
Qed.

(** X8. Only a missing key stands for an empty list.  A decoded value
    that is not an object has no [get] (AttributeError); an object
    with neither list gives the empty canonical list; a list that is
    present but null, true, false or a number cannot be iterated
    (TypeError), also when it is the second list and the first is
    fine. *)
Theorem extract_categories_defaults :
  (forall v, (forall d, v <> JObj d) ->
             _extract_categories v = Raise AttributeError)
  /\ (forall d,
        dict_lookup d (py "understood_well") = None ->
        dict_lookup d (py "struggled_with") = None ->
        _extract_categories (JObj d) = Ok [])
  /\ (forall d x,
        dict_lookup d (py "understood_well") = Some x ->
        x = JNull \/ (exists b, x = JBool b) \/ (exists n, x = JNum n) ->
        _extract_categories (JObj d) = Raise TypeError)
  /\ (forall d x,
        dict_lookup d (py "understood_well") = None ->
        dict_lookup d (py "struggled_with") = Some x ->
        x = JNull \/ (exists b, x = JBool b) \/ (exists n, x = JNum n) ->
        _extract_categories (JObj d) = Raise TypeError).
Proof.
  split; [|split; [|split]].
  - intros v Hv. destruct v; try done. by destruct (Hv fields).
  - intros d Hu Hs. unfold _extract_categories, collect_categories, py_get.
    by rewrite Hu, Hs.
  - intros d x Hu Hx. unfold _extract_categories, collect_categories, py_get.
    rewrite Hu. by destruct Hx as [->|[[b ->]|[n ->]]].
  - intros d x Hu Hs Hx. unfold _extract_categories, collect_categories, py_get.
    rewrite Hu, Hs. by destruct Hx as [->|[[b ->]|[n ->]]].
Qed.

(** X9. The first entry without a usable category decides the
    outcome: when the entries of [understood_well] before it all have
    a [category], an entry that is an object lacking the key raises
    KeyError and an entry that is not an object raises TypeError;
    nothing is returned for the entries before it. *)
Theorem extract_categories_bad_entry (d : list (pystr * json))
    (good : list json) (bad : json) (rest : list json) :
  dict_lookup d (py "understood_well") = Some (JArr (good ++ bad :: rest)) ->
  Forall (fun i => succeeded (py_getitem i (py "category"))) good ->
  ~ succeeded (py_getitem bad (py "category")) ->
  ((exists o, bad = JObj o)
   /\ _extract_categories (JObj d) = Raise KeyError)
  \/ ((forall o, bad <> JObj o)
      /\ _extract_categories (JObj d) = Raise TypeError).
Proof.
  intros Hu Hg Hbad.
  destruct (collect_good_items understood good [] Hg) as (cs & _ & Hcs).
  unfold _extract_categories, collect_categories, py_get.
  rewrite Hu. cbn [bind py_iter]. rewrite Hcs. cbn [for_each].
  destruct bad as [| | | | |o]; try (right; split; [done|reflexivity]).
  left. split; [by exists o|]. unfold py_getitem in *.
  destruct (dict_lookup o (py "category")); [|done].
  exfalso. apply Hbad. by eexists.
Qed.

Lemma extract_categories_bad_entry_witness :
  _extract_categories
    (JObj [(py "understood_well",
            JArr [JObj [(py "category", JStr (py "loops"))];
                  JObj [(py "topic", JStr (py "lists"))]])])
  = Raise KeyError.
Proof.
  destruct (extract_categories_bad_entry
              [(py "understood_well",
                JArr [JObj [(py "category", JStr (py "loops"))];
                      JObj [(py "topic", JStr (py "lists"))]])]
              [JObj [(py "category", JStr (py "loops"))]]
              (JObj [(py "topic", JStr (py "lists"))]) [])
    as [[_ H]|[Hno _]].
  - reflexivity.
  - repeat constructor. by eexists.
  - intros [c Hc]. discriminate Hc.
  - exact H.
  - by destruct (Hno [(py "topic", JStr (py "lists"))]).
Defined.

Lemma total_count_incr (c : counts) (k : json) :
  total_count (counts_incr c k) = S (total_count c).
Proof.
  unfold total_count. induction c as [|[k' n] c IH]; [done|].
  cbn [counts_incr]. destruct (key_eqb k' k); [done|].
  change (n + list_sum (List.map snd (counts_incr c k))
          = S (n + list_sum (List.map snd c))).
  rewrite IH. lia.
Qed.

Lemma total_count_tally (cats : list pystr) :
  total_count (tally cats) = length cats.
Proof.
  unfold tally.
  assert (forall acc, total_count (fold_left counts_incr (List.map JStr cats) acc)
                      = total_count acc + length cats) as H.
  { induction cats as [|a cats IH]; intros acc; cbn [List.map fold_left length];
      [lia|].
    rewrite IH, total_count_incr. lia. }
  by rewrite H.
Qed.

(** X10. Counting loses nothing: over records that follow the layout,
    the counts of the struggle dict add up to the number of struggle
    entries of all students, and likewise for the understood dict, so
    a category named twice by a student weighs twice. *)
Theorem counts_add_up (l : list StudentAssessment) :
  exists sc uc,
    count_categories (py "struggled_with") (List.map assessment_json l) = Ok sc
    /\ count_categories (py "understood_well") (List.map assessment_json l)
       = Ok uc
    /\ total_count sc
       = list_sum (List.map (fun a => length (struggled_with a)) l)
    /\ total_count uc
       = list_sum (List.map (fun a => length (understood_well a)) l).
Proof.
  exists (tally (struggle_categories l)), (tally (understood_categories l)).
  split; [apply count_struggles|]. split; [apply count_understood|].
  rewrite !total_count_tally.
  unfold struggle_categories, understood_categories.
  split; induction l as [|a l IH]; cbn; try done;
    rewrite length_app, length_map, IH; done.
Qed.

Lemma with_count_insert (k : nat) (x : json * nat) (l : counts) :
  with_count k (insert_desc x l) = with_count k (x :: l).
Proof.
  induction l as [|y l IH]; [done|]. cbn [insert_desc].
  destruct (Nat.leb_spec (snd y) (snd x)) as [Hle|Hgt]; [done|].
  unfold with_count in *. cbn [List.filter] in *. rewrite IH.
  destruct (Nat.eqb_spec (snd x) k) as [Hx|Hx];
    destruct (Nat.eqb_spec (snd y) k) as [Hy|Hy]; try done. lia.
Qed.

Lemma with_count_sorted (k : nat) (c : counts) :
  with_count k (sorted_desc c) = with_count k c.
Proof.
  induction c as [|x c IH]; [done|]. cbn [sorted_desc].
  rewrite with_count_insert. unfold with_count in *. cbn [List.filter].
  by rewrite IH.
Qed.

(** X11. Ties keep the order of first appearance: among the entries
    with one and the same count, the sorted list has them in the order
    in which the categories were first seen, and the top five list
    shows a front part of that order. *)
Theorem ties_keep_first_seen_order (c : counts) (k : nat) :
  with_count k (sorted_desc c) = with_count k c
  /\ with_count k c = with_count k (top5 c) ++ with_count k (omitted c).
Proof.
  split; [apply with_count_sorted|].
  rewrite <- (with_count_sorted k c). unfold top5, omitted, with_count.
  rewrite <- List.filter_app. by rewrite take_drop.
Qed.

End Edges.

(** ** The diagnostics endpoints *)

Section Endpoints.

Lemma query_keeps (self : DiagnosticsService) (s q : pystr) :
  analysis_cache (snd (query self s q)) = analysis_cache self
  /\ db (snd (query self s q)) = db self.
Proof.
  unfold query. destruct (analysis_cache self !! s) as [e|]; [|done].
  by destruct (generate (QueryRequest e q) (llm self)).
Qed.

Lemma query_with_keeps (self : DiagnosticsService) (i q : json) :
  analysis_cache (snd (query_with self i q)) = analysis_cache self
  /\ db (snd (query_with self i q)) = db self.
Proof.
  destruct i; cbn [query_with]; try done.
  destruct q; try apply query_keeps;
    by destruct (analysis_cache self !! s).
Qed.

(** X12. No request to the query endpoint changes the report cache or
    the store, whatever the body: a missing field, a body that is not
    an object, an id of any type, a cached or an unknown id. *)
Theorem query_endpoint_read_only (self : DiagnosticsService) (data : json) :
  analysis_cache (snd (query_endpoint self data)) = analysis_cache self
  /\ db (snd (query_endpoint self data)) = db self.
Proof.
  unfold query_endpoint.
  destruct (all_in data _) as [[|]| |]; try done.
  destruct (py_getitem data (py "assignment_id")) as [i| |]; try done.
  destruct (py_getitem data (py "question")) as [q| |]; try done.
  pose proof (query_with_keeps self i q) as H.
  by destruct (query_with self i q) as [[a| |] self'].
Qed.

(** X13. A query for an id that was never analysed is answered with
    status 200: the body carries the question and, as its answer, the
    run-analysis-first message.  The model is not called and the
    service is unchanged; by its status a caller cannot tell this
    answer from one the model gave. *)
Theorem uncached_query_answers_200 (self : DiagnosticsService)
    (d : list (pystr * json)) (s : pystr) (q : json) :
  dict_lookup d (py "assignment_id") = Some (JStr s) ->
  dict_lookup d (py "question") = Some q ->
  analysis_cache self !! s = None ->
  query_endpoint self (JObj d)
  = (Some (200, AnswerBody q run_analysis_first), self).
Proof.
  intros Hi Hq Hc. unfold query_endpoint, all_in, py_contains, py_getitem.
  rewrite Hi, Hq. cbn [bind]. unfold query_with, query. rewrite Hc.
  by destruct q.
Qed.

Lemma uncached_query_answers_200_witness :
  query_endpoint Examples.fresh_service
    (MoreExamples.ask (JStr (py "fresh_assignment"))
                      (JStr (py "any question")))
  = (Some (200, AnswerBody (JStr (py "any question")) run_analysis_first),
     Examples.fresh_service).
Proof.
  apply (uncached_query_answers_200 Examples.fresh_service _
           (py "fresh_assignment")); reflexivity.
Defined.

(** X14. The analyze endpoint answers 200, 400 or 500 (or the request
    is outside the model).  Unless it answers 200, the report cache is
    what it was; when it answers 400 the whole service is what it was
    and the body names the missing field. *)
Theorem analyze_endpoint_failures (self : DiagnosticsService) (data : json) :
  let r := fst (analyze_endpoint self data) in
  let self' := snd (analyze_endpoint self data) in
  (r = None \/ status r = Some 200 \/ status r = Some 400
   \/ status r = Some 500)
  /\ (status r <> Some 200 -> analysis_cache self' = analysis_cache self)
  /\ (status r = Some 400 ->
      self' = self /\ r = Some (400, ErrorBody missing_assignment_id)).
Proof.
  cbv zeta. unfold analyze_endpoint.
  destruct (py_contains data (py "assignment_id")) as [[|]| |];
    cbn [fst snd status]; try (split; [auto|split; [done|done]]).
  destruct (py_getitem data (py "assignment_id")) as [i| |];
    cbn [fst snd status]; try (split; [auto|split; [done|done]]).
  destruct i as [| | |s| |]; cbn [analyze_with_id fst snd status];
    try (split; [auto|split; [done|done]]).
  pose proof (analyze_failure_keeps_cache self s) as Hkeep.
  destruct (analyze_assignment self s) as [[p|e|] self'];
    cbn [fst snd status] in *.
  - split; [auto|]. split; [done|done].
  - split; [auto|]. split; [|done]. intros _. apply Hkeep. by intros [p Hp].
  - split; [auto|]. split; [|done]. intros _. apply Hkeep. by intros [p Hp].
Qed.



Lemma existsb_key (l : list json) (k : pystr) :
  existsb (fun x => key_eqb x (JStr k)) l = true <-> JStr k ∈ l.
Proof.
  rewrite existsb_exists. split.
  - intros (x & Hin & Hx). apply key_eqb_str in Hx. subst x.
    by apply list_elem_of_In.
  - intros Hin. exists (JStr k). split; [by apply list_elem_of_In|].
    by apply key_eqb_str.
Qed.

(** X16. The presence check of the analyze endpoint is a membership
    test, so it only does its job on an object.  A list body that has
    the field name among its elements, or a string body that contains
    it, passes the check and then fails with TypeError (500); a list
    or string without it is answered 400; a body that is null, a
    boolean or a number fails the check itself (500); and an object
    whose id is not a string fails with TypeError (500).  In all these
    cases the service is unchanged. *)
Theorem analyze_endpoint_odd_bodies (self : DiagnosticsService) :
  (forall l,
      (JStr (py "assignment_id") ∈ l ->
       analyze_endpoint self (JArr l)
       = (Some (500, ExceptionBody TypeError), self))
      /\ (JStr (py "assignment_id") ∉ l ->
          analyze_endpoint self (JArr l)
          = (Some (400, ErrorBody missing_assignment_id), self)))
  /\ (forall s,
        analyze_endpoint self (JStr s)
        = (Some (if occurs (py "assignment_id") s
                 then (500, ExceptionBody TypeError)
                 else (400, ErrorBody missing_assignment_id)), self))
  /\ (forall data,
        data = JNull \/ (exists b, data = JBool b) \/ (exists n, data = JNum n) ->
        analyze_endpoint self data = (Some (500, ExceptionBody TypeError), self))
  /\ (forall d i,
        dict_lookup d (py "assignment_id") = Some i ->
        (forall s, i <> JStr s) ->
        analyze_endpoint self (JObj d)
        = (Some (500, ExceptionBody TypeError), self)).
Proof.
  split; [|split; [|split]].
  - intros l. unfold analyze_endpoint, py_contains.
    destruct (existsb _ l) eqn:E.
    + apply existsb_key in E. split; [done|]. by intros Hn.
    + split; [|done]. intros Hin. apply existsb_key in Hin.
      by rewrite Hin in E.
  - intros s. unfold analyze_endpoint, py_contains.
    by destruct (occurs _ s).
  - by intros data [->|[[b ->]|[n ->]]].
  - intros d i Hi Hns. unfold analyze_endpoint, py_contains, py_getitem.
    rewrite Hi. destruct i; try done. by destruct (Hns s).
Qed.

End Endpoints.

(** ** The store on disk *)

Section Views.

Lemma metadata_view (l : list (pystr * Store.metadata_entry)) (k : pystr) :
  (list_to_map (List.map (fun kv => (fst kv, Store.entry_fields (snd kv))) l)
     : gmap pystr (gmap pystr pystr)) !! k
  = Store.entry_fields <$> dict_lookup l k.
Proof.
  induction l as [|[k' e] l IH]; cbn; [done|].
  destruct (decide (k' = k)) as [->|Hne].
  - by rewrite lookup_insert_eq.
  - by rewrite lookup_insert_ne.
Qed.

Lemma exam_content_field (e : Store.metadata_entry) :
  Store.entry_fields e !! py "exam_content" = Some (Store.exam_content e).
Proof.
  unfold Store.entry_fields.
  repeat (rewrite lookup_insert_ne by (vm_compute; discriminate)).
  apply lookup_insert_eq.
Qed.

Lemma conversations_of_chat_files (files : list chat_history) :
  conversations_of (List.map ChatFile files)
  = Ok (List.map (fun h => List.map content (conversation h)) files).
Proof.
  induction files as [|h files IH]; cbn; [done|]. by rewrite IH.
Qed.

(** What the pipeline reads from the files of a store, for a plain
    id: one conversation per chat file of the directory, and the exam
    content of the metadata entry. *)
Lemma pipeline_view (disk : Store.Disk) (a : pystr) :
  plain_name a = true ->
  get_conversations_for_diagnostics (Store.database_of disk) a
  = Ok (List.map (fun kv => List.map Store.m_content
                              (Store.cf_conversation (snd kv)))
                 (Store.listing disk a),
        default [] (Store.exam_content
                      <$> dict_lookup (Store.metadata_file disk) a)).
Proof.
  intros Ha.
  unfold get_conversations_for_diagnostics, load_all_chat_histories,
    Store.database_of, Store.listing.
  rewrite Ha. cbn [chat_histories metadata]. rewrite lookup_fmap, metadata_view.
  assert (Hexam : default [] (default ∅ (Store.entry_fields
                     <$> dict_lookup (Store.metadata_file disk) a)
                     !! py "exam_content")
                  = default [] (Store.exam_content
                     <$> dict_lookup (Store.metadata_file disk) a)).
  { destruct (dict_lookup (Store.metadata_file disk) a) as [e|];
      cbn [fmap option_fmap option_map default from_option]; unfold id.
    - by rewrite exam_content_field.
    - by rewrite lookup_empty. }
  destruct (Store.chat_dirs disk !! a) as [dir|];
    cbn [fmap option_fmap option_map bind conversations_of].
  - rewrite conversations_of_chat_files. cbn [bind]. rewrite Hexam.
    do 2 f_equal. rewrite List.map_map. apply List.map_ext. intros [s f].
    cbn. by rewrite List.map_map.
  - by rewrite Hexam.
Qed.

End Views.

Section StoreProperties.
Import Store.

Lemma dict_lookup_set {V} (d : list (pystr * V)) (k : pystr) (v : V) :
  dict_lookup (dict_set d k v) k = Some v.
Proof.
  induction d as [|[k' v'] d IH]; cbn.
  - by rewrite decide_True.
  - destruct (decide (k' = k)) as [->|Hne]; cbn.
    + by rewrite decide_True.
    + by rewrite decide_False.
Qed.

Lemma dict_lookup_set_ne {V} (d : list (pystr * V)) (k j : pystr) (v : V) :
  j <> k -> dict_lookup (dict_set d k v) j = dict_lookup d j.
Proof.
  intros Hne. induction d as [|[k' v'] d IH]; cbn.
  - by rewrite decide_False.
  - destruct (decide (k' = k)) as [->|Hk]; cbn.
    + by rewrite !decide_False.
    + destruct (decide (k' = j)); [done | exact IH].
Qed.

Lemma dict_set_keys {V} (d : list (pystr * V)) (k : pystr) (v : V) :
  List.map fst (dict_set d k v)
  = if decide (k ∈ List.map fst d) then List.map fst d
    else List.map fst d ++ [k].
Proof.
  induction d as [|[k' v'] d IH]; cbn.
  - rewrite decide_False; [done|]. apply not_elem_of_nil.
  - destruct (decide (k' = k)) as [->|Hk]; cbn.
    + rewrite decide_True; [done|]. apply list_elem_of_here.
    + rewrite IH. destruct (decide (k ∈ List.map fst d)) as [Hin|Hnin].
      * rewrite decide_True; [done|]. by apply list_elem_of_further.
      * rewrite decide_False; [done|].
        intros Hin. apply elem_of_cons in Hin as [Hin|Hin]; auto.
Qed.

Lemma save_chat_history_inv (now : pystr) (disk disk' : Disk)
    (student_id assignment_id : pystr) (conversation : list stored_message) :
  save_chat_history now disk student_id assignment_id conversation
  = Returns disk' ->
  plain_name student_id = true /\ plain_name assignment_id = true
  /\ disk' =
     {| chat_dirs :=
          <[assignment_id :=
              <[student_id :=
                  {| cf_student_id := student_id;
                     cf_assignment_id := assignment_id;
                     cf_conversation := conversation;
                     cf_saved_at := now;
                     cf_total_messages := length conversation |}]>
                (default ∅ (chat_dirs disk !! assignment_id))]>
            (chat_dirs disk);
        prompt_files := prompt_files disk;
        metadata_file := metadata_file disk |}.
Proof.
  unfold save_chat_history.
  destruct (plain_name student_id); [|done].
  destruct (plain_name assignment_id); [|done].
  destruct (forallb storable_message conversation); [|done].
  destruct (storable now); [|done]. cbn [andb].
  by intros [= <-].
Qed.

(** X17. Saving a chat and loading it back gives the conversation as
    it was saved, with the ids, the time of saving and the number of
    messages; the other chats, the prompts and the metadata are what
    they were. *)
Theorem chat_history_round_trip (now : pystr) (disk disk' : Disk)
    (student_id assignment_id : pystr) (conversation : list stored_message) :
  save_chat_history now disk student_id assignment_id conversation
  = Returns disk' ->
  load_chat_history disk' student_id assignment_id
  = Returns {| cf_student_id := student_id;
               cf_assignment_id := assignment_id;
               cf_conversation := conversation;
               cf_saved_at := now;
               cf_total_messages := length conversation |}
  /\ (forall s a, (s, a) <> (student_id, assignment_id) ->
                  load_chat_history disk' s a = load_chat_history disk s a)
  /\ prompt_files disk' = prompt_files disk
  /\ metadata_file disk' = metadata_file disk.
Proof.
  intros (Hs & Ha & ->)%save_chat_history_inv.
  split; [|split; [|done]].
  - unfold load_chat_history. rewrite Hs, Ha. cbn [andb chat_dirs].
    by rewrite !lookup_insert_eq.
  - intros s a Hne. unfold load_chat_history. cbn [chat_dirs].
    destruct (plain_name s && plain_name a); [|done].
    destruct (decide (a = assignment_id)) as [->|Hna].
    + rewrite lookup_insert_eq.
      assert (s <> student_id) as Hns by (intros ->; done).
      rewrite lookup_insert_ne by done.
      by destruct (chat_dirs disk !! assignment_id).
    + by rewrite lookup_insert_ne.
Qed.

Lemma chat_history_round_trip_witness :
  load_chat_history StoreExamples.two_students (py "alice") (py "hw1")
  = Returns {| cf_student_id := py "alice";
               cf_assignment_id := py "hw1";
               cf_conversation := [];
               cf_saved_at := StoreExamples.noon;
               cf_total_messages := 0 |}
  /\ load_chat_history StoreExamples.two_students (py "bob") (py "hw1")
     = load_chat_history StoreExamples.one_student (py "bob") (py "hw1").
Proof.
  assert (E : save_chat_history StoreExamples.noon StoreExamples.one_student
                (py "alice") (py "hw1") []
              = Returns StoreExamples.two_students)
    by (vm_compute; reflexivity).
  destruct (chat_history_round_trip _ _ _ _ _ _ E) as (Ha & Hframe & _).
  split; [exact Ha|]. apply Hframe. discriminate.
Defined.

(** X18. The last save wins: saving a student's chat twice leaves the
    store exactly as the second save alone would. *)
Theorem save_chat_history_overwrites (now1 now2 : pystr) (disk disk1 : Disk)
    (student_id assignment_id : pystr) (conv1 conv2 : list stored_message) :
  save_chat_history now1 disk student_id assignment_id conv1 = Returns disk1 ->
  save_chat_history now2 disk1 student_id assignment_id conv2
  = save_chat_history now2 disk student_id assignment_id conv2.
Proof.
  intros (Hs & Ha & ->)%save_chat_history_inv.
  unfold save_chat_history. rewrite Hs, Ha. cbn [andb].
  destruct (forallb storable_message conv2 && storable now2); [|done].
  cbn [chat_dirs prompt_files metadata_file].
  rewrite lookup_insert_eq. cbn [default from_option]. unfold id.
  by rewrite !insert_insert_eq.
Qed.

Lemma save_chat_history_overwrites_witness :
  save_chat_history StoreExamples.noon StoreExamples.one_student
    (py "bob") (py "hw1") []
  = save_chat_history StoreExamples.noon empty_disk (py "bob") (py "hw1") [].
Proof.
  apply (save_chat_history_overwrites StoreExamples.noon StoreExamples.noon
           empty_disk StoreExamples.one_student (py "bob") (py "hw1")
           StoreExamples.exchange []).
  vm_compute. reflexivity.
Defined.

Lemma str_leb_total (a b : pystr) : str_leb a b = false -> str_leb b a = true.
Proof.
  revert b. induction a as [|x a IH]; intros [|y b]; cbn; try done.
  destruct (N.ltb_spec x y), (N.ltb_spec y x); try done; try lia.
  apply IH.
Qed.

Lemma str_leb_trans (a b c : pystr) :
  str_leb a b = true -> str_leb b c = true -> str_leb a c = true.
Proof.
  revert b c. induction a as [|x a IH]; intros [|y b] [|z c]; cbn; try done.
  destruct (N.ltb_spec x y), (N.ltb_spec y x), (N.ltb_spec y z),
    (N.ltb_spec z y), (N.ltb_spec x z), (N.ltb_spec z x);
    try done; try lia.
  apply IH.
Qed.

Lemma str_leb_antisym (a b : pystr) :
  str_leb a b = true -> str_leb b a = true -> a = b.
Proof.
  revert b. induction a as [|x a IH]; intros [|y b]; cbn; try done.
  destruct (N.ltb_spec x y), (N.ltb_spec y x); try done; try lia.
  intros H1 H2. f_equal; [lia | by apply IH].
Qed.

Lemma insert_name_perm (x : pystr) (l : list pystr) :
  insert_name x l ≡ₚ x :: l.
Proof.
  induction l as [|y l IH]; cbn; [done|].
  destruct (str_leb x y); [done|].
  rewrite IH. apply Permutation_swap.
Qed.

Lemma sorted_names_perm (l : list pystr) : sorted_names l ≡ₚ l.
Proof.
  induction l as [|x l IH]; cbn; [done|].
  by rewrite insert_name_perm, IH.
Qed.

Lemma insert_name_sorted (x : pystr) (l : list pystr) :
  StronglySorted (fun a b => str_leb a b = true) l ->
  StronglySorted (fun a b => str_leb a b = true) (insert_name x l).
Proof.
  induction 1 as [|y l Hl IH Hy]; cbn.
  - constructor; [constructor | constructor].
  - destruct (str_leb x y) eqn:E.
    + constructor; [by constructor|].
      constructor; [done|].
      eapply Forall_impl; [exact Hy|].
      intros z Hz. by eapply str_leb_trans.
    + constructor; [done|].
      rewrite insert_name_perm. constructor; [|done].
      by apply str_leb_total.
Qed.

Lemma sorted_names_sorted (l : list pystr) :
  StronglySorted (fun a b => str_leb a b = true) (sorted_names l).
Proof.
  induction l as [|x l IH]; cbn; [constructor|].
  by apply insert_name_sorted.
Qed.

(** X19. The list of students of an assignment is in ascending order
    of code points and names no student twice; when the names in it
    are plain file names, as those of saved chats are, it holds
    exactly the students whose chat can be loaded. *)
Theorem list_students_for_assignment_spec (disk : Disk)
    (assignment_id : pystr) (students : list pystr) :
  list_students_for_assignment disk assignment_id = Returns students ->
  Forall (fun s => plain_name s = true) students ->
  StronglySorted (fun a b => str_leb a b = true) students
  /\ NoDup students
  /\ forall s,
       s ∈ students <->
       exists file, load_chat_history disk s assignment_id = Returns file.
Proof.
  unfold list_students_for_assignment.
  destruct (plain_name assignment_id) eqn:Ha; [|done].
  intros [= <-] Hplain. split; [apply sorted_names_sorted|]. split.
  - rewrite sorted_names_perm. unfold listing.
    destruct (chat_dirs disk !! assignment_id) as [dir|]; [|constructor].
    apply NoDup_fst_map_to_list.
  - intros s. split.
    + intros Hin. rewrite Forall_forall in Hplain.
      pose proof (Hplain s Hin) as Hs. revert Hin.
      rewrite sorted_names_perm.
      unfold load_chat_history, listing. rewrite Hs, Ha. cbn [andb].
      destruct (chat_dirs disk !! assignment_id) as [dir|];
        [|by intros ?%elem_of_nil].
      rewrite list_elem_of_fmap.
      intros [[s' file] [-> Hin%elem_of_map_to_list]]. cbn.
      rewrite Hin. by eexists.
    + rewrite sorted_names_perm. unfold load_chat_history, listing.
      intros [file Hfile].
      destruct (plain_name s && plain_name assignment_id); [|done].
      destruct (chat_dirs disk !! assignment_id) as [dir|]; [|done].
      destruct (dir !! s) as [f|] eqn:E; [|done].
      apply list_elem_of_fmap. exists (s, f). split; [done|].
      by apply elem_of_map_to_list.
Qed.

Lemma list_students_for_assignment_spec_witness :
  StronglySorted (fun a b => str_leb a b = true) [py "alice"; py "bob"]
  /\ NoDup [py "alice"; py "bob"]
  /\ forall s,
       s ∈ [py "alice"; py "bob"] <->
       exists file, load_chat_history StoreExamples.two_students s (py "hw1")
                    = Returns file.
Proof.
  apply (list_students_for_assignment_spec StoreExamples.two_students (py "hw1")).
  - vm_compute. reflexivity.
  - repeat constructor.
Defined.

Lemma universal_newlines_no_cr (s : pystr) : 13%N ∉ universal_newlines s.
Proof.
  induction s as [s IH] using (induction_ltof1 _ (@length N)).
  unfold ltof in IH. destruct s as [|c r]; cbn; [apply not_elem_of_nil|].
  destruct (N.eqb_spec c 13) as [->|Hc].
  - apply not_elem_of_cons. split; [done|].
    destruct r as [|d r']; [apply not_elem_of_nil|].
    destruct (d =? 10)%N; apply IH; cbn; lia.
  - apply not_elem_of_cons. split; [congruence|]. apply IH. cbn; lia.
Qed.

Lemma universal_newlines_id (s : pystr) :
  13%N ∉ s -> universal_newlines s = s.
Proof.
  induction s as [|c r IH]; cbn; [done|].
  intros [Hc Hr]%not_elem_of_cons.
  destruct (N.eqb_spec c 13) as [->|_]; [done|]. by rewrite IH.
Qed.

Lemma save_prompt_inv (now : pystr) (disk disk' : Disk)
    (assignment_id system_prompt : pystr)
    (metadata : option (list (pystr * json))) :
  save_prompt now disk assignment_id system_prompt metadata = Returns disk' ->
  plain_name assignment_id = true
  /\ exists entry,
       created_at entry = now
       /\ metadata_field metadata (py "course") = Some (course entry)
       /\ metadata_field metadata (py "professor") = Some (professor entry)
       /\ metadata_field metadata (py "description") = Some (description entry)
       /\ metadata_field metadata (py "exam_content") = Some (exam_content entry)
       /\ disk' =
          {| chat_dirs := chat_dirs disk;
             prompt_files :=
               <[assignment_id := system_prompt]> (prompt_files disk);
             metadata_file :=
               dict_set (metadata_file disk) assignment_id entry |}.
Proof.
  unfold save_prompt.
  destruct (plain_name assignment_id); [|done].
  destruct (storable system_prompt); [|done].
  destruct (storable now); [|done]. cbn [andb].
  destruct (metadata_field metadata (py "course")) as [c|]; [|done].
  destruct (metadata_field metadata (py "professor")) as [p|]; [|done].
  destruct (metadata_field metadata (py "description")) as [d|]; [|done].
  destruct (metadata_field metadata (py "exam_content")) as [x|]; [|done].
  intros [= <-]. split; [done|]. by eexists (Build_metadata_entry _ _ _ _ _).
Qed.

(** X20. A saved prompt is loaded back with its line ends normalised:
    every carriage return, alone or before a line feed, reads as one
    line feed, so that the text comes back unchanged exactly when it
    has no carriage return.  The metadata loaded with it carries the
    time of saving and the four fields, empty where none was given. *)
Theorem prompt_round_trip (now : pystr) (disk disk' : Disk)
    (assignment_id system_prompt : pystr)
    (metadata : option (list (pystr * json))) :
  save_prompt now disk assignment_id system_prompt metadata = Returns disk' ->
  exists text entry,
    load_prompt disk' assignment_id
    = Returns {| pd_assignment_id := assignment_id;
                 pd_system_prompt := text;
                 pd_metadata := Some entry |}
    /\ text = universal_newlines system_prompt
    /\ (text = system_prompt <-> 13%N ∉ system_prompt)
    /\ created_at entry = now
    /\ metadata_field metadata (py "course") = Some (course entry)
    /\ metadata_field metadata (py "professor") = Some (professor entry)
    /\ metadata_field metadata (py "description") = Some (description entry)
    /\ metadata_field metadata (py "exam_content") = Some (exam_content entry).
Proof.
  intros (Ha & entry & Hnow & Hc & Hp & Hd & Hx & ->)%save_prompt_inv.
  exists (universal_newlines system_prompt), entry.
  split; [|split; [done|split; [|done]]].
  - unfold load_prompt. rewrite Ha. cbn [prompt_files metadata_file].
    by rewrite lookup_insert_eq, dict_lookup_set.
  - split.
    + intros <-. apply universal_newlines_no_cr.
    + apply universal_newlines_id.
Qed.

Lemma prompt_round_trip_witness :
  exists text entry,
    load_prompt
      (StoreExamples.saved
         (save_prompt StoreExamples.noon empty_disk (py "hw1")
            StoreExamples.windows_prompt (Some StoreExamples.course_metadata)))
      (py "hw1")
    = Returns {| pd_assignment_id := py "hw1";
                 pd_system_prompt := text;
                 pd_metadata := Some entry |}
    /\ text = py "Be brief." ++ [10%N] ++ py "Give hints only."
    /\ course entry = py "CS 101"
    /\ professor entry = [].
Proof.
  destruct (prompt_round_trip StoreExamples.noon empty_disk
              (StoreExamples.saved
                 (save_prompt StoreExamples.noon empty_disk (py "hw1")
                    StoreExamples.windows_prompt
                    (Some StoreExamples.course_metadata)))
              (py "hw1") StoreExamples.windows_prompt
              (Some StoreExamples.course_metadata))
    as (text & entry & Hload & -> & _ & _ & Hc & Hp & _).
  { vm_compute. reflexivity. }
  exists (universal_newlines StoreExamples.windows_prompt), entry.
  split; [exact Hload|]. split; [vm_compute; reflexivity|].
  split.
  - injection Hc as Hc. symmetry. exact Hc.
  - injection Hp as Hp. symmetry. exact Hp.
Defined.

(** X21. Saving a prompt keeps one metadata entry per assignment:
    an assignment already listed keeps its place in the list, a new
    one goes to the end, and the entries and prompts of the other
    assignments are what they were. *)
Theorem save_prompt_listing (now : pystr) (disk disk' : Disk)
    (assignment_id system_prompt : pystr)
    (metadata : option (list (pystr * json))) :
  save_prompt now disk assignment_id system_prompt metadata = Returns disk' ->
  List.map fst (list_assignments disk')
  = (if decide (assignment_id ∈ List.map fst (list_assignments disk))
     then List.map fst (list_assignments disk)
     else List.map fst (list_assignments disk) ++ [assignment_id])
  /\ (forall other, other <> assignment_id ->
        dict_lookup (list_assignments disk') other
        = dict_lookup (list_assignments disk) other
        /\ load_prompt disk' other = load_prompt disk other)
  /\ chat_dirs disk' = chat_dirs disk.
Proof.
  intros (Ha & entry & _ & _ & _ & _ & _ & ->)%save_prompt_inv.
  unfold list_assignments. cbn [metadata_file chat_dirs].
  split; [apply dict_set_keys|]. split; [|done].
  intros other Hne. rewrite dict_lookup_set_ne by done. split; [done|].
  unfold load_prompt. cbn [prompt_files metadata_file].
  rewrite lookup_insert_ne by done.
  by rewrite dict_lookup_set_ne.
Qed.

Lemma save_prompt_listing_witness :
  List.map fst
    (list_assignments
       (StoreExamples.saved
          (save_prompt StoreExamples.noon empty_disk (py "hw1")
             StoreExamples.windows_prompt None)))
  = [py "hw1"].
Proof.
  refine (proj1 (save_prompt_listing StoreExamples.noon empty_disk _
                   (py "hw1") StoreExamples.windows_prompt None _)).
  vm_compute. reflexivity.
Defined.

(** X22. The exam content given when a prompt is saved is the exam
    content the diagnostics pipeline reads for that assignment, and
    the empty text when none was given; the conversations it reads
    for an assignment, of any plain id, are not affected. *)
Theorem saved_exam_content_is_read (now : pystr) (disk disk' : Disk)
    (assignment_id system_prompt : pystr)
    (metadata : option (list (pystr * json))) :
  save_prompt now disk assignment_id system_prompt metadata = Returns disk' ->
  (exists conversations exam,
      get_conversations_for_diagnostics (database_of disk') assignment_id
      = Ok (conversations, exam)
      /\ metadata_field metadata (py "exam_content") = Some exam)
  /\ forall a, plain_name a = true ->
       exists conversations exam exam',
         get_conversations_for_diagnostics (database_of disk') a
         = Ok (conversations, exam')
         /\ get_conversations_for_diagnostics (database_of disk) a
            = Ok (conversations, exam).
Proof.
  intros (Ha & entry & _ & _ & _ & _ & Hx & ->)%save_prompt_inv.
  split.
  - do 2 eexists. split; [by apply pipeline_view|].
    cbn [metadata_file]. by rewrite Hx, dict_lookup_set.
  - intros a Hplain. rewrite !pipeline_view by done.
    unfold listing. cbn [chat_dirs]. by do 3 eexists.
Qed.

Lemma saved_exam_content_is_read_witness :
  exists conversations exam,
    get_conversations_for_diagnostics
      (database_of
         (StoreExamples.saved
            (save_prompt StoreExamples.noon empty_disk (py "hw1")
               StoreExamples.windows_prompt
               (Some StoreExamples.course_metadata))))
      (py "hw1")
    = Ok (conversations, exam)
    /\ Some (py "1. Write a loop.") = Some exam.
Proof.
  refine (proj1 (saved_exam_content_is_read StoreExamples.noon empty_disk _
                   (py "hw1") StoreExamples.windows_prompt
                   (Some StoreExamples.course_metadata) _)).
  vm_compute. reflexivity.
Defined.

(** X23. After a chat is saved the diagnostics pipeline reads one
    conversation per student of the assignment, the saved messages'
    contents among them: one conversation more than before when the
    student had no chat yet, as many as before when the chat replaces
    an earlier one. *)
Theorem saved_chat_is_read (now : pystr) (disk disk' : Disk)
    (student_id assignment_id : pystr) (conversation : list stored_message) :
  save_chat_history now disk student_id assignment_id conversation
  = Returns disk' ->
  exists before after exam,
    get_conversations_for_diagnostics (database_of disk) assignment_id
    = Ok (before, exam)
    /\ get_conversations_for_diagnostics (database_of disk') assignment_id
       = Ok (after, exam)
    /\ List.map m_content conversation ∈ after
    /\ (exists students,
          list_students_for_assignment disk' assignment_id = Returns students
          /\ length students = length after)
    /\ length after
       = match load_chat_history disk student_id assignment_id with
         | Returns _ => length before
         | _ => S (length before)
         end.
Proof.
  intros (Hs & Ha & ->)%save_chat_history_inv.
  rewrite !pipeline_view by done. cbn [metadata_file].
  do 3 eexists. split; [reflexivity|]. split; [reflexivity|].
  unfold listing at 1 2 3. cbn [chat_dirs].
  rewrite lookup_insert_eq. split; [|split].
  - apply list_elem_of_fmap. eexists (student_id, _). split; [|].
    2: apply elem_of_map_to_list, lookup_insert_eq.
    done.
  - unfold list_students_for_assignment, listing. rewrite Ha. cbn [chat_dirs].
    rewrite lookup_insert_eq. eexists. split; [done|].
    by rewrite sorted_names_perm, !length_map.
  - rewrite length_map, length_map_to_list, map_size_insert.
    unfold load_chat_history, listing. rewrite Hs, Ha. cbn [andb].
    destruct (chat_dirs disk !! assignment_id) as [dir|];
      cbn [default from_option]; unfold id.
    + rewrite length_map, length_map_to_list.
      by destruct (dir !! student_id).
    + by rewrite lookup_empty, map_size_empty.
Qed.

Lemma saved_chat_is_read_witness :
  exists before after exam,
    get_conversations_for_diagnostics (database_of empty_disk) (py "hw1")
    = Ok (before, exam)
    /\ get_conversations_for_diagnostics
         (database_of StoreExamples.one_student) (py "hw1")
       = Ok (after, exam)
    /\ [py "What is a loop?"; py "A loop repeats a block."] ∈ after
    /\ length after = S (length before).
Proof.
  destruct (saved_chat_is_read StoreExamples.noon empty_disk
              StoreExamples.one_student (py "bob") (py "hw1")
              StoreExamples.exchange)
    as (before & after & exam & Hb & Hafter & Hin & _ & Hlen).
  { vm_compute. reflexivity. }
  exists before, after, exam.
  split; [exact Hb|]. split; [exact Hafter|]. split; [exact Hin | exact Hlen].
Defined.

End StoreProperties.

(** ** The student chat service *)

Section ChatProperties.
Import Store.

Lemma session_after_open (self : Chat.StudentChatService)
    (student_id assignment_id : pystr) (conversation : list stored_message)
    (disk : Disk) (client : Chat.Client) :
  Chat.session
    {| Chat.db := disk; Chat.llm := client;
       Chat.active_sessions :=
         <[(student_id, assignment_id) := conversation]>
           (Chat.active_sessions self) |}
    student_id assignment_id
  = Returns conversation.
Proof.
  unfold Chat.session. cbn [Chat.active_sessions].
  by rewrite lookup_insert_eq.
Qed.

(** What a call of [send_message] that gets as far as the session
    does, by its outcome. *)
Lemma send_message_cases (timestamp saved_at : pystr)
    (self : Chat.StudentChatService) (student_id assignment_id message : pystr)
    (old : list stored_message) :
  Chat.session self student_id assignment_id = Returns old ->
  let sessions :=
    <[(student_id, assignment_id) := old]> (Chat.active_sessions self) in
  let result :=
    Chat.send_message timestamp saved_at self student_id assignment_id message in
  (fst result = Beyond)
  \/ (exists e, fst result = Raises e
        /\ Chat.db (snd result) = Chat.db self
        /\ Chat.active_sessions (snd result) = sessions)
  \/ (exists response disk prompt_data context,
        result
        = (Returns (response, assignment_id ++ py "_" ++ student_id),
           {| Chat.db := disk;
              Chat.llm :=
                {| Chat.replies := tail (Chat.replies (Chat.llm self));
                   Chat.sent :=
                     Chat.sent (Chat.llm self)
                     ++ [{| Chat.c_prompt := context;
                            Chat.c_system := pd_system_prompt prompt_data |}] |};
              Chat.active_sessions :=
                <[(student_id, assignment_id) :=
                    old ++ Chat.exchange timestamp message response]>
                  sessions |})
        /\ Chat.replies (Chat.llm self)
           = Text response :: tail (Chat.replies (Chat.llm self))
        /\ load_prompt (Chat.db self) assignment_id = Returns prompt_data
        /\ Chat._build_context old message = Some context
        /\ save_chat_history saved_at (Chat.db self) student_id assignment_id
             (old ++ Chat.exchange timestamp message response)
           = Returns disk).
Proof.
  intros Hold. cbv zeta. unfold Chat.send_message. rewrite Hold.
  destruct (load_prompt (Chat.db self) assignment_id) as [pd|e|] eqn:Hp;
    [| right; left; by exists e | by left].
  destruct (Chat._build_context old message) as [context|] eqn:Hc;
    [| by left].
  unfold Chat.generate.
  destruct (Chat.replies (Chat.llm self)) as [|[response|] rest] eqn:Hr;
    [right; left; by eexists | | right; left; by eexists].
  destruct (save_chat_history saved_at (Chat.db self) student_id assignment_id
              (old ++ Chat.exchange timestamp message response))
    as [disk|e|] eqn:Hsave; [| right; left; by exists e | by left].
  right; right. by exists response, disk, pd, context.
Qed.

(** X24. A message that is answered is recorded with its answer: the
    chat file then holds the session's conversation so far followed
    by the student's message and the assistant's answer, both with
    the time of the call, and counts two messages more; the session in
    memory holds the same; the answer is the next reply of the model,
    and the session id is the assignment id, an underscore and the
    student id. *)
Theorem send_message_records_exchange (timestamp saved_at : pystr)
    (self self' : Chat.StudentChatService)
    (student_id assignment_id message response session_id : pystr) :
  Chat.send_message timestamp saved_at self student_id assignment_id message
  = (Returns (response, session_id), self') ->
  exists old,
    Chat.session self student_id assignment_id = Returns old
    /\ Chat.get_history self' student_id assignment_id
       = Returns {| cf_student_id := student_id;
                    cf_assignment_id := assignment_id;
                    cf_conversation :=
                      old ++ Chat.exchange timestamp message response;
                    cf_saved_at := saved_at;
                    cf_total_messages := length old + 2 |}
    /\ Chat.session self' student_id assignment_id
       = Returns (old ++ Chat.exchange timestamp message response)
    /\ Chat.replies (Chat.llm self)
       = Text response :: Chat.replies (Chat.llm self')
    /\ session_id = assignment_id ++ py "_" ++ student_id.
Proof.
  intros Hsend.
  destruct (Chat.session self student_id assignment_id) as [old|e|] eqn:Hold.
  2,3: unfold Chat.send_message in Hsend; rewrite Hold in Hsend; done.
  pose proof (send_message_cases timestamp saved_at self student_id
                assignment_id message old Hold) as Hcases.
  cbv zeta in Hcases. rewrite Hsend in Hcases.
  destruct Hcases as [Hb | [(e & He & _) | (r & disk & pd & context & Heq
    & Hr & Hp & Hc & Hsave)]]; [done | done |].
  injection Heq as -> -> ->. exists old. split; [done|].
  apply save_chat_history_inv in Hsave as (Hs & Ha & ->).
  split; [|split; [|split; [|done]]].
  - unfold Chat.get_history, load_chat_history. cbn [Chat.db chat_dirs].
    rewrite Hs, Ha. cbn [andb]. rewrite !lookup_insert_eq.
    do 2 f_equal. rewrite length_app. reflexivity.
  - unfold Chat.session. cbn [Chat.active_sessions].
    by rewrite lookup_insert_eq.
  - exact Hr.
Qed.

Lemma send_message_records_exchange_witness :
  exists old,
    Chat.session ChatExamples.fresh_chat (py "bob") (py "hw1") = Returns old
    /\ Chat.get_history ChatExamples.after_first (py "bob") (py "hw1")
       = Returns {| cf_student_id := py "bob";
                    cf_assignment_id := py "hw1";
                    cf_conversation :=
                      old ++ Chat.exchange (py "2024-11-15T14:30:22")
                               (py "What is a loop?")
                               (py "A loop repeats a block.");
                    cf_saved_at := py "2024-11-15T14:30:23";
                    cf_total_messages := length old + 2 |}
    /\ Chat.session ChatExamples.after_first (py "bob") (py "hw1")
       = Returns (old ++ Chat.exchange (py "2024-11-15T14:30:22")
                           (py "What is a loop?")
                           (py "A loop repeats a block."))
    /\ Chat.replies (Chat.llm ChatExamples.fresh_chat)
       = Text (py "A loop repeats a block.")
           :: Chat.replies (Chat.llm ChatExamples.after_first)
    /\ py "hw1_bob" = py "hw1" ++ py "_" ++ py "bob".
Proof.
  apply (send_message_records_exchange (py "2024-11-15T14:30:22")
           (py "2024-11-15T14:30:23") ChatExamples.fresh_chat
           ChatExamples.after_first (py "bob") (py "hw1")
           (py "What is a loop?") (py "A loop repeats a block.")
           (py "hw1_bob")).
  vm_compute. reflexivity.
Defined.

(** X25. A message that fails, because the assignment has no prompt
    or because the model does not answer, is recorded nowhere: the
    files are what they were and the session's conversation is the
    one before the call.  Without a prompt the model is not called. *)
Theorem failed_message_is_not_recorded (timestamp saved_at : pystr)
    (self self' : Chat.StudentChatService)
    (student_id assignment_id message : pystr) (e : exception) :
  Chat.send_message timestamp saved_at self student_id assignment_id message
  = (Raises e, self') ->
  Chat.db self' = Chat.db self
  /\ Chat.session self' student_id assignment_id
     = Chat.session self student_id assignment_id
  /\ match e with
     | FileNotFoundError =>
         load_prompt (Chat.db self) assignment_id = Raises FileNotFoundError
         /\ Chat.llm self' = Chat.llm self
     | Pipeline e' =>
         e' = ProviderError
         /\ length (Chat.sent (Chat.llm self'))
            = S (length (Chat.sent (Chat.llm self)))
     end.
Proof.
  unfold Chat.send_message.
  destruct (Chat.session self student_id assignment_id) as [old|e0|] eqn:Hold;
    [| | done].
  2: { intros [= <- <-]. unfold Chat.session in Hold.
       destruct (Chat.active_sessions self !! (student_id, assignment_id));
         [done|].
       unfold load_chat_history in Hold.
       destruct (plain_name student_id && plain_name assignment_id); [|done].
       destruct (chat_dirs (Chat.db self) !! assignment_id) as [dir|];
         [|done].
       by destruct (dir !! student_id). }
  destruct (load_prompt (Chat.db self) assignment_id) as [pd|e1|] eqn:Hp;
    [| | done].
  2: { intros [= <- <-]. cbn [Chat.db Chat.llm].
       split; [done|]. split; [apply session_after_open|].
       unfold load_prompt in Hp.
       destruct (plain_name assignment_id); [|done].
       destruct (prompt_files (Chat.db self) !! assignment_id); [done|].
       by injection Hp as <-. }
  destruct (Chat._build_context old message) as [context|]; [|done].
  unfold Chat.generate.
  destruct (Chat.replies (Chat.llm self)) as [|[response|] rest].
  - intros [= <- <-]. cbn [Chat.db Chat.llm Chat.sent].
    split; [done|]. split; [apply session_after_open|].
    split; [done|]. rewrite length_app. cbn. lia.
  - destruct (save_chat_history saved_at (Chat.db self) student_id
                assignment_id (old ++ Chat.exchange timestamp message response))
      as [disk|e2|] eqn:Hsave; [done| |done].
    unfold save_chat_history in Hsave.
    by destruct (plain_name student_id && plain_name assignment_id
                 && forallb storable_message
                      (old ++ Chat.exchange timestamp message response)
                 && storable saved_at).
  - intros [= <- <-]. cbn [Chat.db Chat.llm Chat.sent].
    split; [done|]. split; [apply session_after_open|].
    split; [done|]. rewrite length_app. cbn. lia.
Qed.

Lemma failed_message_is_not_recorded_witness :
  Chat.db
    (snd (Chat.send_message (py "2024-11-15T14:30:22")
            (py "2024-11-15T14:30:23") ChatExamples.silent_chat
            (py "bob") (py "hw1") (py "What is a loop?")))
  = ChatExamples.with_prompt.
Proof.
  refine (proj1 (failed_message_is_not_recorded
                   (py "2024-11-15T14:30:22") (py "2024-11-15T14:30:23")
                   ChatExamples.silent_chat _ (py "bob") (py "hw1")
                   (py "What is a loop?") (Pipeline ProviderError) _)).
  vm_compute. reflexivity.
Defined.

Lemma exchanges_app (conversation more : list stored_message) :
  Chat.exchanges conversation = true -> Chat.exchanges more = true ->
  Chat.exchanges (conversation ++ more) = true.
Proof.
  revert more.
  induction conversation as [conversation IH]
    using (induction_ltof1 _ (@length stored_message)).
  unfold ltof in IH. intros more.
  destruct conversation as [|a [|b rest]]; cbn; [done | done |].
  intros [Hab Hrest]%andb_prop Hmore. rewrite Hab. cbn [andb].
  apply IH; [cbn; lia | done | done].
Qed.

Lemma exchange_exchanges (timestamp message response : pystr) :
  Chat.exchanges (Chat.exchange timestamp message response) = true.
Proof. reflexivity. Qed.

Lemma session_alternating (self : Chat.StudentChatService)
    (student_id assignment_id : pystr) (old : list stored_message) :
  Chat.alternating self ->
  Chat.session self student_id assignment_id = Returns old ->
  Chat.exchanges old = true.
Proof.
  intros [Hfiles Hsessions]. unfold Chat.session.
  destruct (Chat.active_sessions self !! (student_id, assignment_id))
    as [conversation|] eqn:Hkey.
  - intros [= <-]. by eapply Hsessions.
  - unfold load_chat_history.
    destruct (plain_name student_id && plain_name assignment_id); [|done].
    destruct (chat_dirs (Chat.db self) !! assignment_id) as [dir|] eqn:Hdir;
      [|by intros [= <-]].
    destruct (dir !! student_id) as [file|] eqn:Hfile; [|by intros [= <-]].
    intros [= <-]. by eapply Hfiles.
Qed.

Lemma alternating_open (self : Chat.StudentChatService)
    (key : pystr * pystr) (conversation : list stored_message)
    (client : Chat.Client) :
  Chat.alternating self -> Chat.exchanges conversation = true ->
  Chat.alternating
    {| Chat.db := Chat.db self; Chat.llm := client;
       Chat.active_sessions :=
         <[key := conversation]> (Chat.active_sessions self) |}.
Proof.
  intros [Hfiles Hsessions] Hconv. split; cbn [Chat.db Chat.active_sessions].
  - exact Hfiles.
  - intros key' conv'. destruct (decide (key' = key)) as [->|Hne].
    + rewrite lookup_insert_eq. by intros [= <-].
    + rewrite lookup_insert_ne by done. apply Hsessions.
Qed.

Lemma send_message_alternating (timestamp saved_at : pystr)
    (self : Chat.StudentChatService)
    (student_id assignment_id message : pystr) :
  Chat.alternating self ->
  Chat.alternating
    (snd (Chat.send_message timestamp saved_at self student_id assignment_id
            message)).
Proof.
  intros Halt.
  destruct (Chat.session self student_id assignment_id) as [old|e|] eqn:Hold.
  2,3: unfold Chat.send_message; by rewrite Hold.
  pose proof (session_alternating _ _ _ _ Halt Hold) as Hex.
  unfold Chat.send_message. rewrite Hold.
  destruct (load_prompt (Chat.db self) assignment_id) as [pd|e|];
    cbn [snd]; [| by apply alternating_open ..].
  destruct (Chat._build_context old message) as [context|];
    cbn [snd]; [| by apply alternating_open].
  unfold Chat.generate.
  destruct (Chat.replies (Chat.llm self)) as [|[response|] rest];
    cbn [snd]; [by apply alternating_open | | by apply alternating_open].
  destruct (save_chat_history saved_at (Chat.db self) student_id assignment_id
              (old ++ Chat.exchange timestamp message response))
    as [disk|e|] eqn:Hsave; cbn [snd]; [| by apply alternating_open ..].
  apply save_chat_history_inv in Hsave as (Hs & Ha & ->).
  assert (Hnew : Chat.exchanges
                   (old ++ Chat.exchange timestamp message response) = true)
    by (apply exchanges_app; [done | apply exchange_exchanges]).
  destruct Halt as [Hfiles Hsessions].
  split; cbn [Chat.db Chat.active_sessions chat_dirs].
  - intros a dir s file.
    destruct (decide (a = assignment_id)) as [->|Hna].
    + rewrite lookup_insert_eq. intros [= <-].
      destruct (decide (s = student_id)) as [->|Hns].
      * rewrite lookup_insert_eq. by intros [= <-].
      * rewrite lookup_insert_ne by done.
        destruct (chat_dirs (Chat.db self) !! assignment_id) as [dir0|] eqn:Hdir;
          cbn [default from_option]; unfold id.
        -- apply (Hfiles assignment_id dir0 s file Hdir).
        -- by rewrite lookup_empty.
    + rewrite lookup_insert_ne by done. apply Hfiles.
  - intros key conv. destruct (decide (key = (student_id, assignment_id)))
      as [->|Hne].
    + rewrite lookup_insert_eq. by intros [= <-].
    + rewrite !lookup_insert_ne by done. apply Hsessions.
Qed.

Lemma serve_alternating (self : Chat.StudentChatService)
    (posts : list Chat.post) :
  Chat.alternating self -> Chat.alternating (Chat.serve self posts).
Proof.
  revert self. induction posts as [|p posts IH]; intros self Halt; cbn;
    [done|].
  by apply IH, send_message_alternating.
Qed.

Lemma new_service_alternating (disk : Disk) (client : Chat.Client) :
  chat_dirs disk = ∅ ->
  Chat.alternating {| Chat.db := disk; Chat.llm := client;
                      Chat.active_sessions := ∅ |}.
Proof.
  intros Hempty. split; cbn [Chat.db Chat.active_sessions].
  - intros a dir s f. by rewrite Hempty, lookup_empty.
  - intros key conv. by rewrite lookup_empty.
Qed.

Lemma capitalize_student : Chat.capitalize (py "student") = Some (py "Student").
Proof. reflexivity. Qed.

Lemma capitalize_assistant :
  Chat.capitalize (py "assistant") = Some (py "Assistant").
Proof. reflexivity. Qed.

Lemma previous_from (i : nat) (conversation : list stored_message) :
  Nat.even i = true ->
  Chat.exchanges conversation = true ->
  Chat.previous conversation
  = Some (format_from i (List.map m_content conversation)).
Proof.
  revert i.
  induction conversation as [conversation IH]
    using (induction_ltof1 _ (@length stored_message)).
  unfold ltof in IH. intros i Hi.
  destruct conversation as [|a [|b rest]]; [done | done |].
  cbn [Chat.exchanges].
  destruct (decide (m_role a = py "student")) as [Ha|]; [|done].
  destruct (decide (m_role b = py "assistant")) as [Hb|]; [|done].
  cbn [andb]. intros Hrest.
  assert (Hodd : Nat.even (S i) = false)
    by (rewrite Nat.even_succ, <- Nat.negb_even, Hi; done).
  cbn [Chat.previous List.map format_from].
  rewrite Ha, Hb, capitalize_student, capitalize_assistant, Hi, Hodd.
  rewrite (IH rest) with (i := S (S i)); [done | cbn; lia | | done].
  by rewrite Nat.even_succ_succ.
Qed.

Lemma previous_is_transcript (conversation : list stored_message) :
  Chat.exchanges conversation = true ->
  Chat.previous conversation
  = Some (_format_conversation (List.map m_content conversation)).
Proof. by apply previous_from. Qed.

Lemma exchanges_roles (conversation : list stored_message) (i : nat)
    (msg : stored_message) :
  Chat.exchanges conversation = true ->
  conversation !! i = Some msg ->
  m_role msg = if Nat.even i then py "student" else py "assistant".
Proof.
  revert i.
  induction conversation as [conversation IH]
    using (induction_ltof1 _ (@length stored_message)).
  unfold ltof in IH. intros i.
  destruct conversation as [|a [|b rest]]; [done | done |].
  cbn [Chat.exchanges].
  destruct (decide (m_role a = py "student")) as [Ha|]; [|done].
  destruct (decide (m_role b = py "assistant")) as [Hb|]; [|done].
  cbn [andb]. intros Hrest.
  destruct i as [|[|i]]; cbn.
  - by intros [= <-].
  - by intros [= <-].
  - intros Hi. apply (IH rest); [cbn; lia | done | done].
Qed.

(** X26. Whatever requests a chat service that starts without chats
    and without sessions has served, every chat on disk alternates:
    the messages at even positions have the role student, those at
    odd positions the role assistant, and the transcript the
    diagnostics build from the contents labels every message with the
    role stored in the file. *)
Theorem served_chats_alternate (disk : Disk) (client : Chat.Client)
    (posts : list Chat.post) (student_id assignment_id : pystr)
    (file : chat_file) :
  chat_dirs disk = ∅ ->
  Chat.get_history
    (Chat.serve {| Chat.db := disk; Chat.llm := client;
                   Chat.active_sessions := ∅ |} posts)
    student_id assignment_id
  = Returns file ->
  (forall i msg, cf_conversation file !! i = Some msg ->
     m_role msg = if Nat.even i then py "student" else py "assistant")
  /\ Chat.previous (cf_conversation file)
     = Some (_format_conversation
               (List.map m_content (cf_conversation file))).
Proof.
  intros Hempty Hfile.
  assert (Halt : Chat.alternating
                   (Chat.serve {| Chat.db := disk; Chat.llm := client;
                                  Chat.active_sessions := ∅ |} posts)).
  { by apply serve_alternating, new_service_alternating. }
  assert (Hex : Chat.exchanges (cf_conversation file) = true).
  { destruct Halt as [Hfiles _]. revert Hfile.
    unfold Chat.get_history, load_chat_history.
    destruct (plain_name student_id && plain_name assignment_id); [|done].
    destruct (chat_dirs _ !! assignment_id) as [dir|] eqn:Hdir; [|done].
    destruct (dir !! student_id) as [f|] eqn:Hf; [|done].
    intros [= <-]. by eapply Hfiles. }
  split.
  - intros i msg. by apply exchanges_roles.
  - by apply previous_is_transcript.
Qed.

Lemma served_chats_alternate_witness :
  (forall i msg, cf_conversation ChatExamples.bob_file !! i = Some msg ->
     m_role msg = if Nat.even i then py "student" else py "assistant")
  /\ Chat.previous (cf_conversation ChatExamples.bob_file)
     = Some (_format_conversation
               (List.map m_content (cf_conversation ChatExamples.bob_file))).
Proof.
  apply (served_chats_alternate ChatExamples.with_prompt
           (Chat.llm ChatExamples.fresh_chat)
           [ChatExamples.first_post; ChatExamples.second_post]
           (py "bob") (py "hw1") ChatExamples.bob_file).
  - vm_compute. reflexivity.
  - vm_compute. reflexivity.
Defined.

(** X27. In a service whose chats alternate, the prompt sent to the
    model for an answered message is the message itself in a new
    conversation, and otherwise the heading, the transcript of the
    conversation so far as the diagnostics would write it, and the
    message as a last student line; the system prompt is the stored
    prompt of the assignment with its line ends normalised. *)
Theorem context_is_transcript (timestamp saved_at : pystr)
    (self self' : Chat.StudentChatService)
    (student_id assignment_id message response session_id : pystr)
    (old : list stored_message) (text : pystr) :
  Chat.alternating self ->
  Chat.session self student_id assignment_id = Returns old ->
  prompt_files (Chat.db self) !! assignment_id = Some text ->
  Chat.send_message timestamp saved_at self student_id assignment_id message
  = (Returns (response, session_id), self') ->
  Chat.sent (Chat.llm self')
  = Chat.sent (Chat.llm self)
    ++ [{| Chat.c_prompt :=
             match old with
             | [] => message
             | _ :: _ =>
                 [10%N; 10%N] ++ py "Previous conversation:" ++ [10%N]
                 ++ _format_conversation (List.map m_content old)
                 ++ [10%N] ++ py "Student: " ++ message
             end;
           Chat.c_system := universal_newlines text |}].
Proof.
  intros Halt Hold Htext Hsend.
  pose proof (session_alternating _ _ _ _ Halt Hold) as Hex.
  pose proof (send_message_cases timestamp saved_at self student_id
                assignment_id message old Hold) as Hcases.
  cbv zeta in Hcases. rewrite Hsend in Hcases.
  destruct Hcases as [Hb | [(e & He & _) | (r & disk & pd & context & Heq
    & Hr & Hp & Hc & Hsave)]]; [done | done |].
  injection Heq as -> -> ->. cbn [Chat.llm Chat.sent]. do 3 f_equal.
  - unfold Chat._build_context in Hc.
    rewrite (previous_is_transcript old Hex) in Hc.
    destruct old; by injection Hc as <-.
  - unfold load_prompt in Hp.
    destruct (plain_name assignment_id); [|done].
    rewrite Htext in Hp. by injection Hp as <-.
Qed.

Lemma context_is_transcript_witness :
  Chat.sent (Chat.llm ChatExamples.after_second)
  = Chat.sent (Chat.llm ChatExamples.after_first)
    ++ [{| Chat.c_prompt :=
             [10%N; 10%N] ++ py "Previous conversation:" ++ [10%N]
             ++ _format_conversation
                  [py "What is a loop?"; py "A loop repeats a block."]
             ++ [10%N] ++ py "Student: " ++ py "How do I stop it?";
           Chat.c_system := universal_newlines (py "Give hints only.") |}].
Proof.
  apply (context_is_transcript (py "2024-11-15T14:31:00")
           (py "2024-11-15T14:31:01") ChatExamples.after_first
           ChatExamples.after_second (py "bob") (py "hw1")
           (py "How do I stop it?") (py "Try a counter.") (py "hw1_bob")
           (Chat.exchange (py "2024-11-15T14:30:22") (py "What is a loop?")
              (py "A loop repeats a block."))
           (py "Give hints only.")).
  - apply (serve_alternating ChatExamples.fresh_chat
             [ChatExamples.first_post]),
      (new_service_alternating ChatExamples.with_prompt).
    vm_compute. reflexivity.
  - vm_compute. reflexivity.
  - vm_compute. reflexivity.
  - vm_compute. reflexivity.
Defined.

End ChatProperties.

(** ** The prompt builder *)

Section PromptProperties.
Import Store.

(** What a call of [build_prompt] with an assignment text does, by
    the replies of the model. *)
Lemma build_prompt_inv (now : pystr) (self self' : Prompts.PromptBuilderService)
    (assignment_id professor_instructions : pystr)
    (metadata : option (list (pystr * json)))
    (assignment_text : option pystr) (b : Prompts.built) :
  Prompts.build_prompt now self assignment_id professor_instructions metadata
    assignment_text
  = (Returns b, self') ->
  exists text rest,
    assignment_text = Some text
    /\ Prompts.replies (Prompts.llm self)
       = Text (Prompts.restrictions b) :: Text (Prompts.validation b) :: rest
    /\ Prompts.final_prompt b
       = Prompts.BASE_SYSTEM_PROMPT ++ Prompts.restrictions b ++ [10%N; 10%N]
         ++ py "ASSIGNMENT:" ++ [10%N] ++ text
    /\ save_prompt now (Prompts.db self) assignment_id (Prompts.final_prompt b)
         metadata
       = Returns (Prompts.db self')
    /\ Prompts.llm self'
       = {| Prompts.replies := rest;
            Prompts.requests :=
              Prompts.requests (Prompts.llm self)
              ++ [Prompts.TranslateRequest
                    (professor_instructions ++ [10%N; 10%N]
                     ++ py "ASSIGNMENNT:" ++ [10%N] ++ text);
                  Prompts.ValidateRequest (Prompts.restrictions b)] |}.
Proof.
  unfold Prompts.build_prompt, Prompts.generate.
  destruct assignment_text as [text|]; [|done].
  destruct (Prompts.replies (Prompts.llm self)) as [|[r|] rest1]; [done| |done].
  cbn [Prompts.replies Prompts.requests tail].
  destruct rest1 as [|[v|] rest]; [done| |done].
  destruct (save_prompt now (Prompts.db self) assignment_id _ metadata)
    as [disk|e|] eqn:Hsave; [|done|done].
  intros [= <- <-]. exists text, rest.
  cbn [Prompts.final_prompt Prompts.restrictions Prompts.validation
       Prompts.db Prompts.llm].
  repeat split; [done|]. by rewrite <- app_assoc.
Qed.

(** X28. The validation is reported and nothing more: with another
    validation reply the same prompt is built and the same files are
    written. *)
Theorem validation_is_not_used (now : pystr)
    (self self' : Prompts.PromptBuilderService)
    (assignment_id professor_instructions : pystr)
    (metadata : option (list (pystr * json))) (assignment_text : option pystr)
    (r v other : pystr) (rest : list reply) (b : Prompts.built) :
  Prompts.replies (Prompts.llm self) = Text r :: Text v :: rest ->
  Prompts.build_prompt now self assignment_id professor_instructions metadata
    assignment_text
  = (Returns b, self') ->
  Prompts.build_prompt now
    {| Prompts.db := Prompts.db self;
       Prompts.llm :=
         {| Prompts.replies := Text r :: Text other :: rest;
            Prompts.requests := Prompts.requests (Prompts.llm self) |} |}
    assignment_id professor_instructions metadata assignment_text
  = (Returns {| Prompts.final_prompt := Prompts.final_prompt b;
                Prompts.restrictions := Prompts.restrictions b;
                Prompts.validation := other |},
     self').
Proof.
  intros Hreplies Hbuild.
  destruct (build_prompt_inv _ _ _ _ _ _ _ _ Hbuild)
    as (text & rest' & -> & Hr & Hfinal & Hsave & Hllm).
  rewrite Hreplies in Hr. injection Hr as Hr Hv <-.
  unfold Prompts.build_prompt, Prompts.generate.
  cbn [Prompts.replies Prompts.requests Prompts.llm Prompts.db tail].
  rewrite Hr, <- Hfinal, Hsave. f_equal.
  destruct self' as [disk' llm']. cbn [Prompts.db Prompts.llm] in *.
  rewrite Hllm. by rewrite <- app_assoc.
Qed.

Lemma validation_is_not_used_witness :
  Prompts.build_prompt StoreExamples.noon
    {| Prompts.db := empty_disk;
       Prompts.llm :=
         {| Prompts.replies := [Text (py "- no full solutions");
                                Text (py "Loophole: worked examples.")];
            Prompts.requests := [] |} |}
    (py "hw1") (py "Hints only.") None (Some (py "1. Write a loop."))
  = (Returns
       {| Prompts.final_prompt :=
            Prompts.BASE_SYSTEM_PROMPT ++ py "- no full solutions"
            ++ [10%N; 10%N] ++ py "ASSIGNMENT:" ++ [10%N]
            ++ py "1. Write a loop.";
          Prompts.restrictions := py "- no full solutions";
          Prompts.validation := py "Loophole: worked examples." |},
     snd (Prompts.build_prompt StoreExamples.noon
            (ChatExamples.builder "VALIDATED") (py "hw1") (py "Hints only.")
            None (Some (py "1. Write a loop.")))).
Proof.
  apply (validation_is_not_used StoreExamples.noon
           (ChatExamples.builder "VALIDATED") _ (py "hw1") (py "Hints only.")
           None (Some (py "1. Write a loop.")) (py "- no full solutions")
           (py "VALIDATED") (py "Loophole: worked examples.") []
           {| Prompts.final_prompt :=
                Prompts.BASE_SYSTEM_PROMPT ++ py "- no full solutions"
                ++ [10%N; 10%N] ++ py "ASSIGNMENT:" ++ [10%N]
                ++ py "1. Write a loop.";
              Prompts.restrictions := py "- no full solutions";
              Prompts.validation := py "VALIDATED" |}).
  - reflexivity.
  - vm_compute. reflexivity.
Defined.

(** Serving chat requests writes chat files only: the prompts and
    the metadata stay as they are. *)
Lemma send_message_keeps_prompts (timestamp saved_at : pystr)
    (self : Chat.StudentChatService)
    (student_id assignment_id message : pystr) :
  let self' :=
    snd (Chat.send_message timestamp saved_at self student_id assignment_id
           message) in
  prompt_files (Chat.db self') = prompt_files (Chat.db self)
  /\ metadata_file (Chat.db self') = metadata_file (Chat.db self).
Proof.
  cbv zeta. unfold Chat.send_message.
  destruct (Chat.session self student_id assignment_id) as [old|e|];
    [|done|done].
  destruct (load_prompt (Chat.db self) assignment_id) as [pd|e|];
    [|done|done].
  destruct (Chat._build_context old message) as [context|]; [|done].
  unfold Chat.generate.
  destruct (Chat.replies (Chat.llm self)) as [|[response|] rest];
    [done| |done].
  destruct (save_chat_history saved_at (Chat.db self) student_id assignment_id
              (old ++ Chat.exchange timestamp message response))
    as [disk|e|] eqn:Hsave; [|done|done].
  by apply save_chat_history_inv in Hsave as (_ & _ & ->).
Qed.

Lemma serve_keeps_prompts (self : Chat.StudentChatService)
    (posts : list Chat.post) (assignment_id : pystr) :
  load_prompt (Chat.db (Chat.serve self posts)) assignment_id
  = load_prompt (Chat.db self) assignment_id.
Proof.
  revert self. induction posts as [|p posts IH]; intros self; cbn; [done|].
  rewrite IH. unfold load_prompt.
  destruct (send_message_keeps_prompts (Chat.p_timestamp p) (Chat.p_saved_at p)
              self (Chat.p_student_id p) (Chat.p_assignment_id p)
              (Chat.p_message p)) as [-> ->].
  done.
Qed.

(** X29. The prompt that is built is the prompt the students'
    assistant runs under: it is the base prompt, the model's
    restrictions and the assignment text; it is what [load_prompt]
    returns for the assignment, line ends normalised; and in a chat
    service that starts over the same files, whatever requests it has
    served since, it is the system prompt of every answered chat
    message of that assignment. *)
Theorem built_prompt_is_served (now : pystr)
    (self self' : Prompts.PromptBuilderService)
    (assignment_id professor_instructions : pystr)
    (metadata : option (list (pystr * json))) (assignment_text : option pystr)
    (b : Prompts.built) :
  Prompts.build_prompt now self assignment_id professor_instructions metadata
    assignment_text
  = (Returns b, self') ->
  (exists text,
      assignment_text = Some text
      /\ Prompts.final_prompt b
         = Prompts.BASE_SYSTEM_PROMPT ++ Prompts.restrictions b
           ++ [10%N; 10%N] ++ py "ASSIGNMENT:" ++ [10%N] ++ text)
  /\ (exists entry,
         load_prompt (Prompts.db self') assignment_id
         = Returns {| pd_assignment_id := assignment_id;
                      pd_system_prompt :=
                        universal_newlines (Prompts.final_prompt b);
                      pd_metadata := Some entry |})
  /\ forall chat0 posts timestamp saved_at chat' student_id message response
            session_id,
       Chat.db chat0 = Prompts.db self' ->
       Chat.send_message timestamp saved_at (Chat.serve chat0 posts) student_id
         assignment_id message
       = (Returns (response, session_id), chat') ->
       exists context,
         Chat.sent (Chat.llm chat')
         = Chat.sent (Chat.llm (Chat.serve chat0 posts))
           ++ [{| Chat.c_prompt := context;
                  Chat.c_system :=
                    universal_newlines (Prompts.final_prompt b) |}].
Proof.
  intros Hbuild.
  destruct (build_prompt_inv _ _ _ _ _ _ _ _ Hbuild)
    as (text & rest & -> & Hr & Hfinal & Hsave & Hllm).
  apply save_prompt_inv in Hsave as (Ha & entry & _ & _ & _ & _ & _ & Hdisk).
  assert (Hload : load_prompt (Prompts.db self') assignment_id
                  = Returns {| pd_assignment_id := assignment_id;
                               pd_system_prompt :=
                                 universal_newlines (Prompts.final_prompt b);
                               pd_metadata := Some entry |}).
  { rewrite Hdisk. unfold load_prompt. rewrite Ha.
    cbn [prompt_files metadata_file].
    by rewrite lookup_insert_eq, dict_lookup_set. }
  split; [by exists text|]. split; [by exists entry|].
  intros chat0 posts timestamp saved_at chat' student_id message response
    session_id Hdb Hsend.
  set (chat := Chat.serve chat0 posts) in *.
  destruct (Chat.session chat student_id assignment_id) as [old|e|] eqn:Hold.
  2,3: unfold Chat.send_message in Hsend; rewrite Hold in Hsend; done.
  pose proof (send_message_cases timestamp saved_at chat student_id
                assignment_id message old Hold) as Hcases.
  cbv zeta in Hcases. rewrite Hsend in Hcases.
  destruct Hcases as [Hb | [(e & He & _) | (r & disk & pd & context & Heq
    & _ & Hp & _ & _)]]; [done | done |].
  injection Heq as -> -> ->. exists context. cbn [Chat.llm Chat.sent].
  unfold chat in Hp. rewrite serve_keeps_prompts, Hdb, Hload in Hp.
  by injection Hp as <-.
Qed.

Lemma built_prompt_is_served_witness :
  exists context,
    Chat.sent (Chat.llm (Chat.serve ChatExamples.built_chat
                           [ChatExamples.first_post; ChatExamples.second_post]))
    = Chat.sent (Chat.llm (Chat.serve ChatExamples.built_chat
                             [ChatExamples.first_post]))
      ++ [{| Chat.c_prompt := context;
             Chat.c_system :=
               universal_newlines
                 (Prompts.BASE_SYSTEM_PROMPT ++ py "- no full solutions"
                  ++ [10%N; 10%N] ++ py "ASSIGNMENT:" ++ [10%N]
                  ++ py "1. Write a loop.") |}].
Proof.
  refine (proj2 (proj2
            (built_prompt_is_served StoreExamples.noon
               (ChatExamples.builder "VALIDATED") ChatExamples.built
               (py "hw1") (py "Hints only.") None
               (Some (py "1. Write a loop."))
               {| Prompts.final_prompt :=
                    Prompts.BASE_SYSTEM_PROMPT ++ py "- no full solutions"
                    ++ [10%N; 10%N] ++ py "ASSIGNMENT:" ++ [10%N]
                    ++ py "1. Write a loop.";
                  Prompts.restrictions := py "- no full solutions";
                  Prompts.validation := py "VALIDATED" |} _))
            ChatExamples.built_chat [ChatExamples.first_post]
            (py "2024-11-15T14:31:00") (py "2024-11-15T14:31:01")
            (Chat.serve ChatExamples.built_chat
               [ChatExamples.first_post; ChatExamples.second_post])
            (py "bob") (py "How do I stop it?") (py "Try a counter.")
            (py "hw1_bob") _ _).
  - vm_compute. reflexivity.
  - reflexivity.
  - vm_compute. reflexivity.
Defined.

(** X30. A build that fails for want of an assignment text or because
    the model fails writes nothing: without an assignment text it
    raises a type error before the model is asked anything; when the
    model fails at the translation, or at the validation after the
    restrictions were obtained, it raises the provider's error and
    the store is what it was.  These are the only ways in which the
    build raises before it starts to save. *)
Theorem failed_build_saves_nothing (now : pystr)
    (self : Prompts.PromptBuilderService)
    (assignment_id professor_instructions : pystr)
    (metadata : option (list (pystr * json))) (assignment_text : option pystr) :
  let r :=
    Prompts.build_prompt now self assignment_id professor_instructions metadata
      assignment_text in
  (assignment_text = None -> r = (Raises (Pipeline TypeError), self))
  /\ (forall text,
        assignment_text = Some text ->
        (forall t, head (Prompts.replies (Prompts.llm self)) <> Some (Text t)) ->
        fst r = Raises (Pipeline ProviderError)
        /\ Prompts.db (snd r) = Prompts.db self
        /\ length (Prompts.requests (Prompts.llm (snd r)))
           = length (Prompts.requests (Prompts.llm self)) + 1)
  /\ (forall text t rest,
        assignment_text = Some text ->
        Prompts.replies (Prompts.llm self) = Text t :: rest ->
        (forall v, head rest <> Some (Text v)) ->
        fst r = Raises (Pipeline ProviderError)
        /\ Prompts.db (snd r) = Prompts.db self
        /\ length (Prompts.requests (Prompts.llm (snd r)))
           = length (Prompts.requests (Prompts.llm self)) + 2)
  /\ (forall e,
        fst r = Raises e ->
        Prompts.db (snd r) = Prompts.db self
        /\ match assignment_text with
           | None => e = Pipeline TypeError
           | Some _ =>
               e = Pipeline ProviderError
               /\ forall t v rest,
                    Prompts.replies (Prompts.llm self)
                    <> Text t :: Text v :: rest
           end).
Proof.
  cbv zeta. unfold Prompts.build_prompt, Prompts.generate.
  split; [by intros ->|]. split; [|split].
  - intros text -> Hhead.
    destruct (Prompts.replies (Prompts.llm self)) as [|[t|] rest1];
      [| exfalso; by eapply Hhead |];
      cbn [fst snd Prompts.db Prompts.llm Prompts.requests];
      rewrite length_app; done.
  - intros text t rest -> -> Hhead.
    cbn [Prompts.replies Prompts.requests tail].
    destruct rest as [|[v|] rest]; [| exfalso; by eapply Hhead |];
      cbn [fst snd Prompts.db Prompts.llm Prompts.requests];
      rewrite !length_app; cbn [length]; (split; [done|]; split; [done|lia]).
  - intros e.
    destruct assignment_text as [text|]; [|by intros [= <-]].
    destruct (Prompts.replies (Prompts.llm self)) as [|[t|] rest1];
      [by intros [= <-] | | by intros [= <-]].
    cbn [Prompts.replies Prompts.requests tail].
    destruct rest1 as [|[v|] rest];
      [by intros [= <-] | | by intros [= <-]].
    destruct (save_prompt now (Prompts.db self) assignment_id _ metadata)
      as [disk|e'|] eqn:Hsave; [done| |done].
    unfold save_prompt in Hsave.
    destruct (plain_name assignment_id && storable _ && storable now); [|done].
    by repeat case_match.
Qed.

Lemma failed_build_saves_nothing_witness :
  let r :=
    Prompts.build_prompt StoreExamples.noon
      {| Prompts.db := ChatExamples.with_prompt;
         Prompts.llm :=
           {| Prompts.replies := [Text (py "- no full solutions")];
              Prompts.requests := [] |} |}
      (py "hw2") (py "Hints only.") None (Some (py "1. Write a loop.")) in
  fst r = Raises (Pipeline ProviderError)
  /\ Prompts.db (snd r) = ChatExamples.with_prompt
  /\ length (Prompts.requests (Prompts.llm (snd r))) = 2.
Proof.
  refine (proj1 (proj2 (proj2
            (failed_build_saves_nothing StoreExamples.noon
               {| Prompts.db := ChatExamples.with_prompt;
                  Prompts.llm :=
                    {| Prompts.replies := [Text (py "- no full solutions")];
                       Prompts.requests := [] |} |}
               (py "hw2") (py "Hints only.") None
               (Some (py "1. Write a loop.")))))
            (py "1. Write a loop.") (py "- no full solutions") []
            eq_refl eq_refl _).
  intros v. discriminate.
Defined.

End PromptProperties.
